(** * YieldSnap: the numeric routines of the dashboard, embedded and checked

    The development follows the source files: the yield strategy planner
    (projection, break-even day), the portfolio tracker (risk score,
    aggregates, simulated days, the component's state and handlers,
    portfolio health), the yield service and the liquidity-pair route.

    Conventions of the embedding:
    - a JavaScript number is an IEEE 754 binary64 value, here a primitive
      float, whose [+], [-], [*], [/], [sqrt] and comparisons are the same
      correctly rounded operations; loop counters and day counts that only
      take integer values are in [Z] or [nat];
    - [Math.pow], the clock and the date formatting come from outside and
      are parameters of the definitions that use them;
    - React state is a record, and every handler is a function from the
      state it reads to the state its setters produce;
    - strings are ASCII texts;
    - a definition is named after the source function or local it embeds. *)

From Stdlib Require Import ZArith List String Ascii Bool Lia Floats DecimalString.
From Stdlib Require DecimalPos DecimalZ.
Import ListNotations.

Set Warnings "-inexact-float".
Local Open Scope float_scope.

(** ** JavaScript helpers *)

Module JS.

(** [isNaN] on a value that is already a number. *)
Definition isNaN (x : float) : bool := PrimFloat.is_nan x.

(** Truthiness of a number: [0], [-0] and [NaN] are falsy. *)
Definition truthy (x : float) : bool := negb (PrimFloat.is_nan x || PrimFloat.is_zero x).

(** [x || d] on numbers. *)
Definition orElse (x d : float) : float := if truthy x then x else d.

Definition two52 : float := 4503599627370496.

(** [Math.round]: the nearest integer, ties towards +Infinity; NaN, the
    infinities and every value of magnitude 2^52 or more are returned as
    they are, and a negative argument that rounds to zero gives -0. *)
Definition Math_round (x : float) : float :=
  if PrimFloat.is_nan x then x
  else if two52 <=? abs x then x
  else
    let a := abs x in
    let t := (a + two52) - two52 in
    let fl := if a <? t then t - 1 else t in
    let frac := a - fl in
    if PrimFloat.get_sign x
    then - (if 0.5 <? frac then fl + 1 else fl)
    else (if 0.5 <=? frac then fl + 1 else fl).

(** [Math.max] and [Math.min] of two numbers: NaN is contagious and
    [-0] is below [+0]. *)
Definition Math_max (a b : float) : float :=
  if PrimFloat.is_nan a || PrimFloat.is_nan b then nan
  else if a <? b then b
  else if b <? a then a
  else if PrimFloat.get_sign a then b else a.

Definition Math_min (a b : float) : float :=
  if PrimFloat.is_nan a || PrimFloat.is_nan b then nan
  else if a <? b then a
  else if b <? a then b
  else if PrimFloat.get_sign a then a else b.

Definition Math_abs (x : float) : float := abs x.

(** A small non-negative integer as a number. *)
Definition num (n : nat) : float := PrimFloat.of_uint63 (Uint63.of_Z (Z.of_nat n)).

(** [arr.reduce((sum, x) => sum + f(x), 0)]. *)
Definition sumBy {A : Type} (f : A -> float) (l : list A) : float :=
  fold_left (fun sum x => sum + f x) l 0.

(** [arr.findIndex(pred)], [-1] when no element satisfies [pred]. *)
Fixpoint findIndexFrom {A : Type} (pred : A -> bool) (l : list A) (i : Z) : Z :=
  match l with
  | [] => (-1)%Z
  | x :: rest => if pred x then i else findIndexFrom pred rest (i + 1)%Z
  end.

Definition findIndex {A : Type} (pred : A -> bool) (l : list A) : Z :=
  findIndexFrom pred l 0%Z.

(** [arr.includes(s)] on an array of strings. *)
Definition includes (arr : list string) (s : string) : bool :=
  existsb (String.eqb s) arr.

(** ASCII case mapping, as [toLowerCase] and [toUpperCase] act on it. *)
Definition lowerChar (c : ascii) : ascii :=
  let n := nat_of_ascii c in
  if (65 <=? n)%nat && (n <=? 90)%nat then ascii_of_nat (n + 32) else c.

Definition upperChar (c : ascii) : ascii :=
  let n := nat_of_ascii c in
  if (97 <=? n)%nat && (n <=? 122)%nat then ascii_of_nat (n - 32) else c.

Fixpoint mapString (f : ascii -> ascii) (s : string) : string :=
  match s with
  | EmptyString => EmptyString
  | String c r => String (f c) (mapString f r)
  end.

Definition toLowerCase : string -> string := mapString lowerChar.
Definition toUpperCase : string -> string := mapString upperChar.

(** [s.includes(p)]: [p] occurs in [s] as a contiguous substring. *)
Fixpoint strIncludes (p s : string) : bool :=
  String.prefix p s ||
  match s with
  | EmptyString => false
  | String _ r => strIncludes p r
  end.

End JS.

(** ** Yield strategy planner (projection and break-even day) *)

Module Planner.
Import JS.

Record ProjectionPoint := {
  day : Z;
  totalValue : float;
  cumulativeYield : float;
  netProfit : float
}.

(** The component's inputs: the opportunity's APR, the entry gas cost read
    from the opportunity, and the three form fields. *)
Record Inputs := {
  apr : float;
  entryGasCost : float;
  investmentAmount : float;
  timeHorizon : Z;
  reinvestYield : bool
}.

Definition exitGasCost (i : Inputs) : float := entryGasCost i * 0.8.
Definition totalGasCost (i : Inputs) : float := entryGasCost i + exitGasCost i.
Definition dailyRate (i : Inputs) : float := apr i / 365 / 100.
Definition effectiveApr (i : Inputs) : float := if 0 <? apr i then apr i else 5.
Definition effectiveDailyRate (i : Inputs) : float := effectiveApr i / 365 / 100.

(** The body of the [for] loop: [n] iterations are left, [day] is the loop
    variable, [currentAmount] and [cumulativeYield] are the two locals. *)
Fixpoint projectionLoop (i : Inputs) (n : nat) (day : Z)
         (currentAmount cumulativeYield : float) : list ProjectionPoint :=
  match n with
  | O => []
  | S n' =>
    let dailyYield := currentAmount * effectiveDailyRate i in
    let cumulativeYield := cumulativeYield + dailyYield in
    let currentAmount :=
      if reinvestYield i then currentAmount + dailyYield else currentAmount in
    let netProfit := cumulativeYield - totalGasCost i in
    {| day := day;
       totalValue := if reinvestYield i then currentAmount
                     else investmentAmount i + cumulativeYield;
       cumulativeYield := cumulativeYield;
       netProfit := netProfit |}
    :: projectionLoop i n' (day + 1)%Z currentAmount cumulativeYield
  end.

(** [for (let day = 0; day <= timeHorizon; day++)]. *)
Definition generateProjectionData (i : Inputs) : list ProjectionPoint :=
  projectionLoop i (Z.to_nat (timeHorizon i + 1)) 0%Z (investmentAmount i) 0.

Definition projectionData := generateProjectionData.

Definition breakEvenDayOf (data : list ProjectionPoint) : Z :=
  findIndex (fun d => 0 <? netProfit d) data.

Definition breakEvenDay (i : Inputs) : Z := breakEvenDayOf (projectionData i).

(** One day of compounding, and [k] of them. *)
Definition compoundDay (r c : float) : float := c + c * r.

Fixpoint compound (r : float) (k : nat) (c : float) : float :=
  match k with
  | O => c
  | S k' => compound r k' (compoundDay r c)
  end.

(** [b] multiplied by itself [k] times, from 1. *)
Fixpoint powN (b : float) (k : nat) : float :=
  match k with
  | O => 1
  | S k' => powN b k' * b
  end.

End Planner.

(** ** Portfolio tracker *)

Module RewardToken.
Record t := {
  symbol : string;
  amount : float;
  value : float;
  apr : float
}.
End RewardToken.

Module Investment.
Record t := {
  id : string;
  poolId : string;
  poolName : string;
  protocol : string;
  amount : float;
  apy : float;
  startDate : string;
  dailyEarnings : list float;
  totalEarnings : float;
  currentValue : float;
  impermanentLoss : float;
  tradingFees : float;
  rewardTokens : list RewardToken.t;
  riskScore : float;
  volatility : float
}.
End Investment.

Module Portfolio.
Record t := {
  investments : list Investment.t;
  totalInvested : float;
  totalCurrentValue : float;
  totalEarnings : float;
  averageApy : float
}.
End Portfolio.

Module PortfolioHealth.
(** The numeric scores and the two names; the two formatted texts
    (risk concentration, recommendations) are left out. *)
Record t := {
  diversificationScore : float;
  riskScore : float;
  performanceScore : float;
  overallHealthScore : float;
  topPerformer : option string;
  underperformer : option string
}.
End PortfolioHealth.

Module Tracker.
Import JS.

(** [safeNumber(value, defaultValue)]: a NaN (and, after a JSON round trip,
    the null that stands for one) gives way to the default. *)
Definition safeNumber (value defaultValue : float) : float :=
  if isNaN value then defaultValue else value.

Definition safeRewardTokens (investment : Investment.t) : list RewardToken.t :=
  Investment.rewardTokens investment.

Definition safeImpermanentLoss (investment : Investment.t) : float :=
  safeNumber (Investment.impermanentLoss investment) 0.
Definition safeTradingFees (investment : Investment.t) : float :=
  safeNumber (Investment.tradingFees investment) 0.
Definition safeVolatility (investment : Investment.t) : float :=
  safeNumber (Investment.volatility investment) 0.
Definition safeRiskScore (investment : Investment.t) : float :=
  safeNumber (Investment.riskScore investment) 50.

Definition calculateTotalRewardValue (investment : Investment.t) : float :=
  fold_left (fun sum token => sum + RewardToken.value token)
            (safeRewardTokens investment) 0.

(** The portfolio a first visit starts from. *)
Definition emptyPortfolio : Portfolio.t :=
  {| Portfolio.investments := [];
     Portfolio.totalInvested := 0;
     Portfolio.totalCurrentValue := 0;
     Portfolio.totalEarnings := 0;
     Portfolio.averageApy := 0 |}.

(** [list.some(p => protocolLower.includes(p))]. *)
Definition someIncluded (names : list string) (protocolLower : string) : bool :=
  existsb (fun p => strIncludes p protocolLower) names.

Definition calculateInvestmentRiskScore (protocol : string) (volatility apy : float) : float :=
  let safeVolatility := if negb (isNaN volatility) then volatility else 5 in
  let safeApy := if negb (isNaN apy) then apy else 5 in
  let riskScore := 50 in
  let protocolLower := toLowerCase protocol in
  let riskScore :=
    if someIncluded ["uniswap"; "curve"; "aave"; "compound"]%string protocolLower
    then riskScore - 10
    else if someIncluded ["sushiswap"; "balancer"; "yearn"]%string protocolLower
    then riskScore - 5
    else if someIncluded ["pancakeswap"; "quickswap"]%string protocolLower
    then riskScore + 5
    else riskScore + 10 in
  let riskScore :=
    if safeVolatility <? 5 then riskScore - 10
    else if 20 <? safeVolatility then riskScore + 15
    else if 10 <? safeVolatility then riskScore + 5
    else riskScore in
  let riskScore :=
    if 100 <? safeApy then riskScore + 20
    else if 50 <? safeApy then riskScore + 10
    else if 20 <? safeApy then riskScore + 5
    else riskScore in
  Math_max 0 (Math_min 100 riskScore).

(** The form behind the "Add Investment" dialog. *)
Record NewInvestment := {
  newPoolName : string;
  newProtocol : string;
  newAmount : float;
  newApy : float;
  newStartDate : string;
  newVolatility : float;
  newRewardTokens : list RewardToken.t
}.

(** [`inv-${Date.now()}`]. *)
Definition investmentId (now : Z) : string :=
  ("inv-" ++ DecimalString.NilZero.string_of_int (Z.to_int now))%string.

Definition defaultRewardTokens (f : NewInvestment) (estimatedRewardValue : float)
  : list RewardToken.t :=
  match newRewardTokens f with
  | _ :: _ => newRewardTokens f
  | [] =>
    if strIncludes "uniswap" (toLowerCase (newProtocol f)) then
      [ {| RewardToken.symbol := "UNI";
           RewardToken.amount := estimatedRewardValue / 5;
           RewardToken.value := estimatedRewardValue;
           RewardToken.apr := newApy f * 0.3 |} ]
    else if strIncludes "sushi" (toLowerCase (newProtocol f)) then
      [ {| RewardToken.symbol := "SUSHI";
           RewardToken.amount := estimatedRewardValue / 1.2;
           RewardToken.value := estimatedRewardValue;
           RewardToken.apr := newApy f * 0.3 |} ]
    else
      [ {| RewardToken.symbol := toUpperCase (String.substring 0 4 (newProtocol f));
           RewardToken.amount := estimatedRewardValue / 2;
           RewardToken.value := estimatedRewardValue;
           RewardToken.apr := newApy f * 0.3 |} ]
  end.

Section WithPow.
(** [Math.pow], which the language leaves implementation-approximated. *)
Variable Math_pow : float -> float -> float.

(** The investment the dialog's values describe. *)
Definition buildInvestment (now : Z) (f : NewInvestment) : Investment.t :=
  let id := investmentId now in
  let dailyRate := newApy f / 365 / 100 in
  let dailyEarning := newAmount f * dailyRate in
  let estimatedVolatility := orElse (newVolatility f) 5 in
  let estimatedImpermanentLoss :=
    newAmount f * Math_pow (estimatedVolatility / 100) 2 * 25 in
  let estimatedTradingFees := dailyEarning * 0.7 in
  let estimatedRewardValue := dailyEarning * 0.3 in
  let riskScore :=
    calculateInvestmentRiskScore (newProtocol f) estimatedVolatility (newApy f) in
  {| Investment.id := id;
     Investment.poolId := id;
     Investment.poolName := newPoolName f;
     Investment.protocol := newProtocol f;
     Investment.amount := newAmount f;
     Investment.apy := newApy f;
     Investment.startDate := newStartDate f;
     Investment.dailyEarnings := [dailyEarning];
     Investment.totalEarnings := 0;
     Investment.currentValue := newAmount f;
     Investment.impermanentLoss := estimatedImpermanentLoss;
     Investment.tradingFees := estimatedTradingFees;
     Investment.rewardTokens := defaultRewardTokens f estimatedRewardValue;
     Investment.riskScore := riskScore;
     Investment.volatility := estimatedVolatility |}.

(** The portfolio [addInvestment] hands to [setPortfolio]. *)
Definition addInvestment (now : Z) (f : NewInvestment) (portfolio : Portfolio.t)
  : Portfolio.t :=
  let investment := buildInvestment now f in
  let updatedInvestments := Portfolio.investments portfolio ++ [investment] in
  let totalInvested := sumBy Investment.amount updatedInvestments in
  let totalCurrentValue := sumBy Investment.currentValue updatedInvestments in
  let totalEarnings := totalCurrentValue - totalInvested in
  let averageApy :=
    sumBy (fun inv => Investment.apy inv * Investment.amount inv) updatedInvestments
    / totalInvested in
  {| Portfolio.investments := updatedInvestments;
     Portfolio.totalInvested := totalInvested;
     Portfolio.totalCurrentValue := totalCurrentValue;
     Portfolio.totalEarnings := totalEarnings;
     Portfolio.averageApy := averageApy |}.
End WithPow.

(** The portfolio [removeInvestment] hands to [setPortfolio]. *)
Definition removeInvestment (id : string) (portfolio : Portfolio.t) : Portfolio.t :=
  let updatedInvestments :=
    filter (fun inv => negb (String.eqb (Investment.id inv) id))
           (Portfolio.investments portfolio) in
  match updatedInvestments with
  | [] =>
    {| Portfolio.investments := [];
       Portfolio.totalInvested := 0;
       Portfolio.totalCurrentValue := 0;
       Portfolio.totalEarnings := 0;
       Portfolio.averageApy := 0 |}
  | _ :: _ =>
    let totalInvested := sumBy Investment.amount updatedInvestments in
    let totalCurrentValue := sumBy Investment.currentValue updatedInvestments in
    let totalEarnings := totalCurrentValue - totalInvested in
    let averageApy :=
      sumBy (fun inv => Investment.apy inv * Investment.amount inv) updatedInvestments
      / totalInvested in
    {| Portfolio.investments := updatedInvestments;
       Portfolio.totalInvested := totalInvested;
       Portfolio.totalCurrentValue := totalCurrentValue;
       Portfolio.totalEarnings := totalEarnings;
       Portfolio.averageApy := averageApy |}
  end.

(** *** Simulated days *)

(** [JSON.parse(JSON.stringify(x))] on a number: [-0] is written as 0, and
    JSON has no NaN and no infinities, they are written as null.  The null
    is kept as NaN: [safeNumber], through which a simulated day reads every
    number of the copy, takes both for no number.  The numbers a simulated
    day hands on unread (amount, APY, risk score, volatility) are finite
    when they come from the form, and a finite number is copied as it is;
    were one of them not finite, the sums of [addInvestment],
    [removeInvestment] and [calculatePortfolioHealth], which read without
    a guard, would count its null as 0 where this embedding has NaN. *)
Definition jsonNumber (x : float) : float :=
  if PrimFloat.is_finite x then (if PrimFloat.is_zero x then 0 else x) else nan.

Definition jsonRewardToken (t : RewardToken.t) : RewardToken.t :=
  {| RewardToken.symbol := RewardToken.symbol t;
     RewardToken.amount := jsonNumber (RewardToken.amount t);
     RewardToken.value := jsonNumber (RewardToken.value t);
     RewardToken.apr := jsonNumber (RewardToken.apr t) |}.

Definition jsonInvestment (i : Investment.t) : Investment.t :=
  {| Investment.id := Investment.id i;
     Investment.poolId := Investment.poolId i;
     Investment.poolName := Investment.poolName i;
     Investment.protocol := Investment.protocol i;
     Investment.amount := jsonNumber (Investment.amount i);
     Investment.apy := jsonNumber (Investment.apy i);
     Investment.startDate := Investment.startDate i;
     Investment.dailyEarnings := map jsonNumber (Investment.dailyEarnings i);
     Investment.totalEarnings := jsonNumber (Investment.totalEarnings i);
     Investment.currentValue := jsonNumber (Investment.currentValue i);
     Investment.impermanentLoss := jsonNumber (Investment.impermanentLoss i);
     Investment.tradingFees := jsonNumber (Investment.tradingFees i);
     Investment.rewardTokens := map jsonRewardToken (Investment.rewardTokens i);
     Investment.riskScore := jsonNumber (Investment.riskScore i);
     Investment.volatility := jsonNumber (Investment.volatility i) |}.

(** The deep copy the simulation works on. *)
Definition jsonClone (p : Portfolio.t) : Portfolio.t :=
  {| Portfolio.investments := map jsonInvestment (Portfolio.investments p);
     Portfolio.totalInvested := jsonNumber (Portfolio.totalInvested p);
     Portfolio.totalCurrentValue := jsonNumber (Portfolio.totalCurrentValue p);
     Portfolio.totalEarnings := jsonNumber (Portfolio.totalEarnings p);
     Portfolio.averageApy := jsonNumber (Portfolio.averageApy p) |}.

Definition growthMultiplier : float := 1.5.

(** A positive day count as a number. *)
Definition daysToNumber (d : Z) : float :=
  PrimFloat.of_uint63 (Uint63.of_Z d).

Section WithClock.
(** [differenceInDays(new Date(), new Date(startDate))] for a start date
    that is present and parses, [None] otherwise. *)
Variable daysSince : string -> option Z.

Definition simulateInvestment (investment : Investment.t) : Investment.t :=
  let amount := safeNumber (Investment.amount investment) 0 in
  let apy := safeNumber (Investment.apy investment) 5 in
  let currentValue := safeNumber (Investment.currentValue investment) amount in
  let totalEarnings := safeNumber (Investment.totalEarnings investment) 0 in
  let impermanentLoss := safeNumber (Investment.impermanentLoss investment) 0 in
  let tradingFees := safeNumber (safeTradingFees investment) 0 in
  let dailyRate := (apy / 365 / 100) * growthMultiplier in
  let dailyEarning := currentValue * dailyRate in
  let daysSinceStart :=
    match daysSince (Investment.startDate investment) with
    | Some d => Z.max 1 (d + 1)
    | None => 1%Z
    end in
  let dailyImpermanentLoss :=
    (impermanentLoss / PrimFloat.sqrt (daysToNumber daysSinceStart)) * 0.1 in
  let dailyTradingFees := dailyEarning * 0.7 in
  let dailyRewardValue := dailyEarning * 0.3 in
  let updatedRewardTokens :=
    map (fun token =>
           let tokenValue := safeNumber (RewardToken.value token) 1 in
           let tokenAmount := safeNumber (RewardToken.amount token) 0 in
           {| RewardToken.symbol := RewardToken.symbol token;
              RewardToken.amount :=
                tokenAmount + (dailyRewardValue / tokenValue) * tokenAmount;
              RewardToken.value := tokenValue + dailyRewardValue;
              RewardToken.apr := RewardToken.apr token |})
        (safeRewardTokens investment) in
  let netDailyEarning := dailyTradingFees + dailyRewardValue - dailyImpermanentLoss in
  let newTotalEarnings := totalEarnings + netDailyEarning in
  let newCurrentValue := amount + newTotalEarnings in
  {| Investment.id := Investment.id investment;
     Investment.poolId := Investment.poolId investment;
     Investment.poolName := Investment.poolName investment;
     Investment.protocol := Investment.protocol investment;
     Investment.amount := Investment.amount investment;
     Investment.apy := Investment.apy investment;
     Investment.startDate := Investment.startDate investment;
     Investment.dailyEarnings := Investment.dailyEarnings investment ++ [netDailyEarning];
     Investment.totalEarnings := newTotalEarnings;
     Investment.currentValue := newCurrentValue;
     Investment.impermanentLoss := impermanentLoss + dailyImpermanentLoss;
     Investment.tradingFees := tradingFees + dailyTradingFees;
     Investment.rewardTokens :=
       match updatedRewardTokens with
       | _ :: _ => updatedRewardTokens
       | [] => Investment.rewardTokens investment
       end;
     Investment.riskScore := Investment.riskScore investment;
     Investment.volatility := Investment.volatility investment |}.

Definition simulateSingleDayWithoutStateUpdate (currentPortfolio : Portfolio.t)
  : Portfolio.t :=
  let updatedInvestments :=
    map simulateInvestment (Portfolio.investments currentPortfolio) in
  let totalInvested :=
    sumBy (fun inv => safeNumber (Investment.amount inv) 0) updatedInvestments in
  let totalCurrentValue :=
    sumBy (fun inv => safeNumber (Investment.currentValue inv) 0) updatedInvestments in
  let totalEarnings := totalCurrentValue - totalInvested in
  let averageApy :=
    if 0 <? totalInvested
    then sumBy (fun inv => safeNumber (Investment.apy inv) 0
                           * safeNumber (Investment.amount inv) 0)
               updatedInvestments
         / totalInvested
    else 0 in
  {| Portfolio.investments := updatedInvestments;
     Portfolio.totalInvested := totalInvested;
     Portfolio.totalCurrentValue := totalCurrentValue;
     Portfolio.totalEarnings := totalEarnings;
     Portfolio.averageApy := averageApy |}.

(** [for (let i = 0; i < days; i++) p = simulateSingleDay...(p)]. *)
Fixpoint simulateDays (days : nat) (simulatedPortfolio : Portfolio.t) : Portfolio.t :=
  match days with
  | O => simulatedPortfolio
  | S n => simulateDays n (simulateSingleDayWithoutStateUpdate simulatedPortfolio)
  end.
End WithClock.

(** *** Component state and its handlers *)

Record HistoryPoint := {
  date : string;
  value : float
}.

Record SimulationSummary := {
  initialValue : float;
  finalValue : float;
  totalGrowth : float;
  percentageGrowth : float;
  dailyAverage : float;
  projectedAnnualReturn : float
}.

Record RecentChanges := {
  changesTotalInvested : float;
  oldTotalValue : float;
  newTotalValue : float;
  oldTotalEarnings : float;
  newTotalEarnings : float;
  valueChange : float;
  earningsChange : float;
  changesDate : string
}.

(** A running [setInterval] and the locals its callback closes over. *)
Record Timer := {
  days : Z;
  currentDay : Z;
  simulatedPortfolio : Portfolio.t;
  history : list HistoryPoint
}.

(** The component's state that the handlers below read or write, the value
    kept under the local-storage key ['yield-snap-portfolio'] (as the
    portfolio whose JSON text it is) and the intervals still running. *)
Record State := {
  portfolio : Portfolio.t;
  storage : option Portfolio.t;
  isAddingInvestment : bool;
  recentChanges : option RecentChanges;
  showChanges : bool;
  simulationDays : Z;
  isSimulating : bool;
  showSimulationDialog : bool;
  simulationProgress : float;
  simulationHistory : list HistoryPoint;
  simulationComplete : bool;
  simulationSummary : option SimulationSummary;
  simulatedPortfolioResult : option Portfolio.t;
  intervals : list Timer
}.

(** First render with nothing saved; the persistence effect has run. *)
Definition initialState : State :=
  {| portfolio := emptyPortfolio;
     storage := Some emptyPortfolio;
     isAddingInvestment := false;
     recentChanges := None;
     showChanges := false;
     simulationDays := 1;
     isSimulating := false;
     showSimulationDialog := false;
     simulationProgress := 0;
     simulationHistory := [];
     simulationComplete := false;
     simulationSummary := None;
     simulatedPortfolioResult := None;
     intervals := [] |}.

(** [setPortfolio(p)] followed by the effect on [[portfolio]] that writes
    the new value to local storage. *)
Definition setPortfolio (p : Portfolio.t) (s : State) : State :=
  {| portfolio := p;
     storage := Some p;
     isAddingInvestment := isAddingInvestment s;
     recentChanges := recentChanges s;
     showChanges := showChanges s;
     simulationDays := simulationDays s;
     isSimulating := isSimulating s;
     showSimulationDialog := showSimulationDialog s;
     simulationProgress := simulationProgress s;
     simulationHistory := simulationHistory s;
     simulationComplete := simulationComplete s;
     simulationSummary := simulationSummary s;
     simulatedPortfolioResult := simulatedPortfolioResult s;
     intervals := intervals s |}.

(** The simulation's own pieces of state, written together. *)
Definition setSimulation (running : bool) (progress : float)
           (hist : list HistoryPoint) (complete : bool)
           (summary : option SimulationSummary) (result : option Portfolio.t)
           (timers : list Timer) (s : State) : State :=
  {| portfolio := portfolio s;
     storage := storage s;
     isAddingInvestment := isAddingInvestment s;
     recentChanges := recentChanges s;
     showChanges := showChanges s;
     simulationDays := simulationDays s;
     isSimulating := running;
     showSimulationDialog := showSimulationDialog s;
     simulationProgress := progress;
     simulationHistory := hist;
     simulationComplete := complete;
     simulationSummary := summary;
     simulatedPortfolioResult := result;
     intervals := timers |}.

Definition setDialogs (adding : bool) (changes : option RecentChanges)
           (showCh : bool) (simDays : Z) (showSim : bool) (s : State) : State :=
  {| portfolio := portfolio s;
     storage := storage s;
     isAddingInvestment := adding;
     recentChanges := changes;
     showChanges := showCh;
     simulationDays := simDays;
     isSimulating := isSimulating s;
     showSimulationDialog := showSim;
     simulationProgress := simulationProgress s;
     simulationHistory := simulationHistory s;
     simulationComplete := simulationComplete s;
     simulationSummary := simulationSummary s;
     simulatedPortfolioResult := simulatedPortfolioResult s;
     intervals := intervals s |}.

(** Replace or drop the [k]-th running interval. *)
Fixpoint updateTimer (k : nat) (t : option Timer) (l : list Timer) : list Timer :=
  match l, k with
  | [], _ => []
  | _ :: rest, O => match t with Some t' => t' :: rest | None => rest end
  | x :: rest, S k' => x :: updateTimer k' t rest
  end.

(** What the handlers take from outside: [Math.pow], the clock behind
    [differenceInDays(new Date(), ...)], the label [format(d, 'MMM dd')] of
    the day [n] days after the simulation began. *)
Record Env := {
  Math_pow : float -> float -> float;
  daysSince : string -> option Z;
  formatDay : Z -> string
}.

Section Handlers.
Variable env : Env.

Definition onAddInvestment (now : Z) (f : NewInvestment) (s : State) : State :=
  let s := setPortfolio (addInvestment (Math_pow env) now f (portfolio s)) s in
  setDialogs false (recentChanges s) (showChanges s) (simulationDays s)
             (showSimulationDialog s) s.

Definition onRemoveInvestment (id : string) (s : State) : State :=
  setPortfolio (removeInvestment id (portfolio s)) s.

(** [simulateDailyUpdate(days, showProgress)]. *)
Definition simulateDailyUpdate (days : Z) (showProgress : bool) (s : State) : State :=
  if (days <=? 0)%Z || (List.length (Portfolio.investments (portfolio s)) =? 0)%nat
  then s
  else if showProgress then
    let initialValue := Portfolio.totalCurrentValue (portfolio s) in
    let simulatedPortfolio := jsonClone (portfolio s) in
    let history := [ {| date := formatDay env 0; value := initialValue |} ] in
    setSimulation true 0 history (simulationComplete s) (simulationSummary s)
                  (simulatedPortfolioResult s)
                  (intervals s ++ [ {| days := days; currentDay := 0;
                                       simulatedPortfolio := simulatedPortfolio;
                                       history := history |} ])
                  s
  else
    let simulatedPortfolio :=
      simulateDays (daysSince env) (Z.to_nat days) (jsonClone (portfolio s)) in
    let s := setSimulation (isSimulating s) (simulationProgress s)
                           (simulationHistory s) (simulationComplete s)
                           (simulationSummary s) (Some simulatedPortfolio)
                           (intervals s) s in
    setPortfolio simulatedPortfolio s.

Definition summarize (t : Timer) : option SimulationSummary :=
  match t.(history) with
  | first :: _ :: _ =>
    let initialValue := value first in
    let finalValue := value (last t.(history) first) in
    let totalGrowth := finalValue - initialValue in
    let percentageGrowth := (totalGrowth / initialValue) * 100 in
    let dailyAverage := totalGrowth / daysToNumber t.(days) in
    let projectedAnnualReturn :=
      (Math_pow env (finalValue / initialValue) (365 / daysToNumber t.(days)) - 1) * 100 in
    Some {| initialValue := initialValue;
            finalValue := finalValue;
            totalGrowth := totalGrowth;
            percentageGrowth := percentageGrowth;
            dailyAverage := dailyAverage;
            projectedAnnualReturn := projectedAnnualReturn |}
  | _ => None
  end.

(** One firing of the [k]-th interval's callback. *)
Definition intervalTick (k : nat) (s : State) : State :=
  match nth_error (intervals s) k with
  | None => s
  | Some t =>
    if (t.(days) <=? t.(currentDay))%Z then
      setSimulation false (simulationProgress s) (simulationHistory s) true
                    (match summarize t with
                     | Some sm => Some sm
                     | None => simulationSummary s
                     end)
                    (Some t.(simulatedPortfolio))
                    (updateTimer k None (intervals s)) s
    else
      let simulatedPortfolio :=
        simulateSingleDayWithoutStateUpdate (daysSince env) t.(simulatedPortfolio) in
      let currentDay := (t.(currentDay) + 1)%Z in
      let newHistoryPoint :=
        {| date := formatDay env currentDay;
           value := Portfolio.totalCurrentValue simulatedPortfolio |} in
      let history := t.(history) ++ [newHistoryPoint] in
      setSimulation (isSimulating s)
                    (Math_round ((daysToNumber currentDay / daysToNumber t.(days)) * 100))
                    history (simulationComplete s) (simulationSummary s)
                    (simulatedPortfolioResult s)
                    (updateTimer k (Some {| days := t.(days);
                                            currentDay := currentDay;
                                            simulatedPortfolio := simulatedPortfolio;
                                            history := history |})
                                 (intervals s)) s
  end.

Definition applySimulationToPortfolio (nowIso : string) (s : State) : State :=
  match simulatedPortfolioResult s with
  | None => s
  | Some newPortfolio =>
    let oldPortfolio := portfolio s in
    let portfolioChanges :=
      {| changesTotalInvested := Portfolio.totalInvested oldPortfolio;
         oldTotalValue := Portfolio.totalCurrentValue oldPortfolio;
         newTotalValue := Portfolio.totalCurrentValue newPortfolio;
         oldTotalEarnings := Portfolio.totalEarnings oldPortfolio;
         newTotalEarnings := Portfolio.totalEarnings newPortfolio;
         valueChange := Portfolio.totalCurrentValue newPortfolio
                        - Portfolio.totalCurrentValue oldPortfolio;
         earningsChange := Portfolio.totalEarnings newPortfolio
                           - Portfolio.totalEarnings oldPortfolio;
         changesDate := nowIso |} in
    let s := setPortfolio newPortfolio s in
    let s := setDialogs (isAddingInvestment s) (Some portfolioChanges) true
                        (simulationDays s) false s in
    setSimulation (isSimulating s) (simulationProgress s) (simulationHistory s)
                  false None None (intervals s) s
  end.

(** The buttons of the simulation dialog. *)
Definition onQuickSimulate (s : State) : State :=
  let s := simulateDailyUpdate (simulationDays s) false s in
  setDialogs (isAddingInvestment s) (recentChanges s) (showChanges s)
             (simulationDays s) false s.

Definition onStartVisualSimulation (s : State) : State :=
  let s := setSimulation (isSimulating s) (simulationProgress s) [] false None None
                         (intervals s) s in
  simulateDailyUpdate (simulationDays s) true s.

Definition onCancelSimulation (s : State) : State :=
  setSimulation false (simulationProgress s) (simulationHistory s)
                (simulationComplete s) (simulationSummary s)
                (simulatedPortfolioResult s) (intervals s) s.

Definition onRunNewSimulation (s : State) : State :=
  setSimulation (isSimulating s) (simulationProgress s) (simulationHistory s)
                false None (simulatedPortfolioResult s) (intervals s) s.

(** [setSimulationDays(Math.max(1, Math.min(365, parseInt(v) || 1)))],
    on the integer [parseInt] found (0 when it found none). *)
Definition onSetSimulationDays (parsed : Z) (s : State) : State :=
  setDialogs (isAddingInvestment s) (recentChanges s) (showChanges s)
             (Z.max 1 (Z.min 365 (if (parsed =? 0)%Z then 1 else parsed)))
             (showSimulationDialog s) s.

Definition onOpenDialogs (adding showSim : bool) (s : State) : State :=
  setDialogs adding (recentChanges s) (showChanges s) (simulationDays s) showSim s.

Definition onHideChanges (s : State) : State :=
  setDialogs (isAddingInvestment s) (recentChanges s) false (simulationDays s)
             (showSimulationDialog s) s.
End Handlers.

(** What can happen to the mounted component. *)
Inductive Event :=
| AddInvestment (now : Z) (f : NewInvestment)
| RemoveInvestment (id : string)
| QuickSimulate
| StartVisualSimulation
| IntervalTick (k : nat)
| CancelSimulation
| RunNewSimulation
| ApplySimulation (nowIso : string)
| SetSimulationDays (parsed : Z)
| OpenDialogs (adding showSim : bool)
| HideChanges.

Definition step (env : Env) (e : Event) (s : State) : State :=
  match e with
  | AddInvestment now f => onAddInvestment env now f s
  | RemoveInvestment id => onRemoveInvestment id s
  | QuickSimulate => onQuickSimulate env s
  | StartVisualSimulation => onStartVisualSimulation env s
  | IntervalTick k => intervalTick env k s
  | CancelSimulation => onCancelSimulation s
  | RunNewSimulation => onRunNewSimulation s
  | ApplySimulation nowIso => applySimulationToPortfolio nowIso s
  | SetSimulationDays parsed => onSetSimulationDays parsed s
  | OpenDialogs adding showSim => onOpenDialogs adding showSim s
  | HideChanges => onHideChanges s
  end.

(** States the component can be in, starting from the empty portfolio;
    the clock and the other outside values may differ at every event. *)
Inductive reachable : State -> Prop :=
| reachable_initial : reachable initialState
| reachable_step env e s : reachable s -> reachable (step env e s).

(** *** Portfolio health *)

(** What a property of [protocolDistribution] holds.  The object is typed
    as a map to numbers, but [(o[k] || 0) + amount] is a text when [o[k]]
    is no number: a member inherited from [Object.prototype] (a function,
    or the prototype itself for [__proto__]) written out in front of the
    amount, or such a text stored earlier.  A text of this kind is not
    empty and does not read as a number; nothing else of it is ever used,
    so its wording is left out. *)
Inductive Value :=
| Number (x : float)
| Text.

(** [Number(v)], as a division applies it to its operand. *)
Definition toNumber (v : Value) : float :=
  match v with
  | Number x => x
  | Text => nan
  end.

(** A plain object [{}] used as a map from protocol names, as the list of
    its own properties in the order [Object.values] visits them: keys that
    are array indices first, ascending, then the other keys in the order
    they were created.  What it inherits from [Object.prototype] is not in
    the list; [objGet] and [objSet] account for it. *)
Definition JSObject := list (string * Value).

(** The methods every plain object inherits from [Object.prototype]; the
    one other member, [__proto__], is an accessor. *)
Definition objectPrototypeMethods : list string :=
  ["constructor"; "__defineGetter__"; "__defineSetter__"; "hasOwnProperty";
   "__lookupGetter__"; "__lookupSetter__"; "isPrototypeOf";
   "propertyIsEnumerable"; "toString"; "valueOf"; "toLocaleString"]%string.

(** The keys a plain object answers to without a property of its own. *)
Definition inherited (key : string) : bool :=
  String.eqb key "__proto__" || includes objectPrototypeMethods key.

(** A call that ends with a value, or with a thrown [TypeError]. *)
Inductive Completion (A : Type) :=
| Completes (a : A)
| Throws.
Arguments Completes {A} a.
Arguments Throws {A}.

Definition isDigit (c : ascii) : bool :=
  let n := nat_of_ascii c in (48 <=? n)%nat && (n <=? 57)%nat.

Fixpoint digitsValue (s : string) (acc : N) : option N :=
  match s with
  | EmptyString => Some acc
  | String c r =>
    if isDigit c
    then digitsValue r (acc * 10 + N.of_nat (nat_of_ascii c - 48))%N
    else None
  end.

(** The array index a property key denotes, if it is the canonical decimal
    text of an integer below 2^32 - 1. *)
Definition arrayIndex (key : string) : option N :=
  match key with
  | EmptyString => None
  | String "0" EmptyString => Some 0%N
  | String "0" _ => None
  | _ =>
    match digitsValue key 0 with
    | Some n => if (n <? 4294967295)%N then Some n else None
    | None => None
    end
  end.

(** The object's own property under [key]. *)
Fixpoint objGetOwn (o : JSObject) (key : string) : option Value :=
  match o with
  | [] => None
  | (k, v) :: rest => if String.eqb k key then Some v else objGetOwn rest key
  end.

(** What [o[key]] finds: a property of the object's own, a member of
    [Object.prototype] (a function or an object, so truthy and no number),
    or nothing. *)
Inductive Lookup :=
| Own (v : Value)
| Inherited
| Undefined.

(** [o[key]]. *)
Definition objGet (o : JSObject) (key : string) : Lookup :=
  match objGetOwn o key with
  | Some v => Own v
  | None => if inherited key then Inherited else Undefined
  end.

(** A new index key goes before the first key that is no index or a larger
    one; a new key of the other kind goes last. *)
Fixpoint objInsert (o : JSObject) (key : string) (v : Value) : JSObject :=
  match o with
  | [] => [(key, v)]
  | (k, w) :: rest =>
    match arrayIndex key, arrayIndex k with
    | Some n, Some m =>
      if (n <? m)%N then (key, v) :: o else (k, w) :: objInsert rest key v
    | Some _, None => (key, v) :: o
    | None, _ => (k, w) :: objInsert rest key v
    end
  end.

Fixpoint objReplace (o : JSObject) (key : string) (v : Value) : JSObject :=
  match o with
  | [] => []
  | (k, w) :: rest =>
    if String.eqb k key then (k, v) :: rest else (k, w) :: objReplace rest key v
  end.

(** [o[key] = v] for a number or a text [v]: the value of the own property
    is replaced, or a new own property is created, which for an inherited
    method hides it.  Under [__proto__] nothing happens: the setter that
    [Object.prototype] has for it ignores a value that is no object. *)
Definition objSet (o : JSObject) (key : string) (v : Value) : JSObject :=
  if String.eqb key "__proto__" then o
  else
    match objGetOwn o key with
    | Some _ => objReplace o key v
    | None => objInsert o key v
    end.

Definition objectValues (o : JSObject) : list Value := map snd o.

(** [(found || 0) + amount]: a number found is replaced by 0 when it is
    falsy, nothing found counts as 0, and a text or an inherited member is
    truthy and written out in front of the amount. *)
Definition orZeroPlus (found : Lookup) (amount : float) : Value :=
  match found with
  | Own (Number v) => Number (orElse v 0 + amount)
  | Own Text => Text
  | Inherited => Text
  | Undefined => Number (0 + amount)
  end.

(** [new Set(names).size]. *)
Definition setSize (names : list string) : nat :=
  List.length (nodup string_dec names).

(** [protocolDistribution[inv.protocol] =
       (protocolDistribution[inv.protocol] || 0) + inv.amount], for each
    investment in turn. *)
Definition protocolDistributionOf (investments : list Investment.t) : JSObject :=
  fold_left
    (fun o inv =>
       objSet o (Investment.protocol inv)
              (orZeroPlus (objGet o (Investment.protocol inv)) (Investment.amount inv)))
    investments [].

Definition calculateRoi (portfolio : Portfolio.t) : float :=
  if Portfolio.totalInvested portfolio =? 0 then 0
  else (Portfolio.totalEarnings portfolio / Portfolio.totalInvested portfolio) * 100.

(** The [forEach] that tracks the best and the worst return. *)
Definition performers (investments : list Investment.t)
  : option string * option string * float * float :=
  fold_left
    (fun '(topPerformer, underperformer, maxRoi, minRoi) inv =>
       let invRoi := (Investment.totalEarnings inv / Investment.amount inv) * 100 in
       let '(topPerformer, maxRoi) :=
         if maxRoi <? invRoi then (Some (Investment.poolName inv), invRoi)
         else (topPerformer, maxRoi) in
       let '(underperformer, minRoi) :=
         if invRoi <? minRoi then (Some (Investment.poolName inv), invRoi)
         else (underperformer, minRoi) in
       (topPerformer, underperformer, maxRoi, minRoi))
    investments (None, None, neg_infinity, infinity).

Definition optStringEqb (a b : option string) : bool :=
  match a, b with
  | Some x, Some y => String.eqb x y
  | None, None => true
  | _, _ => false
  end.

(** The value [calculatePortfolioHealth] hands to [setPortfolioHealth], if
    it gets that far: [Object.entries(protocolDistribution).sort(...)[0]]
    is [undefined] for an object with no property of its own, and reading
    [riskConcentration[1]] then throws before any health is set.  What an
    exception in the effect that makes the call does to the component is
    React's and not part of this embedding. *)
Definition calculatePortfolioHealth (portfolio : Portfolio.t)
  : Completion PortfolioHealth.t :=
  match Portfolio.investments portfolio with
  | [] =>
    Completes
    {| PortfolioHealth.diversificationScore := 0;
       PortfolioHealth.riskScore := 0;
       PortfolioHealth.performanceScore := 0;
       PortfolioHealth.overallHealthScore := 0;
       PortfolioHealth.topPerformer := None;
       PortfolioHealth.underperformer := None |}
  | _ :: _ =>
    let investments := Portfolio.investments portfolio in
    let protocols := setSize (map Investment.protocol investments) in
    let protocolDistribution := protocolDistributionOf investments in
    let totalInvested := Portfolio.totalInvested portfolio in
    let hhi :=
      fold_left (fun sum amount =>
                   let marketShare := toNumber amount / totalInvested in
                   sum + marketShare * marketShare)
                (objectValues protocolDistribution) 0 in
    let perfectHHI := 1 / num protocols in
    let worstHHI := 1 in
    let normalizedHHI := (hhi - perfectHHI) / (worstHHI - perfectHHI) in
    let diversificationScore := Math_round ((1 - normalizedHHI) * 100) in
    let riskScore :=
      Math_min 100
        (Math_round
           (fold_left
              (fun score inv =>
                 let apyRiskFactor :=
                   if 20 <? Investment.apy inv then Investment.apy inv / 20
                   else Investment.apy inv / 40 in
                 score + apyRiskFactor * (Investment.amount inv / totalInvested) * 100)
              investments 0)) in
    let roi := calculateRoi portfolio in
    let averageApy := Portfolio.averageApy portfolio in
    let performanceScore :=
      Math_min 100
        (Math_round ((roi / averageApy) * 50 + (if 0 <? roi then 50 else 0))) in
    let overallHealthScore :=
      Math_round (diversificationScore * 0.4
                  + Math_max 0 (100 - riskScore) * 0.3
                  + performanceScore * 0.3) in
    let '(topPerformer, underperformer, _, _) := performers investments in
    match protocolDistribution with
    | [] => Throws
    | _ :: _ =>
      Completes
      {| PortfolioHealth.diversificationScore := diversificationScore;
         PortfolioHealth.riskScore := riskScore;
         PortfolioHealth.performanceScore := performanceScore;
         PortfolioHealth.overallHealthScore := overallHealthScore;
         PortfolioHealth.topPerformer := topPerformer;
         PortfolioHealth.underperformer :=
           if optStringEqb underperformer topPerformer then None else underperformer |}
    end
  end.

End Tracker.

(** ** Yield service *)

Module YieldService.

Record YieldOpportunity := {
  protocol : string;
  asset : string;
  symbol : string;
  apr : float;
  tvl : float;
  userBalance : float;
  depositUrl : string;
  contractAddress : string
}.

Definition mockYieldData : list YieldOpportunity :=
  [ {| protocol := "Aave"; asset := "USDC"; symbol := "USDC"; apr := 5.2;
       tvl := 500000000; userBalance := 100;
       depositUrl := "https://app.aave.com/reserve-overview/?underlyingAsset=0x2791bca1f2de4661ed88a30c99a7a9449aa84174&marketName=proto_polygon_v3";
       contractAddress := "0x794a61358D6845594F94dc1DB02A252b5b4814aD" |};
    {| protocol := "Compound"; asset := "USDC"; symbol := "USDC"; apr := 4.8;
       tvl := 300000000; userBalance := 100;
       depositUrl := "https://app.compound.finance/";
       contractAddress := "0xF25212E676D1F7F89Cd72fFEe66158f541246445" |};
    {| protocol := "Aave"; asset := "DAI"; symbol := "DAI"; apr := 4.5;
       tvl := 200000000; userBalance := 50;
       depositUrl := "https://app.aave.com/reserve-overview/?underlyingAsset=0x8f3cf7ad23cd3cadbd9735aff958023239c6a063&marketName=proto_polygon_v3";
       contractAddress := "0x794a61358D6845594F94dc1DB02A252b5b4814aD" |};
    {| protocol := "Compound"; asset := "DAI"; symbol := "DAI"; apr := 4.2;
       tvl := 150000000; userBalance := 50;
       depositUrl := "https://app.compound.finance/";
       contractAddress := "0xF25212E676D1F7F89Cd72fFEe66158f541246445" |};
    {| protocol := "Aave"; asset := "WETH"; symbol := "WETH"; apr := 2.1;
       tvl := 800000000; userBalance := 0.5;
       depositUrl := "https://app.aave.com/reserve-overview/?underlyingAsset=0x7ceb23fd6bc0add59e62ac25578270cff1b9f619&marketName=proto_polygon_v3";
       contractAddress := "0x794a61358D6845594F94dc1DB02A252b5b4814aD" |};
    {| protocol := "Compound"; asset := "WETH"; symbol := "WETH"; apr := 1.9;
       tvl := 600000000; userBalance := 0.5;
       depositUrl := "https://app.compound.finance/";
       contractAddress := "0xF25212E676D1F7F89Cd72fFEe66158f541246445" |} ].

(** Computations that may throw and may write to the console: the console
    is threaded through, and a computation ends with a value or with the
    thrown error. *)
Inductive Outcome (A : Type) :=
| Returned (a : A)
| Thrown (error : string).
Arguments Returned {A} a.
Arguments Thrown {A} error.

(** One [console.error(label, error)] call. *)
Record LogEntry := {
  label : string;
  logged : string
}.

Definition Console := list LogEntry.
Definition M (A : Type) := Console -> Outcome A * Console.

Definition ret {A} (a : A) : M A := fun c => (Returned a, c).
Definition throw {A} (error : string) : M A := fun c => (Thrown error, c).

Definition bind {A B} (m : M A) (k : A -> M B) : M B :=
  fun c =>
    match m c with
    | (Returned a, c') => k a c'
    | (Thrown error, c') => (Thrown error, c')
    end.

Definition tryCatch {A} (body : M A) (handler : string -> M A) : M A :=
  fun c =>
    match body c with
    | (Returned a, c') => (Returned a, c')
    | (Thrown error, c') => handler error c'
    end.

Definition console_error (lbl error : string) : M unit :=
  fun c => (Returned tt, c ++ [ {| label := lbl; logged := error |} ]).

Notation "x <- m ;; k" := (bind m (fun x => k))
  (at level 61, m at next level, right associativity).
Notation "m ;;; k" := (bind m (fun _ => k))
  (at level 61, right associativity).

(** [!address]: no address, or the empty text. *)
Definition noAddress (address : option string) : bool :=
  match address with
  | None => true
  | Some a => String.eqb a ""
  end.

Definition withZeroBalance (opportunity : YieldOpportunity) : YieldOpportunity :=
  {| protocol := protocol opportunity;
     asset := asset opportunity;
     symbol := symbol opportunity;
     apr := apr opportunity;
     tvl := tvl opportunity;
     userBalance := 0;
     depositUrl := depositUrl opportunity;
     contractAddress := contractAddress opportunity |}.

Section WithRetrieval.
(** Reading the yield data inside the [try] block. *)
Variable retrieve : M (list YieldOpportunity).

Definition getYieldOpportunitiesFrom (address : option string)
  : M (list YieldOpportunity) :=
  tryCatch
    (data <- retrieve ;;
     if noAddress address
     then ret (map withZeroBalance data)
     else ret data)
    (fun error =>
       console_error "Error fetching yield opportunities:" error ;;;
       ret []).
End WithRetrieval.

(** The function as it stands: the data is the mock array. *)
Definition getYieldOpportunities : option string -> M (list YieldOpportunity) :=
  getYieldOpportunitiesFrom (ret mockYieldData).

End YieldService.

(** ** Liquidity pairs: risk and quality *)

Module Liquidity.
Import JS.

Record Token := {
  address : string;
  symbol : string;
  name : string;
  decimals : float;
  price : float
}.

Record Reward := {
  rewardSymbol : string;
  rewardAddress : string;
  rewardRate : float;
  rewardPrice : float
}.

Inductive RiskLevel := low | medium | high.

Record LiquidityPair := {
  pairAddress : string;
  token0 : Token;
  token1 : Token;
  protocol : string;
  tvl : float;
  apr : float;
  rewardTokens : list Reward;
  riskLevel : RiskLevel;
  farmUrl : string;
  swapUrl : string;
  fee : float;
  volume24h : float;
  volumeChange7d : float
}.

Definition stablecoins : list string :=
  ["USDC"; "DAI"; "USDT"; "BUSD"; "USDP"; "TUSD"; "FRAX"; "LUSD"]%string.
Definition blueChipTokens : list string :=
  ["WETH"; "WBTC"; "WMATIC"; "LINK"; "AAVE"; "UNI"; "MKR"]%string.
Definition topTierProtocols : list string :=
  ["Curve"; "Aave"; "Compound"; "Uniswap"]%string.
Definition midTierProtocols : list string :=
  ["SushiSwap"; "QuickSwap"; "Balancer"; "Bancor"]%string.
Definition lowerTierProtocols : list string :=
  ["PancakeSwap"; "TraderJoe"]%string.

Definition calculateRiskScore (pair : LiquidityPair) : float :=
  let riskScore := 0 in
  let isStablePair :=
    includes stablecoins (symbol (token0 pair))
    && includes stablecoins (symbol (token1 pair)) in
  let isBlueChipPair :=
    (includes blueChipTokens (symbol (token0 pair))
     || includes stablecoins (symbol (token0 pair)))
    && (includes blueChipTokens (symbol (token1 pair))
        || includes stablecoins (symbol (token1 pair))) in
  let riskScore :=
    if isStablePair then riskScore + 1
    else if isBlueChipPair then riskScore + 2
    else if includes blueChipTokens (symbol (token0 pair))
            || includes blueChipTokens (symbol (token1 pair))
    then riskScore + 3
    else riskScore + 4 in
  let riskScore :=
    if includes topTierProtocols (protocol pair) then riskScore + 1
    else if includes midTierProtocols (protocol pair) then riskScore + 2
    else if includes lowerTierProtocols (protocol pair) then riskScore + 3
    else riskScore + 4 in
  let riskScore :=
    if 10000000 <? tvl pair then riskScore + 1
    else if 5000000 <? tvl pair then riskScore + 2
    else if 1000000 <? tvl pair then riskScore + 3
    else riskScore + 4 in
  let riskScore :=
    if 5000000 <? volume24h pair then riskScore + 1
    else if 2000000 <? volume24h pair then riskScore + 2
    else if 500000 <? volume24h pair then riskScore + 3
    else riskScore + 4 in
  let riskScore :=
    if Math_abs (volumeChange7d pair) <? 5 then riskScore + 1
    else if Math_abs (volumeChange7d pair) <? 15 then riskScore + 2
    else if Math_abs (volumeChange7d pair) <? 30 then riskScore + 3
    else riskScore + 4 in
  riskScore.

(** [const maxRiskScore = 24] in [calculatePotentialProfit]. *)
Definition maxRiskScore : float := 24.

Record RewardBreakdown := {
  breakdownSymbol : string;
  breakdownAmount : float;
  breakdownValue : float
}.

Record ProfitProjection := {
  feesEarned : float;
  rewardsEarned : float;
  totalProfit : float;
  impermanentLoss : float;
  netProfit : float;
  roi : float;
  apy : float;
  riskAdjustedReturn : float;
  qualityScore : float;
  rewardTokenBreakdown : list RewardBreakdown
}.

(** The 60 points of the quality score that come from the risk score. *)
Definition riskComponentOf (riskScore : float) : float :=
  ((maxRiskScore - riskScore) / maxRiskScore) * 60.

Section WithPow.
Variable Math_pow : float -> float -> float.

Definition calculatePotentialProfit (pair : LiquidityPair)
           (investmentAmount days : float) : ProfitProjection :=
  let poolShare := investmentAmount / (tvl pair + investmentAmount) in
  let dailyFees := (volume24h pair * fee pair / 100) * poolShare in
  let feesEarned := dailyFees * days in
  let rewardTokenBreakdown :=
    map (fun token =>
           let dailyRewards := rewardRate token * investmentAmount in
           let tokenAmount := dailyRewards * days in
           let tokenValue := tokenAmount * rewardPrice token in
           {| breakdownSymbol := rewardSymbol token;
              breakdownAmount := tokenAmount;
              breakdownValue := tokenValue |})
        (rewardTokens pair) in
  let rewardsEarned :=
    fold_left (fun earned b => earned + breakdownValue b) rewardTokenBreakdown 0 in
  let expectedPriceRatio := 1 + (volumeChange7d pair / 100) in
  let impermanentLoss :=
    investmentAmount
    * (2 * PrimFloat.sqrt expectedPriceRatio / (1 + expectedPriceRatio) - 1)
    * (-1) in
  let totalProfit := feesEarned + rewardsEarned in
  let netProfit := totalProfit - impermanentLoss in
  let roi := (netProfit / investmentAmount) * 100 in
  let apy := (Math_pow (1 + (roi / 100)) (365 / days) - 1) * 100 in
  let riskScore := calculateRiskScore pair in
  let riskAdjustedReturn := apy / (riskScore * 2) in
  let riskComponent := riskComponentOf riskScore in
  let returnComponent := Math_min (apy / 50) 1 * 40 in
  let qualityScore := riskComponent + returnComponent in
  {| feesEarned := feesEarned;
     rewardsEarned := rewardsEarned;
     totalProfit := totalProfit;
     impermanentLoss := impermanentLoss;
     netProfit := netProfit;
     roi := roi;
     apy := apy;
     riskAdjustedReturn := riskAdjustedReturn;
     qualityScore := qualityScore;
     rewardTokenBreakdown := rewardTokenBreakdown |}.
End WithPow.

(** The risk level the route derives from the score. *)
Definition calculatedRiskLevel (pair : LiquidityPair) : RiskLevel :=
  let riskScore := calculateRiskScore pair in
  if riskScore <=? 10 then low
  else if riskScore <=? 16 then medium
  else high.

End Liquidity.

(** ** The specification's wording, as definitions *)

Module Spec.
Import JS.

(** "Recomputed from scratch from the investments list": the four
    aggregates as sums over the list, the average APY weighted by amount. *)
Definition recomputed (investments : list Investment.t) : Portfolio.t :=
  let invested := sumBy Investment.amount investments in
  let current := sumBy Investment.currentValue investments in
  {| Portfolio.investments := investments;
     Portfolio.totalInvested := invested;
     Portfolio.totalCurrentValue := current;
     Portfolio.totalEarnings := current - invested;
     Portfolio.averageApy :=
       sumBy (fun inv => Investment.apy inv * Investment.amount inv) investments
       / invested |}.

Definition aggregatesRecomputed (p : Portfolio.t) : Prop :=
  p = recomputed (Portfolio.investments p).

(** The specification sums "over the protocols" and leaves their order
    open; floating-point sums depend on it, so the protocols are taken in
    the order a plain object lists its keys: array indices ascending, then
    the other names by first appearance. *)
Fixpoint insertKey (keys : list string) (key : string) : list string :=
  match keys with
  | [] => [key]
  | k :: rest =>
    match Tracker.arrayIndex key, Tracker.arrayIndex k with
    | Some n, Some m => if (n <? m)%N then key :: keys else k :: insertKey rest key
    | Some _, None => key :: keys
    | None, _ => k :: insertKey rest key
    end
  end.

Definition addKey (keys : list string) (key : string) : list string :=
  if existsb (String.eqb key) keys then keys else insertKey keys key.

(** The distinct protocols of a portfolio. *)
Definition protocolsOf (investments : list Investment.t) : list string :=
  fold_left addKey (map Investment.protocol investments) [].

(** The amount invested in one protocol. *)
Definition investedIn (protocol : string) (investments : list Investment.t) : float :=
  sumBy Investment.amount
        (filter (fun inv => String.eqb (Investment.protocol inv) protocol) investments).

(** Herfindahl-Hirschman index: the squared shares, summed over the
    protocols. *)
Definition HHI (p : Portfolio.t) : float :=
  sumBy (fun protocol =>
           let share := investedIn protocol (Portfolio.investments p)
                        / Portfolio.totalInvested p in
           share * share)
        (protocolsOf (Portfolio.investments p)).

(** The number of distinct protocols. *)
Definition protocolCount (p : Portfolio.t) : float :=
  num (List.length (nodup string_dec (map Investment.protocol (Portfolio.investments p)))).

(** round((1 - (HHI - 1/n) / (1 - 1/n)) x 100). *)
Definition diversificationScore (p : Portfolio.t) : float :=
  let n := protocolCount p in
  Math_round ((1 - (HHI p - 1 / n) / (1 - 1 / n)) * 100).

(** What the animated simulation must leave alone: the portfolio, the
    stored copy, and the state of the other dialogs. *)
Definition sameOutsideSimulation (s s' : Tracker.State) : Prop :=
  Tracker.portfolio s' = Tracker.portfolio s
  /\ Tracker.storage s' = Tracker.storage s
  /\ Tracker.isAddingInvestment s' = Tracker.isAddingInvestment s
  /\ Tracker.recentChanges s' = Tracker.recentChanges s
  /\ Tracker.showChanges s' = Tracker.showChanges s
  /\ Tracker.simulationDays s' = Tracker.simulationDays s
  /\ Tracker.showSimulationDialog s' = Tracker.showSimulationDialog s.

(** All four aggregates are zero. *)
Definition aggregatesZero (p : Portfolio.t) : Prop :=
  Portfolio.totalInvested p = 0
  /\ Portfolio.totalCurrentValue p = 0
  /\ Portfolio.totalEarnings p = 0
  /\ Portfolio.averageApy p = 0.

(** No investment of the list has a NaN amount, current value or APY. *)
Definition noNaN (investments : list Investment.t) : Prop :=
  Forall (fun inv =>
            isNaN (Investment.amount inv) = false
            /\ isNaN (Investment.currentValue inv) = false
            /\ isNaN (Investment.apy inv) = false)
         investments.

End Spec.

(** ** Sample inputs *)

Module Samples.
Import Tracker.

Definition stableForm : NewInvestment :=
  {| newPoolName := "USDC Lending";
     newProtocol := "Aave";
     newAmount := 100;
     newApy := 5;
     newStartDate := "2025-01-01";
     newVolatility := 5;
     newRewardTokens := [] |}.

(** A position entered with a negative amount, which the form accepts. *)
Definition shortForm : NewInvestment :=
  {| newPoolName := "Short";
     newProtocol := "Aave";
     newAmount := -100;
     newApy := 5;
     newStartDate := "2025-01-01";
     newVolatility := 5;
     newRewardTokens := [] |}.

(** [Math.pow(x, 2)], the only power the samples need. *)
Definition square (x _ : float) : float := x * x.

Definition env : Env :=
  {| Math_pow := square;
     daysSince := fun _ => Some 0%Z;
     formatDay := fun _ => "Jan 01"%string |}.

Definition onePosition : Portfolio.t :=
  addInvestment square 1 stableForm emptyPortfolio.

Definition oneShort : Portfolio.t :=
  addInvestment square 1 shortForm emptyPortfolio.

Definition token (sym : string) : Liquidity.Token :=
  {| Liquidity.address := "0x0"; Liquidity.symbol := sym; Liquidity.name := sym;
     Liquidity.decimals := 18; Liquidity.price := 1 |}.

Definition safestPair : Liquidity.LiquidityPair :=
  {| Liquidity.pairAddress := "0x1";
     Liquidity.token0 := token "USDC";
     Liquidity.token1 := token "DAI";
     Liquidity.protocol := "Curve";
     Liquidity.tvl := 20000000;
     Liquidity.apr := 3;
     Liquidity.rewardTokens := [];
     Liquidity.riskLevel := Liquidity.low;
     Liquidity.farmUrl := "";
     Liquidity.swapUrl := "";
     Liquidity.fee := 0.04;
     Liquidity.volume24h := 6000000;
     Liquidity.volumeChange7d := 1 |}.

Definition riskiestPair : Liquidity.LiquidityPair :=
  {| Liquidity.pairAddress := "0x2";
     Liquidity.token0 := token "FOO";
     Liquidity.token1 := token "BAR";
     Liquidity.protocol := "NewSwap";
     Liquidity.tvl := 1000;
     Liquidity.apr := 900;
     Liquidity.rewardTokens := [];
     Liquidity.riskLevel := Liquidity.high;
     Liquidity.farmUrl := "";
     Liquidity.swapUrl := "";
     Liquidity.fee := 1;
     Liquidity.volume24h := 100;
     Liquidity.volumeChange7d := -80 |}.

Definition planner365 : Planner.Inputs :=
  {| Planner.apr := 5; Planner.entryGasCost := 5; Planner.investmentAmount := 1000;
     Planner.timeHorizon := 365; Planner.reinvestYield := true |}.

Definition uniswapForm : NewInvestment :=
  {| newPoolName := "ETH/USDC";
     newProtocol := "Uniswap";
     newAmount := 300;
     newApy := 12;
     newStartDate := "2025-01-01";
     newVolatility := 12;
     newRewardTokens := [] |}.

Definition twoPositions : Portfolio.t :=
  addInvestment square 2 uniswapForm onePosition.

(** One position of 100 under a stored total of 200, as a tampered
    local-storage value could hold. *)
Definition inconsistentTotal : Portfolio.t :=
  {| Portfolio.investments := Portfolio.investments onePosition;
     Portfolio.totalInvested := 200;
     Portfolio.totalCurrentValue := 100;
     Portfolio.totalEarnings := 0;
     Portfolio.averageApy := 5 |}.

Definition withAmount (protocol : string) (amount : float) : NewInvestment :=
  {| newPoolName := protocol;
     newProtocol := protocol;
     newAmount := amount;
     newApy := 5;
     newStartDate := "2025-01-01";
     newVolatility := 5;
     newRewardTokens := [] |}.

(** Amounts of +Infinity, -Infinity and 100 in one protocol and 100 in
    another under a stored total of 200, as a tampered local-storage value
    could hold (JSON reads 1e999 as Infinity). *)
Definition oppositeInfinities : Portfolio.t :=
  {| Portfolio.investments :=
       [ buildInvestment square 1 (withAmount "Aave" infinity);
         buildInvestment square 2 (withAmount "Aave" neg_infinity);
         buildInvestment square 3 (withAmount "Aave" 100);
         buildInvestment square 4 (withAmount "Uniswap" 100) ];
     Portfolio.totalInvested := 200;
     Portfolio.totalCurrentValue := 200;
     Portfolio.totalEarnings := 0;
     Portfolio.averageApy := 5 |}.

(** 100 in a protocol entered as [constructor] and 300 in Uniswap. *)
Definition constructorPositions : Portfolio.t :=
  addInvestment square 2 uniswapForm
                (addInvestment square 1 (withAmount "constructor" 100) emptyPortfolio).

(** 100 in a protocol entered as [__proto__]. *)
Definition protoPosition : Portfolio.t :=
  addInvestment square 1 (withAmount "__proto__" 100) emptyPortfolio.

End Samples.

(** ** Notions the proofs use *)

Module Notions.

(** What every reachable state satisfies: an empty portfolio is the zero
    portfolio, and neither a stored simulation result nor a running
    simulation holds an empty portfolio. *)
Definition stateInvariant (s : Tracker.State) : Prop :=
  (Portfolio.investments (Tracker.portfolio s) = [] ->
   Tracker.portfolio s = Tracker.emptyPortfolio)
  /\ (forall p, Tracker.simulatedPortfolioResult s = Some p ->
                Portfolio.investments p <> [])
  /\ Forall (fun t => Portfolio.investments (Tracker.simulatedPortfolio t) <> [])
            (Tracker.intervals s).

(** All the firings of a run, each with the clock of its moment. *)
Definition runTicks (ticks : list (Tracker.Env * nat)) (s : Tracker.State)
  : Tracker.State :=
  fold_left (fun st tick => Tracker.intervalTick (fst tick) (snd tick) st) ticks s.

(** How the guarded running total [d] relates to the plain one [t]: the
    plain one is NaN, or they are the same number, or both are zeros. *)
Definition sameUpToZero (d t : float) : Prop :=
  Prim2SF t = S754_nan
  \/ d = t
  \/ ((exists s, Prim2SF d = S754_zero s) /\ (exists s, Prim2SF t = S754_zero s)).

(** The running total the object holds for one protocol. *)
Definition guardedTotal (protocol : string) (investments : list Investment.t) : float :=
  fold_left (fun acc inv => JS.orElse acc 0 + Investment.amount inv)
            (filter (fun inv => String.eqb (Investment.protocol inv) protocol) investments)
            0.

(** A property of the object, as the pair of its key and its value. *)
Definition entryOf {A : Type} (g : string -> A) (key : string) : string * A :=
  (key, g key).

(** The diversification score of the health that was set, if any. *)
Definition scoreOf (outcome : Tracker.Completion PortfolioHealth.t) : option float :=
  match outcome with
  | Tracker.Completes health => Some (PortfolioHealth.diversificationScore health)
  | Tracker.Throws => None
  end.

(** The investment's protocol can be a key of the object: every name but
    [__proto__]. *)
Definition ownKey (inv : Investment.t) : bool :=
  negb (String.eqb (Investment.protocol inv) "__proto__").

(** What the object holds for a protocol of the portfolio: the running
    total, or a text when the name is that of an inherited method. *)
Definition held (investments : list Investment.t) (protocol : string) : Tracker.Value :=
  if JS.includes Tracker.objectPrototypeMethods protocol
  then Tracker.Text
  else Tracker.Number (guardedTotal protocol investments).

End Notions.


(** ** The portfolio chart *)

Module Chart.
Import JS Tracker.

(** One point of the chart; the properties [investment0], [investment1],
    ... that the loop adds to it are kept as the list of the indices with
    their values, in the order they are set. *)
Record DayData := {
  dayLabel : string;
  dayTotalValue : float;
  dayNetProfit : float;
  dayTradingFees : float;
  dayRewardTokens : float;
  dayImpermanentLoss : float;
  dayInvestments : list (nat * float)
}.

(** What the chart takes from outside: [Math.pow], the label
    [format(addDays(today, offset), 'MMM dd')], and
    [differenceInDays(addDays(today, offset), new Date(startDate))] for a
    start date that is present and parses, [None] otherwise. *)
Record ChartEnv := {
  chartPow : float -> float -> float;
  chartLabel : Z -> string;
  chartDaysSince : Z -> string -> option Z
}.

(** [let days = 30; if (timeframe === '7d') days = 7; ...]. *)
Definition daysOfTimeframe (timeframe : string) : nat :=
  let days := 30%nat in
  let days := if String.eqb timeframe "7d" then 7%nat else days in
  let days := if String.eqb timeframe "90d" then 90%nat else days in
  let days := if String.eqb timeframe "365d" then 365%nat else days in
  days.

(** The body of [portfolio.investments.forEach((investment, index) => ...)]
    for one day. *)
Definition addInvestmentToDay (env : ChartEnv) (offset : Z) (dayData : DayData)
           (investment : Investment.t) (index : nat) : DayData :=
  match chartDaysSince env offset (Investment.startDate investment) with
  | None => dayData
  | Some daysSinceStart =>
    if (0 <=? daysSinceStart)%Z then
      let amount := safeNumber (Investment.amount investment) 0 in
      let apy := safeNumber (Investment.apy investment) 0 in
      let volatility := safeNumber (Investment.volatility investment) 5 in
      let dailyRate := apy / 365 / 100 in
      let baseEarnings :=
        amount * chartPow env (1 + dailyRate) (daysToNumber daysSinceStart) - amount in
      let ilFactor :=
        PrimFloat.sqrt (daysToNumber daysSinceStart / 30) * (volatility / 10) in
      let impermanentLoss := amount * ilFactor * 0.01 in
      let tradingFees := baseEarnings * 0.7 in
      let rewardTokenValue := baseEarnings * 0.3 in
      let netProfit := tradingFees + rewardTokenValue - impermanentLoss in
      let value := amount + netProfit in
      {| dayLabel := dayLabel dayData;
         dayTotalValue := dayTotalValue dayData + value;
         dayNetProfit := dayNetProfit dayData + netProfit;
         dayTradingFees := dayTradingFees dayData + tradingFees;
         dayRewardTokens := dayRewardTokens dayData + rewardTokenValue;
         dayImpermanentLoss := dayImpermanentLoss dayData + impermanentLoss;
         dayInvestments := dayInvestments dayData ++ [(index, value)] |}
    else dayData
  end.

Fixpoint forEachInvestment (env : ChartEnv) (offset : Z) (investments : list Investment.t)
         (index : nat) (dayData : DayData) : DayData :=
  match investments with
  | [] => dayData
  | investment :: rest =>
    forEachInvestment env offset rest (S index)
                      (addInvestmentToDay env offset dayData investment index)
  end.

(** The point for the day [offset] days from today. *)
Definition chartDay (env : ChartEnv) (investments : list Investment.t) (offset : Z)
  : DayData :=
  forEachInvestment env offset investments 0
    {| dayLabel := chartLabel env offset;
       dayTotalValue := 0;
       dayNetProfit := 0;
       dayTradingFees := 0;
       dayRewardTokens := 0;
       dayImpermanentLoss := 0;
       dayInvestments := [] |}.

(** The value [generateChartData] hands to [setChartData]:
    [for (let i = 0; i < days; i++)] with the day
    [addDays(today, -days + i + 1)]. *)
Definition generateChartData (env : ChartEnv) (timeframe : string)
           (portfolio : Portfolio.t) : list DayData :=
  match Portfolio.investments portfolio with
  | [] => []
  | _ :: _ =>
    let days := daysOfTimeframe timeframe in
    map (fun i => chartDay env (Portfolio.investments portfolio)
                           (- Z.of_nat days + Z.of_nat i + 1)%Z)
        (seq 0 days)
  end.

End Chart.

(** ** The liquidity-pair route, up to the sort *)

Module LiquidityRoute.
Import JS Liquidity.

(** The query, after [parseFloat] and [parseInt]. *)
Record Query := {
  riskLevelParam : option string;
  minTvl : float;
  minApr : float;
  investmentAmount : float;
  timeHorizon : float;
  showHealthyOnly : bool;
  minQualityScore : float
}.

Definition riskLevelName (level : RiskLevel) : string :=
  match level with
  | low => "low"
  | medium => "medium"
  | high => "high"
  end.

(** [{...pair, profitProjection, riskScore, riskLevel}]: the pair with its
    metrics, its stored risk level replaced by the calculated one. *)
Record PairWithMetrics := {
  pairOf : LiquidityPair;
  profitProjection : ProfitProjection;
  riskScoreOf : float;
  riskLevelOf : RiskLevel
}.

Section WithPow.
Variable Math_pow : float -> float -> float.

(** The three filters on the stored pairs. *)
Definition filteredPairs (q : Query) (pairs : list LiquidityPair) : list LiquidityPair :=
  let filteredPairs := pairs in
  let filteredPairs :=
    match riskLevelParam q with
    | Some level =>
      if String.eqb level "" then filteredPairs
      else filter (fun pair => String.eqb (riskLevelName (riskLevel pair)) level)
                  filteredPairs
    | None => filteredPairs
    end in
  let filteredPairs :=
    if 0 <? minTvl q
    then filter (fun pair => minTvl q <=? tvl pair) filteredPairs
    else filteredPairs in
  let filteredPairs :=
    if 0 <? minApr q
    then filter (fun pair => minApr q <=? apr pair) filteredPairs
    else filteredPairs in
  filteredPairs.

Definition withMetrics (q : Query) (pair : LiquidityPair) : PairWithMetrics :=
  let profitProjection :=
    calculatePotentialProfit Math_pow pair (investmentAmount q) (timeHorizon q) in
  let riskScore := calculateRiskScore pair in
  let calculatedRiskLevel :=
    if riskScore <=? 10 then low
    else if riskScore <=? 16 then medium
    else high in
  {| pairOf := pair;
     profitProjection := profitProjection;
     riskScoreOf := riskScore;
     riskLevelOf := calculatedRiskLevel |}.

Definition pairsWithMetrics (q : Query) (pairs : list LiquidityPair)
  : list PairWithMetrics :=
  map (withMetrics q) (filteredPairs q pairs).

Definition isLow (level : RiskLevel) : bool :=
  match level with
  | low => true
  | _ => false
  end.

(** The pairs of the response, before the [switch] that sorts them. *)
Definition resultPairs (q : Query) (pairs : list LiquidityPair) : list PairWithMetrics :=
  let resultPairs := pairsWithMetrics q pairs in
  let resultPairs :=
    if showHealthyOnly q
    then filter (fun pair =>
                   isLow (riskLevelOf pair)
                   && (70 <=? qualityScore (profitProjection pair))
                   && (1000000 <=? tvl (pairOf pair))
                   && (500000 <=? volume24h (pairOf pair)))
                resultPairs
    else resultPairs in
  let resultPairs :=
    if 0 <? minQualityScore q
    then filter (fun pair => minQualityScore q <=? qualityScore (profitProjection pair))
                resultPairs
    else resultPairs in
  resultPairs.
End WithPow.

End LiquidityRoute.

(** ** More notions the proofs use *)

Module MoreNotions.

(** The planner's inputs under another APR. *)
Definition withApr (a : float) (i : Planner.Inputs) : Planner.Inputs :=
  {| Planner.apr := a;
     Planner.entryGasCost := Planner.entryGasCost i;
     Planner.investmentAmount := Planner.investmentAmount i;
     Planner.timeHorizon := Planner.timeHorizon i;
     Planner.reinvestYield := Planner.reinvestYield i |}.

(** [y] added [k] times to [c]. *)
Fixpoint accumulate (y : float) (k : nat) (c : float) : float :=
  match k with
  | O => c
  | S k' => accumulate y k' (c + y)
  end.

(** The fields a simulated day leaves alone. *)
Definition identityOf (inv : Investment.t)
  : string * string * string * string * float * float * string * float * float :=
  (Investment.id inv, Investment.poolId inv, Investment.poolName inv,
   Investment.protocol inv, Investment.amount inv, Investment.apy inv,
   Investment.startDate inv, Investment.riskScore inv, Investment.volatility inv).

(** The earnings of a portfolio are its value minus what was invested. *)
Definition earningsConsistent (p : Portfolio.t) : Prop :=
  Portfolio.totalEarnings p = Portfolio.totalCurrentValue p - Portfolio.totalInvested p.

(** A working copy has had its day, or its interval has yet to fire. *)
Definition timerConsistent (t : Tracker.Timer) : Prop :=
  (Tracker.currentDay t = 0 /\ 0 < Tracker.days t)%Z
  \/ earningsConsistent (Tracker.simulatedPortfolio t).

Definition earningsInvariant (s : Tracker.State) : Prop :=
  earningsConsistent (Tracker.portfolio s)
  /\ (forall p, Tracker.simulatedPortfolioResult s = Some p -> earningsConsistent p)
  /\ Forall timerConsistent (Tracker.intervals s).

(** What [removeInvestment] returns for the investments it keeps. *)
Definition afterRemoval (remaining : list Investment.t) : Portfolio.t :=
  match remaining with
  | [] => Tracker.emptyPortfolio
  | _ :: _ => Spec.recomputed remaining
  end.

(** [inv.id !== id]. *)
Definition otherThan (id : string) (inv : Investment.t) : bool :=
  negb (String.eqb (Investment.id inv) id).

(** The investment had started by the day [offset] days from today. *)
Definition started (env : Chart.ChartEnv) (offset : Z) (inv : Investment.t) : bool :=
  match Chart.chartDaysSince env offset (Investment.startDate inv) with
  | Some d => (0 <=? d)%Z
  | None => false
  end.

(** The investments with their positions in the portfolio. *)
Definition indexedFrom (index : nat) (investments : list Investment.t)
  : list (nat * Investment.t) :=
  combine (seq index (List.length investments)) investments.

(** What a pair of the response keeps of the stored pair. *)
Definition passes (q : LiquidityRoute.Query) (pair : Liquidity.LiquidityPair) : Prop :=
  (forall level, LiquidityRoute.riskLevelParam q = Some level ->
                 level <> EmptyString ->
                 LiquidityRoute.riskLevelName (Liquidity.riskLevel pair) = level)
  /\ ((0 <? LiquidityRoute.minTvl q) = true ->
      (LiquidityRoute.minTvl q <=? Liquidity.tvl pair) = true)
  /\ ((0 <? LiquidityRoute.minApr q) = true ->
      (LiquidityRoute.minApr q <=? Liquidity.apr pair) = true).

(** The fields of an opportunity other than the user's balance. *)
Definition offerOf (o : YieldService.YieldOpportunity)
  : string * string * string * float * float * string * string :=
  (YieldService.protocol o, YieldService.asset o, YieldService.symbol o,
   YieldService.apr o, YieldService.tvl o, YieldService.depositUrl o,
   YieldService.contractAddress o).

(** The form's numbers are finite, as a number input gives them. *)
Definition finiteForm (f : Tracker.NewInvestment) : Prop :=
  PrimFloat.is_finite (Tracker.newAmount f) = true
  /\ PrimFloat.is_finite (Tracker.newApy f) = true
  /\ PrimFloat.is_finite (Tracker.newVolatility f) = true.

Definition fromForm (e : Tracker.Event) : Prop :=
  match e with
  | Tracker.AddInvestment _ f => finiteForm f
  | _ => True
  end.

(** The states reached from a first visit when every form submitted holds
    finite numbers. *)
Inductive reachableFromForms : Tracker.State -> Prop :=
| fromForms_initial : reachableFromForms Tracker.initialState
| fromForms_step env e s :
    reachableFromForms s -> fromForm e -> reachableFromForms (Tracker.step env e s).

(** The numbers a simulated day hands on as it finds them are finite. *)
Definition handedOnFinite (inv : Investment.t) : Prop :=
  PrimFloat.is_finite (Investment.amount inv) = true
  /\ PrimFloat.is_finite (Investment.apy inv) = true
  /\ PrimFloat.is_finite (Investment.riskScore inv) = true
  /\ PrimFloat.is_finite (Investment.volatility inv) = true.

(** The JSON copy of an investment has them as they were, as numbers. *)
Definition copiedAsIs (inv : Investment.t) : Prop :=
  (Investment.amount (Tracker.jsonInvestment inv) =? Investment.amount inv) = true
  /\ (Investment.apy (Tracker.jsonInvestment inv) =? Investment.apy inv) = true
  /\ (Investment.riskScore (Tracker.jsonInvestment inv) =? Investment.riskScore inv) = true
  /\ (Investment.volatility (Tracker.jsonInvestment inv) =? Investment.volatility inv) = true.

Definition allFinite (p : Portfolio.t) : Prop :=
  Forall handedOnFinite (Portfolio.investments p).

Definition finiteInvariant (s : Tracker.State) : Prop :=
  allFinite (Tracker.portfolio s)
  /\ (forall p, Tracker.simulatedPortfolioResult s = Some p -> allFinite p)
  /\ Forall (fun t => allFinite (Tracker.simulatedPortfolio t)) (Tracker.intervals s).

End MoreNotions.


(** * Properties *)

(** ** Projection and break-even day *)

Section PlannerFacts.
Import JS Planner.

Lemma findIndexFrom_spec {A : Type} (pred : A -> bool) (l : list A) :
  forall i : Z,
    (findIndexFrom pred l i = (-1)%Z /\ Forall (fun x => pred x = false) l)
    \/ (exists (k : nat) (x : A),
           findIndexFrom pred l i = (i + Z.of_nat k)%Z
           /\ nth_error l k = Some x
           /\ pred x = true
           /\ forall (j : nat) (y : A),
               (j < k)%nat -> nth_error l j = Some y -> pred y = false).
Proof.
  induction l as [|a rest IH]; intro i; simpl.
  - left. split; [reflexivity | constructor].
  - destruct (pred a) eqn:Ha.
    + right. exists 0%nat, a. repeat split; auto.
      * lia.
      * intros j y Hj. lia.
    + destruct (IH (i + 1)%Z) as [[Hnone Hall] | (k & x & Hr & Hn & Hp & Hmin)].
      * left. split; [assumption | constructor; assumption].
      * right. exists (S k), x. repeat split; auto.
        -- rewrite Hr. lia.
        -- intros [|j] y Hj Hy; simpl in Hy.
           ++ injection Hy as <-. exact Ha.
           ++ apply (Hmin j y); [lia | exact Hy].
Qed.

(** Every entry carries its own position as [day]. *)
Lemma projectionLoop_day (i : Inputs) :
  forall (k n : nat) (d : Z) (c y : float) (pt : ProjectionPoint),
    nth_error (projectionLoop i n d c y) k = Some pt ->
    day pt = (d + Z.of_nat k)%Z.
Proof.
  induction k as [|k IH]; intros [|n] d c y pt H; simpl in H; try discriminate.
  - injection H as <-. simpl. lia.
  - apply IH in H. rewrite H. lia.
Qed.

Lemma projectionLoop_length (i : Inputs) :
  forall (n : nat) (d : Z) (c y : float),
    List.length (projectionLoop i n d c y) = n.
Proof.
  induction n as [|n IH]; intros; simpl; [reflexivity | now rewrite IH].
Qed.

(** With reinvestment, the entry at position [k] holds [k + 1] days of
    compounding. *)
Lemma projectionLoop_compound (i : Inputs) (Hre : reinvestYield i = true) :
  forall (k n : nat) (d : Z) (c y : float),
    (k < n)%nat ->
    exists pt,
      nth_error (projectionLoop i n d c y) k = Some pt
      /\ totalValue pt = compound (effectiveDailyRate i) (S k) c.
Proof.
  induction k as [|k IH]; intros [|n] d c y Hk; try lia; simpl.
  - rewrite Hre. eexists. split; reflexivity.
  - rewrite Hre.
    destruct (IH n (d + 1)%Z (c + c * effectiveDailyRate i)
                 (y + c * effectiveDailyRate i)) as (pt & Hn & Hv); [lia|].
    exists pt. split; [exact Hn | exact Hv].
Qed.

(** C1 (the code departs from the claim).  For APR 5, amount 1000,
    reinvestment on and a horizon of at least 365 days, the entry for
    day 365 exists and its [totalValue] is 366 days of compounding,
    1051.4115..., not 1000 x (1 + dailyRate)^365 = 1051.2674...: the loop
    adds a day's yield before it records day 0. *)
Theorem projection_day_365_compounds_366_days (i : Inputs) :
  apr i = 5 ->
  investmentAmount i = 1000 ->
  reinvestYield i = true ->
  (365 <= timeHorizon i)%Z ->
  exists pt,
    nth_error (generateProjectionData i) 365 = Some pt
    /\ day pt = 365%Z
    /\ totalValue pt = compound (5 / 365 / 100) 366 1000
    /\ totalValue pt = 1051.4115057135555
    /\ 1000 * powN (1 + 5 / 365 / 100) 365 = 1051.2674964674461
    /\ totalValue pt <> 1000 * powN (1 + 5 / 365 / 100) 365.
Proof.
  intros Hapr Hamt Hre Hh.
  unfold generateProjectionData.
  destruct (projectionLoop_compound i Hre 365 (Z.to_nat (timeHorizon i + 1)) 0%Z
                                    (investmentAmount i) 0) as (pt & Hn & Hv); [lia|].
  exists pt.
  assert (Hrate : effectiveDailyRate i = 5 / 365 / 100).
  { unfold effectiveDailyRate, effectiveApr. rewrite Hapr. reflexivity. }
  rewrite Hrate, Hamt in Hv.
  assert (Hval : totalValue pt = 1051.4115057135555).
  { rewrite Hv. vm_compute. reflexivity. }
  split; [exact Hn|].
  split.
  { apply projectionLoop_day in Hn.
    transitivity (0 + Z.of_nat 365)%Z; [exact Hn | reflexivity]. }
  split; [exact Hv|].
  split; [exact Hval|].
  split; [vm_compute; reflexivity|].
  rewrite Hval. intro E.
  apply (f_equal (fun v => v <? 1051.3)) in E.
  vm_compute in E. discriminate E.
Qed.

Lemma projection_day_365_witness :
  exists pt,
    nth_error (generateProjectionData Samples.planner365) 365 = Some pt
    /\ day pt = 365%Z
    /\ totalValue pt = compound (5 / 365 / 100) 366 1000
    /\ totalValue pt = 1051.4115057135555
    /\ 1000 * powN (1 + 5 / 365 / 100) 365 = 1051.2674964674461
    /\ totalValue pt <> 1000 * powN (1 + 5 / 365 / 100) 365.
Proof.
  apply (projection_day_365_compounds_366_days Samples.planner365).
  - reflexivity.
  - reflexivity.
  - reflexivity.
  - simpl. lia.
Defined.

(** C5.  The break-even day is the first day of the series whose net
    profit is above zero, and -1 when no day has a net profit above zero. *)
Theorem breakEvenDay_linear_scan (i : Inputs) :
  (breakEvenDay i = (-1)%Z
   /\ Forall (fun pt => (0 <? netProfit pt) = false) (projectionData i))
  \/ (exists pt,
         nth_error (projectionData i) (Z.to_nat (breakEvenDay i)) = Some pt
         /\ (0 <= breakEvenDay i)%Z
         /\ day pt = breakEvenDay i
         /\ (0 <? netProfit pt) = true
         /\ forall (j : nat) (q : ProjectionPoint),
             nth_error (projectionData i) j = Some q ->
             (day q < breakEvenDay i)%Z ->
             (0 <? netProfit q) = false).
Proof.
  unfold breakEvenDay, breakEvenDayOf, findIndex.
  destruct (findIndexFrom_spec (fun d => 0 <? netProfit d) (projectionData i) 0)
    as [[Hnone Hall] | (k & x & Hr & Hn & Hp & Hmin)].
  - left. split; assumption.
  - right. exists x. rewrite Hr. simpl. rewrite Nat2Z.id.
    repeat split; auto.
    + lia.
    + unfold projectionData, generateProjectionData in Hn.
      apply projectionLoop_day in Hn. rewrite Hn. lia.
    + intros j q Hq Hlt.
      apply (Hmin j q); [| exact Hq].
      unfold projectionData, generateProjectionData in Hq.
      apply projectionLoop_day in Hq. lia.
Qed.

(** APR 5, amount 1000, entry gas cost 5 (so 9 in all): the first day
    whose accumulated yield exceeds the gas is day 65. *)
Example breakEvenDay_sample : breakEvenDay Samples.planner365 = 65%Z.
Proof. vm_compute. reflexivity. Qed.

End PlannerFacts.


(** ** Risk scores *)

Section RiskFacts.
Import JS.

(** Splits on every condition the goal branches on. *)
Ltac split_conditions :=
  repeat match goal with
         | |- context [if ?c then _ else _] => destruct c
         end.

(** The score before clamping already lies between 30 and 95. *)
Lemma calculateInvestmentRiskScore_tight (protocol : string) (volatility apy : float) :
  (30 <=? Tracker.calculateInvestmentRiskScore protocol volatility apy) = true
  /\ (Tracker.calculateInvestmentRiskScore protocol volatility apy <=? 95) = true.
Proof.
  unfold Tracker.calculateInvestmentRiskScore. cbv zeta.
  generalize (if negb (isNaN volatility) then volatility else 5) as safeVolatility.
  generalize (if negb (isNaN apy) then apy else 5) as safeApy.
  intros safeApy safeVolatility.
  split_conditions; split; vm_compute; reflexivity.
Qed.

(** C9.  Whatever the protocol text (the empty one included) and whatever
    the volatility and the APY (NaN included, which counts as 5), the
    investment risk score lies between 0 and 100. *)
Theorem calculateInvestmentRiskScore_range (protocol : string) (volatility apy : float) :
  (0 <=? Tracker.calculateInvestmentRiskScore protocol volatility apy) = true
  /\ (Tracker.calculateInvestmentRiskScore protocol volatility apy <=? 100) = true
  /\ Tracker.calculateInvestmentRiskScore protocol nan nan
     = Tracker.calculateInvestmentRiskScore protocol 5 5.
Proof.
  split; [|split].
  - unfold Tracker.calculateInvestmentRiskScore. cbv zeta.
    generalize (if negb (isNaN volatility) then volatility else 5) as safeVolatility.
    generalize (if negb (isNaN apy) then apy else 5) as safeApy.
    intros safeApy safeVolatility.
    split_conditions; vm_compute; reflexivity.
  - unfold Tracker.calculateInvestmentRiskScore. cbv zeta.
    generalize (if negb (isNaN volatility) then volatility else 5) as safeVolatility.
    generalize (if negb (isNaN apy) then apy else 5) as safeApy.
    intros safeApy safeVolatility.
    split_conditions; vm_compute; reflexivity.
  - reflexivity.
Qed.

(** One of the five factors: whichever branch is taken, the score grows by
    1, 2, 3 or 4. *)
Lemma risk_factor (c1 c2 c3 : bool) (score : float) :
  exists k : nat,
    (1 <= k <= 4)%nat
    /\ (if c1 then score + 1
        else if c2 then score + 2
        else if c3 then score + 3
        else score + 4) = score + num k.
Proof.
  destruct c1; [exists 1%nat | destruct c2; [exists 2%nat | destruct c3; [exists 3%nat | exists 4%nat]]];
    (split; [lia | reflexivity]).
Qed.

Lemma five_factors_sum (a b c d e : nat) :
  (1 <= a <= 4)%nat -> (1 <= b <= 4)%nat -> (1 <= c <= 4)%nat ->
  (1 <= d <= 4)%nat -> (1 <= e <= 4)%nat ->
  0 + num a + num b + num c + num d + num e = num (a + b + c + d + e)
  /\ (num (a + b + c + d + e) <? Liquidity.maxRiskScore) = true.
Proof.
  intros Ha Hb Hc Hd He.
  assert (Ea : (a = 1 \/ a = 2 \/ a = 3 \/ a = 4)%nat) by lia.
  assert (Eb : (b = 1 \/ b = 2 \/ b = 3 \/ b = 4)%nat) by lia.
  assert (Ec : (c = 1 \/ c = 2 \/ c = 3 \/ c = 4)%nat) by lia.
  assert (Ed : (d = 1 \/ d = 2 \/ d = 3 \/ d = 4)%nat) by lia.
  assert (Ee : (e = 1 \/ e = 2 \/ e = 3 \/ e = 4)%nat) by lia.
  clear Ha Hb Hc Hd He.
  destruct Ea as [->|[->|[->| ->]]];
    destruct Eb as [->|[->|[->| ->]]];
    destruct Ec as [->|[->|[->| ->]]];
    destruct Ed as [->|[->|[->| ->]]];
    destruct Ee as [->|[->|[->| ->]]];
    split; vm_compute; reflexivity.
Qed.

(** C10.  The liquidity-pair risk score is the sum of five factors, each
    1, 2, 3 or 4: an integer from 5 to 20.  It stays below the 24 that the
    quality score takes for the largest possible risk score. *)
Theorem calculateRiskScore_range (pair : Liquidity.LiquidityPair) :
  exists a b c d e : nat,
    (1 <= a <= 4)%nat /\ (1 <= b <= 4)%nat /\ (1 <= c <= 4)%nat
    /\ (1 <= d <= 4)%nat /\ (1 <= e <= 4)%nat
    /\ Liquidity.calculateRiskScore pair = num (a + b + c + d + e)
    /\ (5 <= a + b + c + d + e <= 20)%nat
    /\ Liquidity.maxRiskScore = 24
    /\ (Liquidity.calculateRiskScore pair <? Liquidity.maxRiskScore) = true.
Proof.
  unfold Liquidity.calculateRiskScore. cbv zeta.
  match goal with
  | |- context [if ?c1 then 0 + 1 else if ?c2 then _ else if ?c3 then _ else _] =>
    destruct (risk_factor c1 c2 c3 0) as (a & Ha & ->)
  end.
  match goal with
  | |- context [if ?c1 then ?s + 1 else if ?c2 then ?s + 2 else if ?c3 then _ else _] =>
    destruct (risk_factor c1 c2 c3 s) as (e & He & ->)
  end.
  match goal with
  | |- context [if ?c1 then ?s + 1 else if ?c2 then ?s + 2 else if ?c3 then _ else _] =>
    destruct (risk_factor c1 c2 c3 s) as (d & Hd & ->)
  end.
  match goal with
  | |- context [if ?c1 then ?s + 1 else if ?c2 then ?s + 2 else if ?c3 then _ else _] =>
    destruct (risk_factor c1 c2 c3 s) as (c & Hc & ->)
  end.
  match goal with
  | |- context [if ?c1 then ?s + 1 else if ?c2 then ?s + 2 else if ?c3 then _ else _] =>
    destruct (risk_factor c1 c2 c3 s) as (b & Hb & ->)
  end.
  destruct (five_factors_sum a b c d e Ha Hb Hc Hd He) as [Hsum Hlt].
  exists a, b, c, d, e.
  rewrite Hsum.
  repeat (split; [assumption|]).
  split; [reflexivity|].
  split; [lia|].
  split; [reflexivity | exact Hlt].
Qed.

Example calculateInvestmentRiskScore_samples :
  Tracker.calculateInvestmentRiskScore "Aave" 5 5 = 40
  /\ Tracker.calculateInvestmentRiskScore "" nan 150 = 80
  /\ Tracker.calculateInvestmentRiskScore "PancakeSwap v3" 25 60 = 80
  /\ Tracker.calculateInvestmentRiskScore "Curve" 2 3 = 30
  /\ Tracker.calculateInvestmentRiskScore "NewFarm" 30 500 = 95.
Proof. repeat split; vm_compute; reflexivity. Qed.

(** Both ends of the range are reached. *)
Example calculateRiskScore_extremes :
  Liquidity.calculateRiskScore Samples.safestPair = 5
  /\ Liquidity.calculateRiskScore Samples.riskiestPair = 20
  /\ Liquidity.riskComponentOf (Liquidity.calculateRiskScore Samples.riskiestPair) = 10.
Proof. repeat split; vm_compute; reflexivity. Qed.

End RiskFacts.

(** ** Yield service *)

Section YieldServiceFacts.
Import YieldService.

(** The function as it stands reads the mock array, which cannot fail:
    the data comes back and nothing is logged. *)
Lemma getYieldOpportunities_mock (address : option string) (console : Console) :
  getYieldOpportunities address console
  = (Returned (if noAddress address
               then map withZeroBalance mockYieldData
               else mockYieldData),
     console).
Proof.
  unfold getYieldOpportunities, getYieldOpportunitiesFrom, tryCatch, bind, ret.
  destruct (noAddress address); reflexivity.
Qed.

(** C6.  [getYieldOpportunities] never ends with a thrown error, whatever
    the address; when reading the data throws, one console entry records
    the failure and the result is the empty array. *)
Theorem getYieldOpportunities_never_throws
        (retrieve : M (list YieldOpportunity))
        (address : option string) (console : Console) :
  exists (result : list YieldOpportunity) (console' : Console),
    getYieldOpportunitiesFrom retrieve address console = (Returned result, console')
    /\ forall (error : string) (c1 : Console),
        retrieve console = (Thrown error, c1) ->
        result = []
        /\ console' = c1 ++ [ {| label := "Error fetching yield opportunities:";
                                 logged := error |} ].
Proof.
  unfold getYieldOpportunitiesFrom, tryCatch, bind, ret, console_error.
  destruct (retrieve console) as [[data | error] c1] eqn:Hr.
  - destruct (noAddress address); eexists; eexists; (split; [reflexivity|]);
      intros error c2 H; discriminate H.
  - eexists; eexists; split; [reflexivity|].
    intros error' c2 H. injection H as <- <-. split; reflexivity.
Qed.

Lemma getYieldOpportunities_never_throws_witness :
  getYieldOpportunitiesFrom (throw "Network Error") (Some "0xabc"%string) []
  = (Returned [],
     [ {| label := "Error fetching yield opportunities:"; logged := "Network Error" |} ]).
Proof.
  destruct (getYieldOpportunities_never_throws
              (throw "Network Error") (Some "0xabc"%string) [])
    as (result & console' & Hrun & Hthrown).
  destruct (Hthrown "Network Error"%string [] eq_refl) as [-> ->].
  exact Hrun.
Defined.

End YieldServiceFacts.

(** ** Portfolio aggregates *)

Section AggregateFacts.
Import JS Tracker.

Lemma fold_sum_ext {A : Type} (f g : A -> float) (l : list A) :
  Forall (fun x => f x = g x) l ->
  forall acc : float,
    fold_left (fun sum x => sum + f x) l acc = fold_left (fun sum x => sum + g x) l acc.
Proof.
  induction 1 as [|x rest Hx _ IH]; intro acc; simpl.
  - reflexivity.
  - rewrite Hx. apply IH.
Qed.

Lemma sumBy_ext {A : Type} (f g : A -> float) (l : list A) :
  Forall (fun x => f x = g x) l -> sumBy f l = sumBy g l.
Proof.
  intro H. unfold sumBy. now apply fold_sum_ext.
Qed.

Lemma safeNumber_id (x d : float) : isNaN x = false -> safeNumber x d = x.
Proof.
  intro H. unfold safeNumber. now rewrite H.
Qed.

(** C3, refuted as stated.  Removing the last investment gives an average
    APY of 0 where the recomputation from the (empty) list is 0 / 0; and a
    simulated day on a portfolio whose invested total is not above zero
    gives an average APY of 0 where the weighted average is 5. *)
Lemma aggregates_not_always_recomputed :
  ~ Spec.aggregatesRecomputed (removeInvestment "inv-1" Samples.onePosition)
  /\ ~ Spec.aggregatesRecomputed
       (simulateSingleDayWithoutStateUpdate (daysSince Samples.env) Samples.oneShort)
  /\ Portfolio.averageApy
       (simulateSingleDayWithoutStateUpdate (daysSince Samples.env) Samples.oneShort) = 0
  /\ Portfolio.averageApy
       (Spec.recomputed
          (Portfolio.investments
             (simulateSingleDayWithoutStateUpdate (daysSince Samples.env)
                                                  Samples.oneShort))) = 5.
Proof.
  split; [|split; [|split]].
  - intro H. unfold Spec.aggregatesRecomputed in H.
    apply (f_equal (fun p => PrimFloat.is_nan (Portfolio.averageApy p))) in H.
    vm_compute in H. discriminate H.
  - intro H. unfold Spec.aggregatesRecomputed in H.
    apply (f_equal (fun p => Portfolio.averageApy p =? 0)) in H.
    vm_compute in H. discriminate H.
  - vm_compute. reflexivity.
  - vm_compute. reflexivity.
Qed.

(** C3, as the code has it.  [addInvestment] always recomputes the four
    aggregates from the new list, and [removeInvestment] does when an
    investment remains; removing the last one sets all four to zero.  A
    simulated day sums the amounts and current values with NaN counted as
    0, takes their difference, and divides the weighted APY sum by the
    invested total only when that total is above zero, giving 0 otherwise;
    without NaN fields and with a total above zero this is the same
    recomputation. *)
Theorem aggregates_after_mutation
        (pow : float -> float -> float) (clock : string -> option Z)
        (now : Z) (f : NewInvestment) (id : string) (p : Portfolio.t) :
  addInvestment pow now f p
  = Spec.recomputed (Portfolio.investments p ++ [buildInvestment pow now f])
  /\ removeInvestment id p
     = match filter (fun inv => negb (String.eqb (Investment.id inv) id))
                    (Portfolio.investments p) with
       | [] => emptyPortfolio
       | remaining => Spec.recomputed remaining
       end
  /\ let p' := simulateSingleDayWithoutStateUpdate clock p in
     let invested :=
       sumBy (fun inv => safeNumber (Investment.amount inv) 0) (Portfolio.investments p') in
     Portfolio.investments p' = map (simulateInvestment clock) (Portfolio.investments p)
     /\ Portfolio.totalInvested p' = invested
     /\ Portfolio.totalCurrentValue p'
        = sumBy (fun inv => safeNumber (Investment.currentValue inv) 0)
                (Portfolio.investments p')
     /\ Portfolio.totalEarnings p'
        = Portfolio.totalCurrentValue p' - Portfolio.totalInvested p'
     /\ Portfolio.averageApy p'
        = (if 0 <? invested
           then sumBy (fun inv => safeNumber (Investment.apy inv) 0
                                  * safeNumber (Investment.amount inv) 0)
                      (Portfolio.investments p')
                / invested
           else 0)
     /\ (Spec.noNaN (Portfolio.investments p') ->
         (0 <? Portfolio.totalInvested p') = true ->
         Spec.aggregatesRecomputed p').
Proof.
  split; [reflexivity|].
  split.
  { unfold removeInvestment.
    destruct (filter _ (Portfolio.investments p)); reflexivity. }
  cbv zeta.
  split; [reflexivity|].
  split; [reflexivity|].
  split; [reflexivity|].
  split; [reflexivity|].
  split; [reflexivity|].
  intros Hnan Hpos.
  unfold Spec.aggregatesRecomputed, Spec.recomputed.
  unfold simulateSingleDayWithoutStateUpdate in *. cbv zeta in *.
  simpl Portfolio.investments in *. simpl Portfolio.totalInvested in Hpos.
  set (l := map (simulateInvestment clock) (Portfolio.investments p)) in *.
  assert (Ha : sumBy (fun inv => safeNumber (Investment.amount inv) 0) l
               = sumBy Investment.amount l).
  { apply sumBy_ext. eapply Forall_impl; [|exact Hnan].
    intros inv (H1 & _ & _). now apply safeNumber_id. }
  assert (Hc : sumBy (fun inv => safeNumber (Investment.currentValue inv) 0) l
               = sumBy Investment.currentValue l).
  { apply sumBy_ext. eapply Forall_impl; [|exact Hnan].
    intros inv (_ & H2 & _). now apply safeNumber_id. }
  assert (Hw : sumBy (fun inv => safeNumber (Investment.apy inv) 0
                                 * safeNumber (Investment.amount inv) 0) l
               = sumBy (fun inv => Investment.apy inv * Investment.amount inv) l).
  { apply sumBy_ext. eapply Forall_impl; [|exact Hnan].
    intros inv (H1 & _ & H3). now rewrite !safeNumber_id. }
  rewrite Hpos. rewrite Ha, Hc, Hw. reflexivity.
Qed.

Lemma aggregates_after_mutation_witness :
  Spec.aggregatesRecomputed
    (simulateSingleDayWithoutStateUpdate (daysSince Samples.env) Samples.onePosition).
Proof.
  destruct (aggregates_after_mutation Samples.square (daysSince Samples.env) 1
                                      Samples.stableForm "inv-1" Samples.onePosition)
    as (_ & _ & _ & _ & _ & _ & _ & H).
  apply H.
  - repeat constructor.
  - vm_compute. reflexivity.
Defined.

End AggregateFacts.

(** ** The component's state *)

Section StateFacts.
Import JS Tracker Notions.

Lemma addInvestment_nonempty pow now f p :
  Portfolio.investments (addInvestment pow now f p) <> [].
Proof.
  simpl. destruct (Portfolio.investments p); discriminate.
Qed.

Lemma removeInvestment_empty id p :
  Portfolio.investments (removeInvestment id p) = [] ->
  removeInvestment id p = emptyPortfolio.
Proof.
  unfold removeInvestment.
  destruct (filter _ (Portfolio.investments p)); [reflexivity | discriminate].
Qed.

Lemma jsonClone_nonempty p :
  Portfolio.investments p <> [] -> Portfolio.investments (jsonClone p) <> [].
Proof.
  simpl. destruct (Portfolio.investments p); [congruence | discriminate].
Qed.

Lemma simulateSingleDay_nonempty clock p :
  Portfolio.investments p <> [] ->
  Portfolio.investments (simulateSingleDayWithoutStateUpdate clock p) <> [].
Proof.
  simpl. destruct (Portfolio.investments p); [congruence | discriminate].
Qed.

Lemma simulateDays_nonempty clock n :
  forall p, Portfolio.investments p <> [] ->
            Portfolio.investments (simulateDays clock n p) <> [].
Proof.
  induction n as [|n IH]; intros p H; simpl; [exact H|].
  apply IH. now apply simulateSingleDay_nonempty.
Qed.

Lemma length_zero_false {A : Type} (l : list A) :
  (List.length l =? 0)%nat = false -> l <> [].
Proof.
  destruct l; [discriminate | discriminate].
Qed.

Lemma updateTimer_Forall (P : Timer -> Prop) (l : list Timer) :
  Forall P l ->
  forall (k : nat) (t : option Timer),
    (forall t', t = Some t' -> P t') ->
    Forall P (updateTimer k t l).
Proof.
  induction 1 as [|x rest Hx Hrest IH]; intros k t Ht; simpl.
  - destruct k; constructor.
  - destruct k as [|k].
    + destruct t as [t'|]; [constructor; auto | assumption].
    + constructor; [assumption | now apply IH].
Qed.

Lemma nth_error_Forall {A : Type} (P : A -> Prop) (l : list A) (k : nat) (x : A) :
  Forall P l -> nth_error l k = Some x -> P x.
Proof.
  intros H Hn. rewrite Forall_forall in H. apply H. eapply nth_error_In; eassumption.
Qed.

Lemma simulateDailyUpdate_invariant env days showProgress s :
  stateInvariant s -> stateInvariant (simulateDailyUpdate env days showProgress s).
Proof.
  intros (Hp & Hr & Ht). unfold simulateDailyUpdate.
  destruct ((days <=? 0)%Z || _) eqn:Hguard; [repeat split; assumption|].
  apply orb_false_iff in Hguard. destruct Hguard as [_ Hlen].
  apply length_zero_false in Hlen.
  destruct showProgress; simpl.
  - repeat split; try assumption.
    apply Forall_app. split; [assumption|].
    constructor; [|constructor]. simpl.
    destruct (Portfolio.investments (portfolio s)); [congruence | discriminate].
  - assert (Hne : Portfolio.investments
                    (simulateDays (daysSince env) (Z.to_nat days) (jsonClone (portfolio s)))
                  <> []).
    { apply simulateDays_nonempty. now apply jsonClone_nonempty. }
    repeat split.
    + intro H. contradiction.
    + intros p H. injection H as <-. exact Hne.
    + assumption.
Qed.

Lemma intervalTick_invariant env k s :
  stateInvariant s -> stateInvariant (intervalTick env k s).
Proof.
  intros (Hp & Hr & Ht). unfold intervalTick.
  destruct (nth_error (intervals s) k) as [t|] eqn:Hk; [|repeat split; assumption].
  assert (Hne : Portfolio.investments (simulatedPortfolio t) <> []).
  { exact (nth_error_Forall _ _ _ _ Ht Hk). }
  destruct (days t <=? currentDay t)%Z; simpl.
  - repeat split; try assumption.
    + intros p H. injection H as <-. exact Hne.
    + apply updateTimer_Forall; [assumption | discriminate].
  - repeat split; try assumption.
    apply updateTimer_Forall; [assumption|].
    intros t' H. injection H as <-. simpl.
    destruct (Portfolio.investments (simulatedPortfolio t)); [congruence | discriminate].
Qed.

Lemma step_invariant env e s : stateInvariant s -> stateInvariant (step env e s).
Proof.
  intro H. destruct e; simpl.
  - destruct H as (Hp & Hr & Ht).
    split; [|split; assumption].
    intro E. exfalso.
    exact (addInvestment_nonempty (Math_pow env) now f (portfolio s) E).
  - destruct H as (Hp & Hr & Ht).
    split; [|split; assumption].
    apply removeInvestment_empty.
  - unfold onQuickSimulate.
    pose proof (simulateDailyUpdate_invariant env (simulationDays s) false s H)
      as (Hp & Hr & Ht).
    repeat split; assumption.
  - unfold onStartVisualSimulation.
    apply simulateDailyUpdate_invariant.
    destruct H as (Hp & Hr & Ht). repeat split; try assumption.
    intros p E. discriminate E.
  - now apply intervalTick_invariant.
  - destruct H as (Hp & Hr & Ht). repeat split; assumption.
  - destruct H as (Hp & Hr & Ht). repeat split; assumption.
  - unfold applySimulationToPortfolio.
    destruct (simulatedPortfolioResult s) as [newPortfolio|] eqn:Hres; [|exact H].
    destruct H as (Hp & Hr & Ht).
    split; [|split].
    + intro E. exfalso. exact (Hr newPortfolio Hres E).
    + intros p E. discriminate E.
    + exact Ht.
  - destruct H as (Hp & Hr & Ht). repeat split; assumption.
  - destruct H as (Hp & Hr & Ht). repeat split; assumption.
  - destruct H as (Hp & Hr & Ht). repeat split; assumption.
Qed.

Lemma reachable_invariant s : reachable s -> stateInvariant s.
Proof.
  induction 1 as [|env e s _ IH].
  - repeat split.
    + intros p H. discriminate H.
    + constructor.
  - now apply step_invariant.
Qed.

(** C4.  In every state reachable from the empty portfolio by adding,
    removing and simulating, a portfolio without investments has all four
    aggregates equal to zero. *)
Theorem empty_portfolio_aggregates_zero (s : State) :
  reachable s ->
  Portfolio.investments (portfolio s) = [] ->
  Spec.aggregatesZero (portfolio s).
Proof.
  intros Hreach Hempty.
  destruct (reachable_invariant s Hreach) as (Hp & _ & _).
  rewrite (Hp Hempty). repeat split.
Qed.

Lemma empty_portfolio_aggregates_zero_witness :
  Spec.aggregatesZero
    (portfolio (step Samples.env (RemoveInvestment "inv-1")
                     (step Samples.env (AddInvestment 1 Samples.stableForm) initialState))).
Proof.
  apply empty_portfolio_aggregates_zero.
  - apply reachable_step. apply reachable_step. apply reachable_initial.
  - vm_compute. reflexivity.
Defined.

(** The start of an animated run and every firing of an interval keep the
    portfolio, its stored copy and the other dialogs as they were. *)
Lemma simulateDailyUpdate_animated_frame env days s :
  Spec.sameOutsideSimulation s (simulateDailyUpdate env days true s).
Proof.
  unfold simulateDailyUpdate.
  destruct ((days <=? 0)%Z || _); repeat split.
Qed.

Lemma intervalTick_frame env k s :
  Spec.sameOutsideSimulation s (intervalTick env k s).
Proof.
  unfold intervalTick.
  destruct (nth_error (intervals s) k) as [t|]; [|repeat split].
  destruct (days t <=? currentDay t)%Z; repeat split.
Qed.

Lemma sameOutsideSimulation_trans s1 s2 s3 :
  Spec.sameOutsideSimulation s1 s2 ->
  Spec.sameOutsideSimulation s2 s3 ->
  Spec.sameOutsideSimulation s1 s3.
Proof.
  unfold Spec.sameOutsideSimulation.
  intros (A1 & A2 & A3 & A4 & A5 & A6 & A7) (B1 & B2 & B3 & B4 & B5 & B6 & B7).
  repeat split; congruence.
Qed.

Lemma runTicks_frame ticks :
  forall s, Spec.sameOutsideSimulation s (runTicks ticks s).
Proof.
  induction ticks as [|[env k] rest IH]; intro s; simpl.
  - repeat split.
  - eapply sameOutsideSimulation_trans; [apply (intervalTick_frame env k) | apply IH].
Qed.

Lemma onStartVisualSimulation_frame env s :
  Spec.sameOutsideSimulation s (onStartVisualSimulation env s).
Proof.
  unfold onStartVisualSimulation.
  eapply sameOutsideSimulation_trans; [|apply simulateDailyUpdate_animated_frame].
  repeat split.
Qed.

(** C2.  The animated simulation is cosmetic: started for any number of
    days on any state (by the call itself or by the dialog's button), and
    after any number of firings of its timer or of any other running one,
    the portfolio with its investments and four aggregates and the value
    stored under ['yield-snap-portfolio'] are what they were; only the
    simulation's own display state has changed. *)
Theorem animated_simulation_is_cosmetic
        (env : Env) (days : Z) (ticks : list (Env * nat)) (s : State) :
  let viaCall := runTicks ticks (simulateDailyUpdate env days true s) in
  let viaButton := runTicks ticks (onStartVisualSimulation env s) in
  (portfolio viaCall = portfolio s
   /\ storage viaCall = storage s
   /\ Spec.sameOutsideSimulation s viaCall)
  /\ (portfolio viaButton = portfolio s
      /\ storage viaButton = storage s
      /\ Spec.sameOutsideSimulation s viaButton).
Proof.
  cbv zeta.
  assert (H1 : Spec.sameOutsideSimulation
                 s (runTicks ticks (simulateDailyUpdate env days true s))).
  { eapply sameOutsideSimulation_trans;
      [apply simulateDailyUpdate_animated_frame | apply runTicks_frame]. }
  assert (H2 : Spec.sameOutsideSimulation
                 s (runTicks ticks (onStartVisualSimulation env s))).
  { eapply sameOutsideSimulation_trans;
      [apply onStartVisualSimulation_frame | apply runTicks_frame]. }
  split.
  - split; [apply H1 | split; [apply H1 | exact H1]].
  - split; [apply H2 | split; [apply H2 | exact H2]].
Qed.

(** It is the "Apply to Portfolio" button, not the animation, that replaces
    the portfolio and the stored copy by the simulated one. *)
Lemma applySimulationToPortfolio_replaces nowIso s p :
  simulatedPortfolioResult s = Some p ->
  portfolio (applySimulationToPortfolio nowIso s) = p
  /\ storage (applySimulationToPortfolio nowIso s) = Some p.
Proof.
  intro H. unfold applySimulationToPortfolio. rewrite H. split; reflexivity.
Qed.

(** One firing of the first interval while days are left: a day is
    simulated on the working copy. *)
Lemma intervalTick_running env s t rest :
  intervals s = t :: rest ->
  (currentDay t < days t)%Z ->
  exists h,
    intervals (intervalTick env 0 s)
    = {| days := days t;
         currentDay := currentDay t + 1;
         simulatedPortfolio :=
           simulateSingleDayWithoutStateUpdate (daysSince env) (simulatedPortfolio t);
         history := h |} :: rest.
Proof.
  intros Hs Hlt. eexists. unfold intervalTick. rewrite Hs. simpl nth_error. cbv beta iota.
  rewrite (proj2 (Z.leb_gt (days t) (currentDay t)) Hlt).
  reflexivity.
Qed.

(** The firing that finds no day left: the interval is cleared and the
    working copy becomes the stored result. *)
Lemma intervalTick_done env s t rest :
  intervals s = t :: rest ->
  (days t <= currentDay t)%Z ->
  intervals (intervalTick env 0 s) = rest
  /\ simulationComplete (intervalTick env 0 s) = true
  /\ isSimulating (intervalTick env 0 s) = false
  /\ simulatedPortfolioResult (intervalTick env 0 s) = Some (simulatedPortfolio t).
Proof.
  intros Hs Hle. unfold intervalTick. rewrite Hs. simpl nth_error. cbv beta iota.
  rewrite (proj2 (Z.leb_le (days t) (currentDay t)) Hle).
  repeat split.
Qed.

Lemma ticks_advance env :
  forall (n : nat) (s : State) (t : Timer),
    intervals s = [t] ->
    (currentDay t + Z.of_nat n <= days t)%Z ->
    exists h,
      intervals (runTicks (repeat (env, 0%nat) n) s)
      = [ {| days := days t;
             currentDay := currentDay t + Z.of_nat n;
             simulatedPortfolio := simulateDays (daysSince env) n (simulatedPortfolio t);
             history := h |} ].
Proof.
  induction n as [|n IH]; intros s t Hs Hle.
  - exists (history t). simpl. rewrite Hs, Z.add_0_r. destruct t; reflexivity.
  - destruct (intervalTick_running env s t [] Hs) as (h1 & H1); [lia|].
    destruct (IH _ _ H1) as (h & Hh); [simpl; lia|].
    exists h. simpl repeat. unfold runTicks in *. simpl fold_left.
    rewrite Hh. simpl.
    replace (currentDay t + 1 + Z.of_nat n)%Z
      with (currentDay t + Z.pos (Pos.of_succ_nat n))%Z by lia.
    reflexivity.
Qed.

(** With no other interval running, an animated run of [n] days on a
    portfolio that has investments is over after [n + 1] firings: the
    interval is cleared and the simulated portfolio, [n] simulated days on
    a copy of the real one, waits to be applied, the real one untouched. *)
Lemma animated_simulation_completes env (n : nat) (s : State) :
  intervals s = [] ->
  Portfolio.investments (portfolio s) <> [] ->
  (0 < n)%nat ->
  let s' := runTicks (repeat (env, 0%nat) (n + 1))
                     (simulateDailyUpdate env (Z.of_nat n) true s) in
  intervals s' = []
  /\ simulationComplete s' = true
  /\ isSimulating s' = false
  /\ simulatedPortfolioResult s'
     = Some (simulateDays (daysSince env) n (jsonClone (portfolio s)))
  /\ portfolio s' = portfolio s
  /\ storage s' = storage s.
Proof.
  intros Hnone Hne Hn. cbv zeta.
  assert (Hframe : Spec.sameOutsideSimulation
                     s (runTicks (repeat (env, 0%nat) (n + 1))
                                 (simulateDailyUpdate env (Z.of_nat n) true s))).
  { eapply sameOutsideSimulation_trans;
      [apply simulateDailyUpdate_animated_frame | apply runTicks_frame]. }
  destruct Hframe as (Hport & Hstore & _).
  split; [|split; [|split; [|split; [|split; assumption]]]].
  all: set (s0 := simulateDailyUpdate env (Z.of_nat n) true s).
  all: assert (Hs0 : intervals s0
                     = [ {| days := Z.of_nat n; currentDay := 0;
                            simulatedPortfolio := jsonClone (portfolio s);
                            history :=
                              [ {| date := formatDay env 0;
                                   value := Portfolio.totalCurrentValue (portfolio s) |} ]
                         |} ])
    by (unfold s0, simulateDailyUpdate;
        rewrite (proj2 (Z.leb_gt (Z.of_nat n) 0)) by lia;
        destruct (Portfolio.investments (portfolio s)) eqn:E; [congruence|];
        simpl; rewrite Hnone; reflexivity).
  all: destruct (ticks_advance env n s0 _ Hs0) as (h & Hh); [simpl; lia|].
  all: rewrite repeat_app; unfold runTicks; rewrite fold_left_app;
    fold (runTicks (repeat (env, 0%nat) n) s0); simpl fold_left.
  all: simpl in Hh.
  all: destruct (intervalTick_done env _ _ [] Hh) as (D1 & D2 & D3 & D4); [simpl; lia|].
  - exact D1.
  - exact D2.
  - exact D3.
  - exact D4.
Qed.

End StateFacts.

(** ** Floating-point facts *)

Section FloatFacts.
Import Notions.

Lemma SF_nan : Prim2SF nan = S754_nan.
Proof. vm_compute. reflexivity. Qed.

Lemma SF_zero : Prim2SF 0 = S754_zero false.
Proof. vm_compute. reflexivity. Qed.

Lemma SF_one : Prim2SF 1 = S754_finite false 4503599627370496 (-52).
Proof. vm_compute. reflexivity. Qed.

Lemma SF_infinity : Prim2SF infinity = S754_infinity false.
Proof. vm_compute. reflexivity. Qed.

Lemma SF_neg_infinity : Prim2SF neg_infinity = S754_infinity true.
Proof. vm_compute. reflexivity. Qed.

Lemma SFcompare_refl (x : spec_float) : x <> S754_nan -> SFcompare x x = Some Eq.
Proof.
  destruct x as [s|s| |s m e]; intro H; try congruence; simpl.
  - reflexivity.
  - destruct s; reflexivity.
  - destruct s; rewrite Z.compare_refl, Pos.compare_cont_refl; reflexivity.
Qed.

Lemma is_nan_spec (x : float) : PrimFloat.is_nan x = true <-> Prim2SF x = S754_nan.
Proof.
  unfold PrimFloat.is_nan. rewrite eqb_spec. unfold SFeqb. split.
  - intro H. destruct (Prim2SF x) eqn:E; try reflexivity;
      rewrite SFcompare_refl in H by discriminate; discriminate H.
  - intros ->. reflexivity.
Qed.

Lemma is_nan_false (x : float) : PrimFloat.is_nan x = false <-> Prim2SF x <> S754_nan.
Proof.
  rewrite <- is_nan_spec. destruct (PrimFloat.is_nan x); split; congruence.
Qed.

Lemma is_zero_spec (x : float) :
  PrimFloat.is_zero x = true <-> exists s, Prim2SF x = S754_zero s.
Proof.
  unfold PrimFloat.is_zero. rewrite eqb_spec. change (Prim2SF zero) with (Prim2SF 0). rewrite SF_zero.
  unfold SFeqb. split.
  - intro H. destruct (Prim2SF x) as [s|s| |s m e]; simpl in H;
      try discriminate H; try (destruct s; discriminate H).
    now exists s.
  - intros [s ->]. reflexivity.
Qed.

(** A number is falsy exactly when it is NaN or a zero. *)
Lemma truthy_false (x : float) :
  JS.truthy x = false ->
  Prim2SF x = S754_nan \/ exists s, Prim2SF x = S754_zero s.
Proof.
  unfold JS.truthy. intro H. apply negb_false_iff, orb_true_iff in H.
  destruct H as [H|H]; [left; now apply is_nan_spec | right; now apply is_zero_spec].
Qed.

Lemma orElse_truthy (x : float) : JS.truthy x = true -> JS.orElse x 0 = x.
Proof. unfold JS.orElse. now intros ->. Qed.

Lemma orElse_falsy (x : float) : JS.truthy x = false -> JS.orElse x 0 = 0.
Proof. unfold JS.orElse. now intros ->. Qed.

Lemma float_of_SF (x y : float) : Prim2SF x = Prim2SF y -> x = y.
Proof. apply Prim2SF_inj. Qed.

Lemma SF_is_nan (x : float) : Prim2SF x = S754_nan -> x = nan.
Proof. intro H. apply Prim2SF_inj. now rewrite SF_nan. Qed.

(** A finite number is a zero or has a mantissa and an exponent. *)
Lemma is_finite_spec (x : float) :
  PrimFloat.is_finite x = true ->
  (exists s, Prim2SF x = S754_zero s) \/ (exists s m e, Prim2SF x = S754_finite s m e).
Proof.
  unfold PrimFloat.is_finite, PrimFloat.is_infinity. intro H.
  apply negb_true_iff, orb_false_iff in H. destruct H as [Hn Hi].
  apply is_nan_false in Hn.
  rewrite eqb_spec, abs_spec, SF_infinity in Hi.
  destruct (Prim2SF x) as [s|s| |s m e]; simpl in Hi.
  - left. now exists s.
  - discriminate Hi.
  - congruence.
  - right. now exists s, m, e.
Qed.

(** A number above zero is a positive finite number or +Infinity. *)
Lemma positive_spec (x : float) :
  (0 <? x) = true ->
  (exists m e, Prim2SF x = S754_finite false m e) \/ Prim2SF x = S754_infinity false.
Proof.
  rewrite ltb_spec, SF_zero. unfold SFltb. intro H.
  destruct (Prim2SF x) as [s|s| |s m e]; simpl in H; try discriminate H.
  - destruct s; [discriminate H | now right].
  - destruct s; [discriminate H | left; now exists m, e].
Qed.


(** ** Sums with the [|| 0] guard *)

Lemma add_nan_l (t a : float) : Prim2SF t = S754_nan -> Prim2SF (t + a) = S754_nan.
Proof.
  intro H. rewrite add_spec, H. reflexivity.
Qed.

Lemma add_from_zero (t a : float) (s : bool) :
  Prim2SF t = S754_zero s -> sameUpToZero (0 + a) (t + a).
Proof.
  intro Ht. unfold sameUpToZero.
  destruct (Prim2SF a) as [sa|sa| |sa m e] eqn:Ea.
  - right. right. split.
    + rewrite add_spec, SF_zero, Ea. destruct sa; eexists; reflexivity.
    + rewrite add_spec, Ht, Ea. destruct s, sa; eexists; reflexivity.
  - right. left. apply Prim2SF_inj.
    rewrite !add_spec, SF_zero, Ht, Ea. reflexivity.
  - left. rewrite add_spec, Ht, Ea. reflexivity.
  - right. left. apply Prim2SF_inj.
    rewrite !add_spec, SF_zero, Ht, Ea. reflexivity.
Qed.

Lemma zero_is_falsy (d : float) (s : bool) :
  Prim2SF d = S754_zero s -> JS.truthy d = false.
Proof.
  intro H. unfold JS.truthy.
  assert (Hz : PrimFloat.is_zero d = true) by (apply is_zero_spec; now exists s).
  rewrite Hz, orb_true_r. reflexivity.
Qed.

Lemma guarded_step (d t a : float) :
  sameUpToZero d t -> sameUpToZero (JS.orElse d 0 + a) (t + a).
Proof.
  intros [Hnan | [-> | [[sd Hd] [st Ht]]]].
  - left. now apply add_nan_l.
  - destruct (JS.truthy t) eqn:Htr.
    + rewrite orElse_truthy by assumption. right. left. reflexivity.
    + rewrite orElse_falsy by assumption.
      destruct (truthy_false t Htr) as [Hn | [s Hz]].
      * left. now apply add_nan_l.
      * now apply (add_from_zero t a s).
  - rewrite orElse_falsy by (now apply (zero_is_falsy d sd)).
    now apply (add_from_zero t a st).
Qed.

Lemma guarded_sum {A : Type} (f : A -> float) (l : list A) :
  forall d t : float,
    sameUpToZero d t ->
    sameUpToZero (fold_left (fun acc x => JS.orElse acc 0 + f x) l d)
                 (fold_left (fun acc x => acc + f x) l t).
Proof.
  induction l as [|a rest IH]; intros d t H; simpl.
  - exact H.
  - apply IH. now apply guarded_step.
Qed.

(** ** A number divided by itself *)

Lemma div_eucl_multiple (m : positive) (k : Z) :
  Z.div_eucl (Z.pos m * k) (Z.pos m) = (k, 0%Z).
Proof.
  pose proof (Z.div_mul k (Z.pos m)) as Hq.
  pose proof (Z.mod_mul k (Z.pos m)) as Hr.
  unfold Z.div, Z.modulo in Hq, Hr.
  rewrite (Z.mul_comm (Z.pos m) k).
  destruct (Z.div_eucl (k * Z.pos m) (Z.pos m)) as [q r].
  rewrite Hq, Hr by discriminate. reflexivity.
Qed.

Lemma SFdiv_self (s : bool) (m : positive) (e : Z) :
  SF64div (S754_finite s m e) (S754_finite s m e) = Prim2SF 1.
Proof.
  rewrite SF_one.
  unfold SF64div, SFdiv, SFdiv_core_binary.
  unfold Zdigits2.
  rewrite !Z.sub_diag.
  change (Z.min (fexp prec emax 0) 0) with (-53)%Z.
  change (0 - -53)%Z with 53%Z.
  cbv iota beta.
  rewrite Z.shiftl_mul_pow2 by lia.
  rewrite div_eucl_multiple.
  rewrite xorb_nilpotent.
  assert (Hloc : new_location (Z.pos m) 0 = loc_Exact).
  { unfold new_location, new_location_even, new_location_odd.
    destruct (Z.even (Z.pos m)); reflexivity. }
  rewrite Hloc.
  vm_compute. reflexivity.
Qed.

(** A number divided by itself is 1 if it is finite and not zero, and NaN
    otherwise. *)
Lemma div_self (x : float) : x / x = 1 \/ x / x = nan.
Proof.
  destruct (Prim2SF x) as [s|s| |s m e] eqn:E.
  - right. apply SF_is_nan. rewrite div_spec, E. reflexivity.
  - right. apply SF_is_nan. rewrite div_spec, E. reflexivity.
  - right. apply SF_is_nan. rewrite div_spec, E. reflexivity.
  - left. apply Prim2SF_inj. rewrite div_spec, E. apply SFdiv_self.
Qed.

Lemma div_sameUpToZero (d t : float) :
  sameUpToZero d t -> d / t = 1 \/ d / t = nan.
Proof.
  intros [Hnan | [-> | [[sd Hd] [st Ht]]]].
  - right. apply SF_is_nan. rewrite div_spec, Hnan.
    destruct (Prim2SF d); reflexivity.
  - apply div_self.
  - right. apply SF_is_nan. rewrite div_spec, Hd, Ht. reflexivity.
Qed.

(** Division by zero never gives a finite number. *)
Lemma div_by_zero (y : float) :
  y / 0 = nan \/ y / 0 = infinity \/ y / 0 = neg_infinity.
Proof.
  destruct (Prim2SF y) as [s|s| |s m e] eqn:E.
  - left. apply SF_is_nan. rewrite div_spec, E, SF_zero. reflexivity.
  - right. destruct s; [right | left]; apply Prim2SF_inj;
      rewrite div_spec, E, SF_zero; vm_compute; reflexivity.
  - left. apply SF_is_nan. rewrite div_spec, E, SF_zero. reflexivity.
  - right. destruct s; [right | left]; apply Prim2SF_inj;
      rewrite div_spec, E, SF_zero; vm_compute; reflexivity.
Qed.


(** ** Sums of finite numbers are never NaN *)

Lemma shr_1_nonneg (mrs : shr_record) :
  (0 <= shr_m mrs)%Z -> (0 <= shr_m (shr_1 mrs))%Z.
Proof.
  destruct mrs as [m r s]. destruct m as [|p|p]; simpl; intro H.
  - lia.
  - destruct p; simpl; lia.
  - lia.
Qed.

Lemma iter_shr_1_nonneg (p : positive) :
  forall mrs : shr_record,
    (0 <= shr_m mrs)%Z -> (0 <= shr_m (iter_pos shr_1 p mrs))%Z.
Proof.
  induction p as [p IH|p IH|]; intros mrs H; simpl.
  - apply IH, IH. now apply shr_1_nonneg.
  - now apply IH, IH.
  - now apply shr_1_nonneg.
Qed.

Lemma shr_fexp_nonneg (m e : Z) (l : location) :
  (0 <= m)%Z -> (0 <= shr_m (fst (shr_fexp prec emax m e l)))%Z.
Proof.
  intro H. unfold shr_fexp, shr.
  assert (H0 : (0 <= shr_m (shr_record_of_loc m l))%Z).
  { destruct l as [|[]]; exact H. }
  destruct (fexp prec emax (Zdigits2 m + e) - e)%Z; simpl; try exact H0.
  now apply iter_shr_1_nonneg.
Qed.

Lemma round_nearest_even_nonneg (m : Z) (l : location) :
  (0 <= m)%Z -> (0 <= round_nearest_even m l)%Z.
Proof.
  intro H. destruct l as [|[]]; simpl; try lia.
  destruct (Z.even m); lia.
Qed.

Lemma binary_round_aux_not_nan (sx : bool) (m e : Z) (l : location) :
  (0 <= m)%Z -> binary_round_aux prec emax sx m e l <> S754_nan.
Proof.
  intro H. unfold binary_round_aux.
  pose proof (shr_fexp_nonneg m e l H) as H1.
  destruct (shr_fexp prec emax m e l) as [mrs1 e1]. simpl in H1.
  pose proof (shr_fexp_nonneg _ e1 loc_Exact
                (round_nearest_even_nonneg _ (loc_of_shr_record mrs1) H1)) as H2.
  destruct (shr_fexp prec emax _ e1 loc_Exact) as [mrs2 e2]. simpl in H2.
  destruct (shr_m mrs2) as [|p|p].
  - discriminate.
  - destruct (e2 <=? emax - prec)%Z; discriminate.
  - lia.
Qed.

Lemma binary_normalize_not_nan (m e : Z) (szero : bool) :
  binary_normalize prec emax m e szero <> S754_nan.
Proof.
  unfold binary_normalize, binary_round.
  destruct m as [|p|p].
  - discriminate.
  - destruct (shl_align p e _) as [mz ez]. apply binary_round_aux_not_nan. lia.
  - destruct (shl_align p e _) as [mz ez]. apply binary_round_aux_not_nan. lia.
Qed.

Lemma add_finite_not_nan (x a : float) :
  Prim2SF x <> S754_nan ->
  PrimFloat.is_finite a = true ->
  Prim2SF (x + a) <> S754_nan.
Proof.
  intros Hx Ha. rewrite add_spec.
  destruct (is_finite_spec a Ha) as [[sa ->] | (sa & ma & ea & ->)];
    destruct (Prim2SF x) as [s|s| |s m e]; try congruence; unfold SF64add, SFadd.
  - destruct s, sa; discriminate.
  - discriminate.
  - discriminate.
  - discriminate.
  - discriminate.
  - apply binary_normalize_not_nan.
Qed.

Lemma sum_finite_not_nan {A : Type} (f : A -> float) (l : list A) :
  Forall (fun x => PrimFloat.is_finite (f x) = true) l ->
  forall acc : float,
    Prim2SF acc <> S754_nan ->
    Prim2SF (fold_left (fun sum x => sum + f x) l acc) <> S754_nan.
Proof.
  induction 1 as [|x rest Hx _ IH]; intros acc Hacc; simpl.
  - exact Hacc.
  - apply IH. now apply add_finite_not_nan.
Qed.

(** The square of the share is the same for two totals that differ only
    in the sign of a zero. *)
Lemma share_square_same (q s t : float) :
  sameUpToZero q s ->
  Prim2SF s <> S754_nan ->
  (0 <? t) = true ->
  (q / t) * (q / t) = (s / t) * (s / t).
Proof.
  intros [Hnan | [-> | [[sq Hq] [ss Hs]]]] Hs' Ht.
  - congruence.
  - reflexivity.
  - apply Prim2SF_inj. rewrite !mul_spec, !div_spec, Hq, Hs.
    destruct (positive_spec t Ht) as [(m & e & ->) | ->]; simpl;
      rewrite !xorb_nilpotent; reflexivity.
Qed.

End FloatFacts.

(** ** The protocol distribution object *)

Section HealthFacts.
Import JS Tracker Notions.

Lemma existsb_eqb_In (k : string) (keys : list string) :
  existsb (String.eqb k) keys = true <-> In k keys.
Proof.
  rewrite existsb_exists. split.
  - intros (x & Hx & E). apply String.eqb_eq in E. now subst.
  - intro H. exists k. split; [exact H | apply String.eqb_refl].
Qed.

Lemma objGet_entries (g : string -> Value) (k : string) (keys : list string) :
  objGetOwn (map (entryOf g) keys) k
  = if existsb (String.eqb k) keys then Some (g k) else None.
Proof.
  induction keys as [|P rest IH]; simpl; [reflexivity|].
  rewrite (String.eqb_sym k P).
  destruct (String.eqb P k) eqn:E; simpl.
  - apply String.eqb_eq in E. now subst.
  - exact IH.
Qed.

Lemma objReplace_entries (g : string -> Value) (k : string) (v : Value)
      (keys : list string) :
  NoDup keys ->
  objReplace (map (entryOf g) keys) k v
  = map (entryOf (fun P => if String.eqb P k then v else g P)) keys.
Proof.
  unfold entryOf.
  induction 1 as [|P rest Hnot _ IH]; cbn; [reflexivity|].
  destruct (String.eqb P k) eqn:E.
  - f_equal. apply map_ext_in. intros Q HQ.
    apply String.eqb_eq in E. subst k.
    destruct (String.eqb Q P) eqn:EQ; [|reflexivity].
    apply String.eqb_eq in EQ. subst Q. contradiction.
  - f_equal. exact IH.
Qed.

Lemma objInsert_entries (g : string -> Value) (k : string) (v : Value)
      (keys : list string) :
  ~ In k keys ->
  objInsert (map (entryOf g) keys) k v
  = map (entryOf (fun P => if String.eqb P k then v else g P)) (Spec.insertKey keys k).
Proof.
  unfold entryOf.
  assert (Hrest : forall l, ~ In k l ->
                            map (fun P => (P, if String.eqb P k then v else g P)) l
                            = map (fun P => (P, g P)) l).
  { intros l Hl. apply map_ext_in. intros Q HQ.
    destruct (String.eqb Q k) eqn:EQ; [|reflexivity].
    apply String.eqb_eq in EQ. subst Q. contradiction. }
  induction keys as [|P rest IH]; intro Hnot; cbn.
  - now rewrite String.eqb_refl.
  - assert (HP : String.eqb P k = false).
    { destruct (String.eqb P k) eqn:E; [|reflexivity].
      apply String.eqb_eq in E. subst P. exfalso. apply Hnot. now left. }
    assert (Hr : ~ In k rest) by (intro H; apply Hnot; now right).
    destruct (arrayIndex k) as [n|]; [destruct (arrayIndex P) as [m|];
                                      [destruct (n <? m)%N|]|]; cbn.
    + rewrite String.eqb_refl, HP, (Hrest rest Hr). reflexivity.
    + rewrite HP. f_equal. now apply IH.
    + rewrite String.eqb_refl, HP, (Hrest rest Hr). reflexivity.
    + rewrite HP. f_equal. now apply IH.
Qed.

Lemma insertKey_In (k P : string) (keys : list string) :
  In P (Spec.insertKey keys k) <-> P = k \/ In P keys.
Proof.
  induction keys as [|Q rest IH]; simpl.
  - intuition.
  - destruct (arrayIndex k) as [n|]; [destruct (arrayIndex Q) as [m|];
                                      [destruct (n <? m)%N|]|]; simpl; intuition.
Qed.

Lemma insertKey_NoDup (k : string) (keys : list string) :
  NoDup keys -> ~ In k keys -> NoDup (Spec.insertKey keys k).
Proof.
  induction 1 as [|Q rest HQ Hrest IH]; intro Hk; simpl.
  - constructor; [intros [] | constructor].
  - assert (Hnew : NoDup (k :: Q :: rest)).
    { constructor; [exact Hk | constructor; assumption]. }
    assert (Hin : NoDup (Q :: Spec.insertKey rest k)).
    { constructor.
      - rewrite insertKey_In. intros [-> | H]; [apply Hk; now left | contradiction].
      - apply IH. intro H. apply Hk. now right. }
    destruct (arrayIndex k) as [n|]; [destruct (arrayIndex Q) as [m|];
                                      [destruct (n <? m)%N|]|]; assumption.
Qed.

Lemma protocolsOf_snoc (l : list Investment.t) (x : Investment.t) :
  Spec.protocolsOf (l ++ [x]) = Spec.addKey (Spec.protocolsOf l) (Investment.protocol x).
Proof.
  unfold Spec.protocolsOf. now rewrite map_app, fold_left_app.
Qed.

Lemma protocolsOf_NoDup (l : list Investment.t) : NoDup (Spec.protocolsOf l).
Proof.
  induction l as [|x l IH] using rev_ind.
  - constructor.
  - rewrite protocolsOf_snoc. unfold Spec.addKey.
    destruct (existsb _ _) eqn:E; [exact IH|].
    apply insertKey_NoDup; [exact IH|].
    rewrite <- existsb_eqb_In. congruence.
Qed.

Lemma protocolsOf_In (l : list Investment.t) (P : string) :
  In P (Spec.protocolsOf l) <-> In P (map Investment.protocol l).
Proof.
  induction l as [|x l IH] using rev_ind.
  - reflexivity.
  - rewrite protocolsOf_snoc, map_app, in_app_iff. simpl. unfold Spec.addKey.
    destruct (existsb _ _) eqn:E.
    + apply existsb_eqb_In in E. split.
      * intro H. left. now apply IH.
      * intros [H | [<- | []]]; [now apply IH | exact E].
    + rewrite insertKey_In, IH. split; intuition.
Qed.

Lemma guardedTotal_snoc (P : string) (l : list Investment.t) (x : Investment.t) :
  guardedTotal P (l ++ [x])
  = if String.eqb (Investment.protocol x) P
    then orElse (guardedTotal P l) 0 + Investment.amount x
    else guardedTotal P l.
Proof.
  unfold guardedTotal. rewrite filter_app. simpl.
  destruct (String.eqb (Investment.protocol x) P).
  - now rewrite fold_left_app.
  - now rewrite app_nil_r.
Qed.

Lemma guardedTotal_absent (P : string) (l : list Investment.t) :
  ~ In P (map Investment.protocol l) -> guardedTotal P l = 0.
Proof.
  intro H. unfold guardedTotal.
  replace (filter _ l) with (@nil Investment.t); [reflexivity|].
  symmetry. induction l as [|x l IH]; simpl; [reflexivity|].
  destruct (String.eqb (Investment.protocol x) P) eqn:E.
  - apply String.eqb_eq in E. exfalso. apply H. now left.
  - apply IH. intro H'. apply H. now right.
Qed.

Lemma filter_ownKey_all (l : list Investment.t) :
  Forall (fun inv => ownKey inv = true) l -> filter ownKey l = l.
Proof.
  induction 1 as [|x rest Hx _ IH]; simpl; [reflexivity|]. now rewrite Hx, IH.
Qed.

(** An investment under [__proto__] leaves the object as it is. *)
Lemma protocolDistribution_skips_proto (l : list Investment.t) :
  protocolDistributionOf l = protocolDistributionOf (filter ownKey l).
Proof.
  unfold protocolDistributionOf. generalize (@nil (string * Value)).
  induction l as [|x l IH]; intro o; [reflexivity|].
  cbn [fold_left filter]. unfold ownKey at 1.
  destruct (String.eqb (Investment.protocol x) "__proto__") eqn:E; cbn [negb].
  - unfold objSet at 2. rewrite E. apply IH.
  - cbn [fold_left]. apply IH.
Qed.

(** The object built by the [forEach] from investments that can have a
    key: one property per protocol, in the order objects list their keys,
    holding that protocol's guarded total, or a text under the name of an
    inherited method. *)
Lemma protocolDistribution_own_keys (l : list Investment.t) :
  Forall (fun inv => ownKey inv = true) l ->
  protocolDistributionOf l = map (entryOf (held l)) (Spec.protocolsOf l).
Proof.
  induction l as [|x l IH] using rev_ind; intro Hown.
  - reflexivity.
  - apply Forall_app in Hown. destruct Hown as [Hl Hx].
    inversion Hx as [|x' rest' Ex _]; subst. unfold ownKey in Ex.
    apply negb_true_iff in Ex.
    unfold protocolDistributionOf in *. rewrite fold_left_app. simpl.
    rewrite (IH Hl).
    rewrite protocolsOf_snoc. unfold Spec.addKey, objSet, objGet. rewrite Ex.
    rewrite objGet_entries.
    destruct (existsb (String.eqb (Investment.protocol x)) (Spec.protocolsOf l)) eqn:E.
    + rewrite objReplace_entries by apply protocolsOf_NoDup.
      apply map_ext. intro P. unfold entryOf. f_equal. unfold held.
      rewrite guardedTotal_snoc, (String.eqb_sym P).
      destruct (String.eqb (Investment.protocol x) P) eqn:EP; [|reflexivity].
      apply String.eqb_eq in EP. subst P.
      destruct (includes objectPrototypeMethods (Investment.protocol x)); reflexivity.
    + assert (Hnot : ~ In (Investment.protocol x) (Spec.protocolsOf l)).
      { rewrite <- existsb_eqb_In. congruence. }
      rewrite objInsert_entries by exact Hnot.
      apply map_ext. intro P. unfold entryOf. f_equal. unfold held.
      rewrite guardedTotal_snoc, (String.eqb_sym P).
      destruct (String.eqb (Investment.protocol x) P) eqn:EP; [|reflexivity].
      apply String.eqb_eq in EP. subst P.
      unfold inherited. rewrite Ex. cbn [orb].
      destruct (includes objectPrototypeMethods (Investment.protocol x)); [reflexivity|].
      cbn [orZeroPlus]. rewrite guardedTotal_absent; [reflexivity|].
      now rewrite <- protocolsOf_In.
Qed.

Lemma Forall_ownKey_filter (l : list Investment.t) :
  Forall (fun inv => ownKey inv = true) (filter ownKey l).
Proof.
  apply Forall_forall. intros inv H. apply filter_In in H. tauto.
Qed.

(** The object built by the [forEach], whatever the protocols are called. *)
Lemma protocolDistribution_entries (l : list Investment.t) :
  protocolDistributionOf l
  = map (entryOf (held (filter ownKey l))) (Spec.protocolsOf (filter ownKey l)).
Proof.
  rewrite protocolDistribution_skips_proto.
  apply protocolDistribution_own_keys, Forall_ownKey_filter.
Qed.

Lemma protocolsOf_nonempty (l : list Investment.t) :
  l <> [] -> Spec.protocolsOf l <> [].
Proof.
  destruct l as [|x rest]; [congruence|]. intros _ H.
  assert (Hin : In (Investment.protocol x) (Spec.protocolsOf (x :: rest))).
  { apply protocolsOf_In. now left. }
  rewrite H in Hin. contradiction.
Qed.


Lemma fold_left_map_values {A B : Type} (f : float -> B -> float) (g : A -> B)
      (l : list A) :
  forall acc : float,
    fold_left f (map g l) acc = fold_left (fun sum x => f sum (g x)) l acc.
Proof.
  induction l as [|x rest IH]; intro acc; simpl; [reflexivity | apply IH].
Qed.

Lemma Forall_filter {A : Type} (P : A -> Prop) (keep : A -> bool) (l : list A) :
  Forall P l -> Forall P (filter keep l).
Proof.
  induction 1 as [|x rest Hx _ IH]; simpl; [constructor|].
  destruct (keep x); [constructor; assumption | assumption].
Qed.

(** The guarded total of a protocol against its plain sum. *)
Lemma guardedTotal_investedIn (P : string) (l : list Investment.t) :
  sameUpToZero (guardedTotal P l) (Spec.investedIn P l).
Proof.
  unfold guardedTotal, Spec.investedIn, sumBy.
  apply guarded_sum. right. left. reflexivity.
Qed.

(** What the code sums for the index, entry by entry. *)
Lemma hhi_over_protocols (l : list Investment.t) (t : float) :
  fold_left (fun sum amount => let marketShare := toNumber amount / t in
                               sum + marketShare * marketShare)
            (objectValues (protocolDistributionOf l)) 0
  = sumBy (fun P => (toNumber (held (filter ownKey l) P) / t)
                    * (toNumber (held (filter ownKey l) P) / t))
          (Spec.protocolsOf (filter ownKey l)).
Proof.
  rewrite protocolDistribution_entries. unfold objectValues, sumBy.
  rewrite map_map, fold_left_map_values. reflexivity.
Qed.

(** With an investment under a name other than [__proto__] the health is
    set, and its diversification score is the one of the shares the object
    holds. *)
Lemma calculatePortfolioHealth_score (p : Portfolio.t) :
  filter ownKey (Portfolio.investments p) <> [] ->
  exists health,
    calculatePortfolioHealth p = Completes health
    /\ PortfolioHealth.diversificationScore health
       = let own := filter ownKey (Portfolio.investments p) in
         let n := num (setSize (map Investment.protocol (Portfolio.investments p))) in
         let hhi :=
           sumBy (fun P => (toNumber (held own P) / Portfolio.totalInvested p)
                           * (toNumber (held own P) / Portfolio.totalInvested p))
                 (Spec.protocolsOf own) in
         Math_round ((1 - (hhi - 1 / n) / (1 - 1 / n)) * 100).
Proof.
  intro Hown. unfold calculatePortfolioHealth.
  destruct (Portfolio.investments p) as [|x rest] eqn:E; [now elim Hown|].
  cbv zeta. destruct (performers (x :: rest)) as [[[top under] maxRoi] minRoi].
  destruct (protocolDistributionOf (x :: rest)) as [|entry o] eqn:D.
  - exfalso. rewrite protocolDistribution_entries in D. apply map_eq_nil in D.
    exact (protocolsOf_nonempty _ Hown D).
  - eexists. split; [reflexivity|].
    cbn [PortfolioHealth.diversificationScore].
    rewrite <- D, hhi_over_protocols. reflexivity.
Qed.

Lemma ordinary_ownKey (l : list Investment.t) :
  Forall (fun inv => inherited (Investment.protocol inv) = false) l ->
  Forall (fun inv => ownKey inv = true) l.
Proof.
  apply Forall_impl. intros inv H. unfold inherited in H. unfold ownKey.
  apply orb_false_iff in H. destruct H as [H _]. now rewrite H.
Qed.

(** For a name that is not inherited the object holds the guarded total. *)
Lemma held_ordinary (l : list Investment.t) (P : string) :
  Forall (fun inv => inherited (Investment.protocol inv) = false) l ->
  In P (Spec.protocolsOf l) ->
  toNumber (held l P) = guardedTotal P l.
Proof.
  intros Hord Hin. apply protocolsOf_In in Hin. apply in_map_iff in Hin.
  destruct Hin as (inv & <- & Hinv).
  rewrite Forall_forall in Hord. specialize (Hord inv Hinv).
  unfold inherited in Hord. apply orb_false_iff in Hord. destruct Hord as [_ H].
  unfold held. now rewrite H.
Qed.

(** The claim without its conditions fails where a running total meets
    [|| 0]: amounts of +Infinity, -Infinity and 100 in one protocol and 100
    in another, under a stored total of 200.  The code restarts the first
    total after the NaN of the two infinities and scores two shares of one
    half, 100; the sum of the amounts of the first protocol is NaN, and so
    are the index and the score of the formula. *)
Lemma diversificationScore_not_always_HHI :
  Portfolio.investments Samples.oppositeInfinities <> []
  /\ (0 <? Portfolio.totalInvested Samples.oppositeInfinities) = true
  /\ scoreOf (calculatePortfolioHealth Samples.oppositeInfinities) = Some 100
  /\ Spec.diversificationScore Samples.oppositeInfinities = nan
  /\ scoreOf (calculatePortfolioHealth Samples.oppositeInfinities)
     <> Some (Spec.diversificationScore Samples.oppositeInfinities).
Proof.
  split; [vm_compute; discriminate|].
  split; [vm_compute; reflexivity|].
  assert (C : scoreOf (calculatePortfolioHealth Samples.oppositeInfinities) = Some 100)
    by (vm_compute; reflexivity).
  assert (S : Spec.diversificationScore Samples.oppositeInfinities = nan)
    by (vm_compute; reflexivity).
  split; [exact C|]. split; [exact S|].
  rewrite C, S. intro H.
  apply (f_equal (fun score => match score with
                               | Some x => PrimFloat.is_nan x
                               | None => false
                               end)) in H.
  vm_compute in H. discriminate H.
Qed.

(** C7.  For a portfolio that has investments, a total invested above
    zero, finite amounts and no protocol named like a member of
    [Object.prototype], the health is set and its diversification score is
    round((1 - (HHI - 1/n) / (1 - 1/n)) x 100), with HHI the sum over the
    protocols of the squared share of the amount invested in each and n the
    number of distinct protocols. *)
Theorem diversificationScore_is_HHI_based (p : Portfolio.t) :
  Portfolio.investments p <> [] ->
  (0 <? Portfolio.totalInvested p) = true ->
  Forall (fun inv => PrimFloat.is_finite (Investment.amount inv) = true)
         (Portfolio.investments p) ->
  Forall (fun inv => inherited (Investment.protocol inv) = false)
         (Portfolio.investments p) ->
  exists health,
    calculatePortfolioHealth p = Completes health
    /\ PortfolioHealth.diversificationScore health = Spec.diversificationScore p.
Proof.
  intros Hne Hpos Hfin Hord.
  pose proof (filter_ownKey_all _ (ordinary_ownKey _ Hord)) as Hall.
  destruct (calculatePortfolioHealth_score p) as (health & Hrun & Hscore);
    [now rewrite Hall|].
  exists health. split; [exact Hrun|].
  rewrite Hscore, Hall. cbv zeta.
  unfold Spec.diversificationScore, Spec.protocolCount, Spec.HHI, setSize. cbv zeta.
  f_equal. f_equal. f_equal. f_equal. f_equal.
  apply sumBy_ext. apply Forall_forall. intros P HP.
  rewrite (held_ordinary _ P Hord HP).
  apply share_square_same.
  - apply guardedTotal_investedIn.
  - unfold Spec.investedIn, sumBy. apply sum_finite_not_nan.
    + now apply Forall_filter.
    + rewrite SF_zero. discriminate.
  - exact Hpos.
Qed.

Lemma diversificationScore_is_HHI_based_witness :
  exists health,
    calculatePortfolioHealth Samples.twoPositions = Completes health
    /\ PortfolioHealth.diversificationScore health
       = Spec.diversificationScore Samples.twoPositions.
Proof.
  apply diversificationScore_is_HHI_based.
  - vm_compute. discriminate.
  - vm_compute. reflexivity.
  - repeat constructor.
  - repeat constructor.
Defined.

(** Amounts of 100 and 300 in two protocols: shares 1/4 and 3/4, HHI 5/8,
    score 75. *)
Example two_protocols_score :
  scoreOf (calculatePortfolioHealth Samples.twoPositions) = Some 75
  /\ Spec.HHI Samples.twoPositions = 0.625.
Proof.
  split; vm_compute; reflexivity.
Qed.

(** The same amounts with the first protocol called [constructor]: the
    object answers to that name with the function it inherits, what it
    stores is a text, the share is NaN and so is the score, where the
    formula gives 75. *)
Example constructor_protocol_score :
  scoreOf (calculatePortfolioHealth Samples.constructorPositions) = Some nan
  /\ Spec.diversificationScore Samples.constructorPositions = 75.
Proof.
  split; vm_compute; reflexivity.
Qed.

(** One position under the protocol [__proto__]: the set of protocols has
    one member, the object no property, and no health is set. *)
Example proto_protocol_throws :
  setSize (map Investment.protocol (Portfolio.investments Samples.protoPosition)) = 1%nat
  /\ protocolDistributionOf (Portfolio.investments Samples.protoPosition) = []
  /\ calculatePortfolioHealth Samples.protoPosition = Throws.
Proof.
  split; [|split]; vm_compute; reflexivity.
Qed.

(** *** A single protocol *)

Lemma protocolsOf_single (P : string) (l : list Investment.t) :
  l <> [] ->
  Forall (fun inv => Investment.protocol inv = P) l ->
  Spec.protocolsOf l = [P].
Proof.
  intros Hne Hall. unfold Spec.protocolsOf.
  destruct Hall as [|x rest Hx Hrest]; [congruence|].
  simpl. rewrite Hx. unfold Spec.addKey at 2. simpl.
  clear Hne Hx x. induction Hrest as [|y rest Hy _ IH]; simpl; [reflexivity|].
  rewrite Hy. unfold Spec.addKey at 2. simpl. rewrite String.eqb_refl. simpl. exact IH.
Qed.

Lemma setSize_single (P : string) (l : list Investment.t) :
  l <> [] ->
  Forall (fun inv => Investment.protocol inv = P) l ->
  setSize (map Investment.protocol l) = 1%nat.
Proof.
  intros Hne Hall. unfold setSize.
  assert (H : nodup string_dec (map Investment.protocol l) = [P]).
  { induction Hall as [|x rest Hx Hrest IH]; [congruence|].
    simpl. rewrite Hx.
    destruct rest as [|y rest'].
    - simpl. reflexivity.
    - destruct (in_dec string_dec P (map Investment.protocol (y :: rest'))) as [Hin|Hout].
      + apply IH. discriminate.
      + exfalso. apply Hout. simpl. left. now inversion Hrest. }
  now rewrite H.
Qed.

Lemma filter_all (P : string) (l : list Investment.t) :
  Forall (fun inv => Investment.protocol inv = P) l ->
  filter (fun inv => String.eqb (Investment.protocol inv) P) l = l.
Proof.
  induction 1 as [|x rest Hx _ IH]; simpl; [reflexivity|].
  rewrite Hx, String.eqb_refl. now rewrite IH.
Qed.

Lemma nan_div (t : float) : nan / t = nan.
Proof.
  apply SF_is_nan. rewrite div_spec, SF_nan. reflexivity.
Qed.

(** The claim as it is written fails under a stored total that is not the
    sum of the amounts: one position of 100 under a total of 200 has the
    share 1/2, the index 1/4, and the division by zero gives an infinity,
    not NaN. *)
Lemma inconsistent_total_score :
  Portfolio.investments Samples.inconsistentTotal <> []
  /\ Forall (fun inv => Investment.protocol inv = "Aave"%string)
            (Portfolio.investments Samples.inconsistentTotal)
  /\ scoreOf (calculatePortfolioHealth Samples.inconsistentTotal) = Some infinity
  /\ scoreOf (calculatePortfolioHealth Samples.inconsistentTotal) <> Some nan.
Proof.
  split; [vm_compute; discriminate|].
  split; [repeat constructor|].
  assert (C : scoreOf (calculatePortfolioHealth Samples.inconsistentTotal) = Some infinity)
    by (vm_compute; reflexivity).
  split; [exact C|].
  rewrite C. intro H.
  apply (f_equal (fun score => match score with
                               | Some x => PrimFloat.is_nan x
                               | None => false
                               end)) in H.
  vm_compute in H. discriminate H.
Qed.

(** C8.  For a portfolio whose investments all share one protocol, other
    than [__proto__], the health is set, n = 1 and the normalization
    divides by 1 - 1/1 = 0: the diversification score is never a number
    between 0 and 100 (it is NaN or an infinity), and it is NaN whenever
    the total invested is the sum of the amounts, as [addInvestment] and
    [removeInvestment] leave it (and a simulated day, when no amount is
    NaN). *)
Theorem single_protocol_score_is_nan (p : Portfolio.t) (P : string) :
  Portfolio.investments p <> [] ->
  Forall (fun inv => Investment.protocol inv = P) (Portfolio.investments p) ->
  P <> "__proto__"%string ->
  exists health,
    calculatePortfolioHealth p = Completes health
    /\ let score := PortfolioHealth.diversificationScore health in
       let n := num (setSize (map Investment.protocol (Portfolio.investments p))) in
       n = 1
       /\ 1 - 1 / n = 0
       /\ (score = nan \/ score = infinity \/ score = neg_infinity)
       /\ (0 <=? score) && (score <=? 100) = false
       /\ (Portfolio.totalInvested p = sumBy Investment.amount (Portfolio.investments p) ->
           score = nan).
Proof.
  intros Hne Hall Hproto.
  assert (Hown : filter ownKey (Portfolio.investments p) = Portfolio.investments p).
  { apply filter_ownKey_all. revert Hall. apply Forall_impl. intros inv E.
    unfold ownKey. rewrite E. apply negb_true_iff. now apply String.eqb_neq. }
  destruct (calculatePortfolioHealth_score p) as (health & Hrun & Hscore);
    [now rewrite Hown|].
  exists health. split; [exact Hrun|]. cbv zeta.
  rewrite Hscore, Hown. cbv zeta.
  rewrite (setSize_single P _ Hne Hall), (protocolsOf_single P _ Hne Hall).
  change (num 1) with 1. change (1 / 1) with 1. change (1 - 1) with 0.
  unfold sumBy. simpl fold_left.
  set (share := toNumber (held (Portfolio.investments p) P) / Portfolio.totalInvested p).
  split; [reflexivity|]. split; [reflexivity|].
  assert (Hcases : forall y : float,
             let score := Math_round ((1 - y / 0) * 100) in
             (score = nan \/ score = infinity \/ score = neg_infinity)
             /\ (0 <=? score) && (score <=? 100) = false).
  { intro y. cbv zeta.
    destruct (div_by_zero y) as [-> | [-> | ->]]; split;
      try (vm_compute; reflexivity).
    - left. vm_compute. reflexivity.
    - right. right. vm_compute. reflexivity.
    - right. left. vm_compute. reflexivity. }
  split; [apply Hcases|]. split; [apply Hcases|].
  intro Htotal.
  assert (Hshare : share = 1 \/ share = nan).
  { unfold share, held.
    destruct (includes objectPrototypeMethods P).
    - right. apply nan_div.
    - cbn [toNumber]. apply div_sameUpToZero. rewrite Htotal.
      pose proof (guardedTotal_investedIn P (Portfolio.investments p)) as H.
      unfold Spec.investedIn in H. now rewrite (filter_all P _ Hall) in H. }
  destruct Hshare as [-> | ->]; vm_compute; reflexivity.
Qed.

Lemma single_protocol_score_is_nan_witness :
  scoreOf (calculatePortfolioHealth Samples.onePosition) = Some nan.
Proof.
  assert (Hne : Portfolio.investments Samples.onePosition <> [])
    by (vm_compute; discriminate).
  assert (Hall : Forall (fun inv => Investment.protocol inv = "Aave"%string)
                        (Portfolio.investments Samples.onePosition))
    by (repeat constructor).
  assert (Hproto : "Aave"%string <> "__proto__"%string) by discriminate.
  destruct (single_protocol_score_is_nan Samples.onePosition "Aave" Hne Hall Hproto)
    as (health & Hrun & _ & _ & _ & _ & H).
  rewrite Hrun. cbn [scoreOf]. f_equal. apply H. vm_compute. reflexivity.
Defined.

End HealthFacts.

(** ** More on the projection *)

Section PlannerMore.
Import JS Planner MoreNotions.

Lemma projectionLoop_days (i : Inputs) :
  forall (n : nat) (d : Z) (c y : float),
    map day (projectionLoop i n d c y) = map (fun k => (d + Z.of_nat k)%Z) (seq 0 n).
Proof.
  induction n as [|n IH]; intros d c y; [reflexivity|].
  cbn [projectionLoop map seq day]. rewrite IH. f_equal; [lia|].
  rewrite <- seq_shift, map_map. apply map_ext. intro k. lia.
Qed.

(** X1.  The projection has one entry per day from day 0 to the time
    horizon, in order, each carrying its day number: [timeHorizon + 1]
    entries, and none at all for a negative horizon. *)
Theorem projection_covers_every_day (i : Inputs) :
  map day (generateProjectionData i)
  = map Z.of_nat (seq 0 (Z.to_nat (timeHorizon i + 1)))
  /\ List.length (generateProjectionData i) = Z.to_nat (timeHorizon i + 1)
  /\ ((timeHorizon i < 0)%Z -> generateProjectionData i = []).
Proof.
  unfold generateProjectionData. split; [|split].
  - rewrite projectionLoop_days. apply map_ext. intro k. lia.
  - apply projectionLoop_length.
  - intro H. replace (Z.to_nat (timeHorizon i + 1)) with 0%nat by lia. reflexivity.
Qed.

Lemma projection_covers_every_day_witness :
  generateProjectionData {| apr := 5; entryGasCost := 5; investmentAmount := 1000;
                            timeHorizon := -5; reinvestYield := true |} = [].
Proof.
  apply projection_covers_every_day. simpl. lia.
Defined.

(** Without reinvestment the principal stays what it was and every day
    adds the same yield. *)
Lemma projectionLoop_simple (i : Inputs) (Hre : reinvestYield i = false) :
  forall (k n : nat) (d : Z) (c y : float),
    (k < n)%nat ->
    exists pt,
      nth_error (projectionLoop i n d c y) k = Some pt
      /\ cumulativeYield pt = accumulate (c * effectiveDailyRate i) (S k) y
      /\ totalValue pt = investmentAmount i + cumulativeYield pt
      /\ netProfit pt = cumulativeYield pt - totalGasCost i.
Proof.
  induction k as [|k IH]; intros [|n] d c y Hk; try lia; cbn [projectionLoop nth_error].
  - rewrite Hre. eexists. split; [reflexivity|]. repeat split.
  - rewrite Hre. apply IH. lia.
Qed.

(** X2.  With reinvestment off the projection is simple interest: the
    entry for day [k] has accumulated [k + 1] times the same daily yield
    (amount x daily rate), its total value is the amount plus that, and its
    net profit is that minus the gas cost of entering and leaving. *)
Theorem projection_simple_interest (i : Inputs) (k : nat) :
  reinvestYield i = false ->
  (Z.of_nat k <= timeHorizon i)%Z ->
  exists pt,
    nth_error (generateProjectionData i) k = Some pt
    /\ day pt = Z.of_nat k
    /\ cumulativeYield pt
       = accumulate (investmentAmount i * effectiveDailyRate i) (S k) 0
    /\ totalValue pt = investmentAmount i + cumulativeYield pt
    /\ netProfit pt = cumulativeYield pt - (entryGasCost i + entryGasCost i * 0.8).
Proof.
  intros Hre Hk. unfold generateProjectionData.
  destruct (projectionLoop_simple i Hre k (Z.to_nat (timeHorizon i + 1)) 0%Z
                                  (investmentAmount i) 0) as (pt & Hn & Hc & Hv & Hp);
    [lia|].
  exists pt. split; [exact Hn|]. split.
  { apply projectionLoop_day in Hn. rewrite Hn. lia. }
  split; [exact Hc|]. split; [exact Hv | exact Hp].
Qed.

Lemma projection_simple_interest_witness :
  exists pt,
    nth_error (generateProjectionData
                 {| apr := 5; entryGasCost := 5; investmentAmount := 1000;
                    timeHorizon := 90; reinvestYield := false |}) 2 = Some pt
    /\ day pt = 2%Z
    /\ cumulativeYield pt = accumulate (1000 * (5 / 365 / 100)) 3 0
    /\ totalValue pt = 1000 + cumulativeYield pt
    /\ netProfit pt = cumulativeYield pt - (5 + 5 * 0.8).
Proof.
  apply (projection_simple_interest
           {| apr := 5; entryGasCost := 5; investmentAmount := 1000;
              timeHorizon := 90; reinvestYield := false |} 2).
  - reflexivity.
  - simpl. lia.
Defined.

Lemma projectionLoop_same_rate (i j : Inputs) :
  effectiveDailyRate i = effectiveDailyRate j ->
  reinvestYield i = reinvestYield j ->
  investmentAmount i = investmentAmount j ->
  totalGasCost i = totalGasCost j ->
  forall (n : nat) (d : Z) (c y : float),
    projectionLoop i n d c y = projectionLoop j n d c y.
Proof.
  intros Hr Hre Ha Hg. induction n as [|n IH]; intros d c y; [reflexivity|].
  cbn [projectionLoop]. rewrite Hr, Hre, Ha, Hg, IH. reflexivity.
Qed.

(** X3.  An APR that is not above zero (zero, negative or NaN) is
    replaced by 5: the projection and the break-even day are those of the
    same inputs with APR 5. *)
Theorem projection_apr_fallback (i : Inputs) :
  (0 <? apr i) = false ->
  generateProjectionData i = generateProjectionData (withApr 5 i)
  /\ breakEvenDay i = breakEvenDay (withApr 5 i).
Proof.
  intro H.
  assert (E : generateProjectionData i = generateProjectionData (withApr 5 i)).
  { unfold generateProjectionData. cbn [withApr timeHorizon investmentAmount].
    apply projectionLoop_same_rate; try reflexivity.
    unfold effectiveDailyRate, effectiveApr. rewrite H. reflexivity. }
  split; [exact E|].
  unfold breakEvenDay, projectionData. now rewrite E.
Qed.

Lemma projection_apr_fallback_witness :
  generateProjectionData {| apr := nan; entryGasCost := 5; investmentAmount := 1000;
                            timeHorizon := 30; reinvestYield := true |}
  = generateProjectionData (withApr 5 {| apr := nan; entryGasCost := 5;
                                         investmentAmount := 1000;
                                         timeHorizon := 30; reinvestYield := true |}).
Proof.
  apply projection_apr_fallback. reflexivity.
Defined.

(** X4.  The break-even day is -1 or a day of the projection: it never
    exceeds the time horizon, and it is -1 for a negative horizon. *)
Theorem breakEvenDay_bounds (i : Inputs) :
  (breakEvenDay i = (-1)%Z \/ (0 <= breakEvenDay i <= timeHorizon i)%Z)
  /\ ((timeHorizon i < 0)%Z -> breakEvenDay i = (-1)%Z).
Proof.
  assert (Hlen : List.length (projectionData i) = Z.to_nat (timeHorizon i + 1)).
  { apply projectionLoop_length. }
  assert (H : breakEvenDay i = (-1)%Z \/ (0 <= breakEvenDay i <= timeHorizon i)%Z).
  { unfold breakEvenDay, breakEvenDayOf, findIndex.
    destruct (findIndexFrom_spec (fun d => 0 <? netProfit d) (projectionData i) 0)
      as [[Hnone _] | (k & x & Hr & Hn & _)].
    - now left.
    - right. rewrite Hr.
      assert (Hk : (k < List.length (projectionData i))%nat).
      { apply nth_error_Some. congruence. }
      lia. }
  split; [exact H|].
  intro Hneg. destruct H as [H | H]; [exact H | lia].
Qed.

Lemma breakEvenDay_bounds_witness :
  breakEvenDay {| apr := 5; entryGasCost := 5; investmentAmount := 1000;
                  timeHorizon := -1; reinvestYield := true |} = (-1)%Z.
Proof.
  apply breakEvenDay_bounds. simpl. lia.
Defined.

End PlannerMore.

(** ** Adding and removing investments *)

Section MutationMore.
Import JS Tracker MoreNotions.

Lemma removeInvestment_afterRemoval (id : string) (p : Portfolio.t) :
  removeInvestment id p = afterRemoval (filter (otherThan id) (Portfolio.investments p)).
Proof.
  unfold removeInvestment, afterRemoval, otherThan.
  destruct (filter _ (Portfolio.investments p)); reflexivity.
Qed.

Lemma afterRemoval_investments (l : list Investment.t) :
  Portfolio.investments (afterRemoval l) = l.
Proof.
  destruct l; reflexivity.
Qed.

Lemma removeInvestment_investments (id : string) (p : Portfolio.t) :
  Portfolio.investments (removeInvestment id p)
  = filter (otherThan id) (Portfolio.investments p).
Proof.
  now rewrite removeInvestment_afterRemoval, afterRemoval_investments.
Qed.

Lemma otherThan_true (id : string) (inv : Investment.t) :
  otherThan id inv = true <-> Investment.id inv <> id.
Proof.
  unfold otherThan. rewrite negb_true_iff. split.
  - intros H E. apply String.eqb_eq in E. congruence.
  - intro H. destruct (String.eqb (Investment.id inv) id) eqn:E; [|reflexivity].
    apply String.eqb_eq in E. contradiction.
Qed.

(** X5.  [removeInvestment] removes every investment that carries the id
    and nothing else: what remains are the investments with another id, in
    the order they had. *)
Theorem removeInvestment_removes_exactly (id : string) (p : Portfolio.t) :
  Portfolio.investments (removeInvestment id p)
  = filter (fun inv => negb (String.eqb (Investment.id inv) id)) (Portfolio.investments p)
  /\ (forall inv,
         In inv (Portfolio.investments (removeInvestment id p))
         <-> In inv (Portfolio.investments p) /\ Investment.id inv <> id)
  /\ (List.length (Portfolio.investments (removeInvestment id p))
      <= List.length (Portfolio.investments p))%nat.
Proof.
  rewrite removeInvestment_investments. split; [reflexivity|]. split.
  - intro inv. rewrite filter_In, otherThan_true. reflexivity.
  - apply filter_length_le.
Qed.

Lemma filter_twice {A : Type} (f : A -> bool) (l : list A) :
  filter f (filter f l) = filter f l.
Proof.
  induction l as [|x l IH]; simpl; [reflexivity|].
  destruct (f x) eqn:E; simpl; [rewrite E; f_equal|]; exact IH.
Qed.

Lemma filter_swap {A : Type} (f g : A -> bool) (l : list A) :
  filter f (filter g l) = filter g (filter f l).
Proof.
  induction l as [|x l IH]; simpl; [reflexivity|].
  destruct (f x) eqn:Ef, (g x) eqn:Eg; simpl; rewrite ?Ef, ?Eg, IH; reflexivity.
Qed.

(** X6.  Removing the same id twice is removing it once, and two removals
    give the same portfolio in either order. *)
Theorem removeInvestment_idempotent_commutes (a b : string) (p : Portfolio.t) :
  removeInvestment a (removeInvestment a p) = removeInvestment a p
  /\ removeInvestment a (removeInvestment b p) = removeInvestment b (removeInvestment a p).
Proof.
  split.
  - rewrite (removeInvestment_afterRemoval a (removeInvestment a p)).
    rewrite removeInvestment_investments, filter_twice.
    symmetry. apply removeInvestment_afterRemoval.
  - rewrite (removeInvestment_afterRemoval a (removeInvestment b p)).
    rewrite (removeInvestment_afterRemoval b (removeInvestment a p)).
    rewrite !removeInvestment_investments. now rewrite filter_swap.
Qed.

Lemma filter_keeps_all {A : Type} (f : A -> bool) (l : list A) :
  Forall (fun x => f x = true) l -> filter f l = l.
Proof.
  induction 1 as [|x l Hx _ IH]; simpl; [reflexivity|]. now rewrite Hx, IH.
Qed.

(** X7.  Adding an investment and removing it again gives the
    investments back, provided no earlier investment carries the new id;
    the aggregates are then the recomputed ones (all zero for an empty
    list), so a portfolio whose aggregates were recomputed, or the empty
    one, comes back as it was. *)
Theorem add_then_remove (pow : float -> float -> float) (now : Z)
        (f : NewInvestment) (p : Portfolio.t) :
  Forall (fun inv => Investment.id inv <> investmentId now) (Portfolio.investments p) ->
  let back := removeInvestment (investmentId now) (addInvestment pow now f p) in
  Portfolio.investments back = Portfolio.investments p
  /\ back = afterRemoval (Portfolio.investments p)
  /\ (p = emptyPortfolio -> back = p)
  /\ (Portfolio.investments p <> [] -> Spec.aggregatesRecomputed p -> back = p).
Proof.
  intro Hfresh. cbv zeta.
  assert (E : removeInvestment (investmentId now) (addInvestment pow now f p)
              = afterRemoval (Portfolio.investments p)).
  { rewrite removeInvestment_afterRemoval. f_equal.
    cbn [addInvestment Portfolio.investments]. rewrite filter_app.
    rewrite filter_keeps_all.
    - cbn [filter]. unfold otherThan at 1. cbn [buildInvestment Investment.id].
      rewrite String.eqb_refl. cbn. apply app_nil_r.
    - eapply Forall_impl; [|exact Hfresh]. intros inv H. now apply otherThan_true. }
  rewrite E. split; [apply afterRemoval_investments|]. split; [reflexivity|]. split.
  - intros ->. reflexivity.
  - intros Hne Hrec. unfold afterRemoval.
    destruct (Portfolio.investments p) eqn:El; [congruence|].
    rewrite <- El. symmetry. exact Hrec.
Qed.

Lemma add_then_remove_witness :
  removeInvestment (investmentId 2)
                   (addInvestment Samples.square 2 Samples.uniswapForm Samples.onePosition)
  = Samples.onePosition.
Proof.
  assert (Hfresh : Forall (fun inv => Investment.id inv <> investmentId 2)
                          (Portfolio.investments Samples.onePosition)).
  { constructor; [|constructor]. vm_compute. discriminate. }
  destruct (add_then_remove Samples.square 2 Samples.uniswapForm Samples.onePosition Hfresh)
    as (_ & _ & _ & H).
  apply H.
  - vm_compute. discriminate.
  - reflexivity.
Defined.

Lemma to_int_not_nil (z : Z) :
  Z.to_int z <> Decimal.Pos Decimal.Nil /\ Z.to_int z <> Decimal.Neg Decimal.Nil.
Proof.
  destruct z as [|q|q]; simpl; split; try discriminate;
    intro H; injection H as H; revert H; apply DecimalPos.Unsigned.to_uint_nonnil.
Qed.

Lemma investmentId_injective (a b : Z) : investmentId a = investmentId b -> a = b.
Proof.
  unfold investmentId. intro H. cbn in H. injection H as H.
  assert (E : Some (Z.to_int a) = Some (Z.to_int b)).
  { rewrite <- (NilZero.isi (Z.to_int a)) by apply to_int_not_nil.
    rewrite <- (NilZero.isi (Z.to_int b)) by apply to_int_not_nil.
    now rewrite H. }
  injection E as E.
  rewrite <- (DecimalZ.of_to a).
  rewrite <- (DecimalZ.of_to b). now rewrite E.
Qed.

(** X8.  The id of an investment is its creation time: two investments
    have the same id exactly when they were added in the same millisecond,
    and then removing either removes both. *)
Theorem same_millisecond_same_id (pow : float -> float -> float) (now1 now2 : Z)
        (f1 f2 : NewInvestment) (p : Portfolio.t) :
  (Investment.id (buildInvestment pow now1 f1) = Investment.id (buildInvestment pow now2 f2)
   <-> now1 = now2)
  /\ Portfolio.investments
       (removeInvestment (investmentId now1)
                         (addInvestment pow now1 f2 (addInvestment pow now1 f1 p)))
     = filter (otherThan (investmentId now1)) (Portfolio.investments p).
Proof.
  split.
  - cbn [buildInvestment Investment.id]. split.
    + apply investmentId_injective.
    + now intros ->.
  - rewrite removeInvestment_investments.
    cbn [addInvestment Portfolio.investments]. rewrite !filter_app.
    cbn [filter]. unfold otherThan at 2 3. cbn [buildInvestment Investment.id].
    rewrite String.eqb_refl. cbn. now rewrite !app_nil_r.
Qed.

(** X9.  Every investment the form creates starts with no earnings and a
    current value equal to its amount, records the first day's earning,
    carries at least one reward token and has a risk score between 30 and
    95. *)
Theorem buildInvestment_well_formed (pow : float -> float -> float) (now : Z)
        (f : NewInvestment) :
  let inv := buildInvestment pow now f in
  Investment.id inv = Investment.poolId inv
  /\ Investment.totalEarnings inv = 0
  /\ Investment.currentValue inv = Investment.amount inv
  /\ Investment.dailyEarnings inv = [newAmount f * (newApy f / 365 / 100)]
  /\ Investment.rewardTokens inv <> []
  /\ (newRewardTokens f = [] \/ Investment.rewardTokens inv = newRewardTokens f)
  /\ (30 <=? Investment.riskScore inv) = true
  /\ (Investment.riskScore inv <=? 95) = true.
Proof.
  cbv zeta. cbn [buildInvestment Investment.id Investment.poolId Investment.totalEarnings
                 Investment.currentValue Investment.amount Investment.dailyEarnings
                 Investment.rewardTokens Investment.riskScore].
  split; [reflexivity|]. split; [reflexivity|]. split; [reflexivity|].
  split; [reflexivity|]. split.
  { unfold defaultRewardTokens. destruct (newRewardTokens f); [|discriminate].
    destruct (strIncludes _ _); [discriminate|].
    destruct (strIncludes _ _); discriminate. }
  split.
  { unfold defaultRewardTokens. destruct (newRewardTokens f); [now left | now right]. }
  apply calculateInvestmentRiskScore_tight.
Qed.

End MutationMore.

(** ** More on simulated days *)

Section SimulationMore.
Import JS Tracker Notions MoreNotions.

Lemma simulateDays_last (clock : string -> option Z) (n : nat) :
  forall p : Portfolio.t,
    simulateDays clock (S n) p
    = simulateSingleDayWithoutStateUpdate clock (simulateDays clock n p).
Proof.
  induction n as [|n IH]; intro p; [reflexivity|].
  change (simulateDays clock (S (S n)) p)
    with (simulateDays clock (S n) (simulateSingleDayWithoutStateUpdate clock p)).
  rewrite IH. reflexivity.
Qed.

(** X10.  Simulated days never add, drop or reorder investments and never
    touch what identifies them or what was invested: ids, pool, protocol,
    amount, APY, start date, risk score and volatility stay, and the list
    of daily earnings grows by one entry per simulated day. *)
Theorem simulateDays_keeps_identity (clock : string -> option Z) (n : nat)
        (p : Portfolio.t) :
  map identityOf (Portfolio.investments (simulateDays clock n p))
  = map identityOf (Portfolio.investments p)
  /\ List.length (Portfolio.investments (simulateDays clock n p))
     = List.length (Portfolio.investments p)
  /\ map (fun inv => List.length (Investment.dailyEarnings inv))
         (Portfolio.investments (simulateDays clock n p))
     = map (fun inv => (List.length (Investment.dailyEarnings inv) + n)%nat)
           (Portfolio.investments p).
Proof.
  revert p. induction n as [|n IH]; intro p.
  - split; [reflexivity|]. split; [reflexivity|].
    apply map_ext. intro inv. lia.
  - cbn [simulateDays].
    destruct (IH (simulateSingleDayWithoutStateUpdate clock p)) as (H1 & H2 & H3).
    rewrite H1, H2, H3. cbn [simulateSingleDayWithoutStateUpdate Portfolio.investments].
    rewrite !map_map, length_map. split; [|split].
    + apply map_ext. intro inv. reflexivity.
    + reflexivity.
    + apply map_ext. intro inv. cbn [simulateInvestment Investment.dailyEarnings].
      rewrite length_app. simpl. lia.
Qed.

(** X11.  After at least one simulated day every investment's current
    value is its amount (NaN counted as 0) plus its total earnings. *)
Theorem simulated_value_is_amount_plus_earnings (clock : string -> option Z) (n : nat)
        (p : Portfolio.t) :
  (0 < n)%nat ->
  Forall (fun inv =>
            Investment.currentValue inv
            = safeNumber (Investment.amount inv) 0 + Investment.totalEarnings inv)
         (Portfolio.investments (simulateDays clock n p)).
Proof.
  intro Hn. destruct n as [|n]; [lia|].
  rewrite simulateDays_last.
  cbn [simulateSingleDayWithoutStateUpdate Portfolio.investments].
  apply Forall_forall. intros inv Hin. apply in_map_iff in Hin.
  destruct Hin as (old & <- & _). reflexivity.
Qed.

Lemma simulated_value_is_amount_plus_earnings_witness :
  Forall (fun inv =>
            Investment.currentValue inv
            = safeNumber (Investment.amount inv) 0 + Investment.totalEarnings inv)
         (Portfolio.investments
            (simulateDays (daysSince Samples.env) 3 Samples.twoPositions)).
Proof.
  apply simulated_value_is_amount_plus_earnings. lia.
Defined.

(** X12.  [simulateDailyUpdate] does nothing at all, animated or not, when
    asked for no days (or a negative number) or when the portfolio has no
    investments. *)
Theorem simulateDailyUpdate_guard (env : Env) (days : Z) (showProgress : bool)
        (s : State) :
  (days <= 0)%Z \/ Portfolio.investments (portfolio s) = [] ->
  simulateDailyUpdate env days showProgress s = s.
Proof.
  intro H. unfold simulateDailyUpdate.
  destruct H as [H | H].
  - rewrite (proj2 (Z.leb_le days 0) H). reflexivity.
  - rewrite H. rewrite orb_true_r. reflexivity.
Qed.

Lemma simulateDailyUpdate_guard_witness :
  simulateDailyUpdate Samples.env 30 true initialState = initialState.
Proof.
  apply simulateDailyUpdate_guard. right. reflexivity.
Defined.

(** One firing while days are left, in full. *)
Lemma intervalTick_running_exact env s t rest :
  intervals s = t :: rest ->
  (currentDay t < days t)%Z ->
  intervals (intervalTick env 0 s)
  = {| days := days t;
       currentDay := currentDay t + 1;
       simulatedPortfolio :=
         simulateSingleDayWithoutStateUpdate (daysSince env) (simulatedPortfolio t);
       history :=
         history t
         ++ [ {| date := formatDay env (currentDay t + 1);
                 value := Portfolio.totalCurrentValue
                            (simulateSingleDayWithoutStateUpdate
                               (daysSince env) (simulatedPortfolio t)) |} ] |} :: rest.
Proof.
  intros Hs Hlt. unfold intervalTick. rewrite Hs. simpl nth_error. cbv beta iota.
  rewrite (proj2 (Z.leb_gt (days t) (currentDay t)) Hlt).
  reflexivity.
Qed.

Lemma last_snoc {A : Type} (l : list A) (x d : A) : last (l ++ [x]) d = x.
Proof.
  induction l as [|a l IH]; [reflexivity|].
  simpl. destruct (l ++ [x]) eqn:E; [destruct l; discriminate | exact IH].
Qed.

(** A run on its own interval, firing by firing: the counter, the working
    copy and the history advance together. *)
Lemma ticks_track env :
  forall (n : nat) (s : State) (t : Timer),
    intervals s = [t] ->
    (0 <= currentDay t)%Z ->
    (currentDay t + Z.of_nat n <= days t)%Z ->
    history t <> [] ->
    exists t',
      intervals (runTicks (repeat (env, 0%nat) n) s) = [t']
      /\ days t' = days t
      /\ currentDay t' = (currentDay t + Z.of_nat n)%Z
      /\ simulatedPortfolio t' = simulateDays (daysSince env) n (simulatedPortfolio t)
      /\ (forall d, hd d (history t') = hd d (history t))
      /\ List.length (history t') = (List.length (history t) + n)%nat
      /\ ((0 < n)%nat ->
          forall d, value (last (history t') d)
                    = Portfolio.totalCurrentValue (simulatedPortfolio t')).
Proof.
  induction n as [|n IH]; intros s t Hs H0 Hle Hh.
  - exists t. simpl. split; [exact Hs|]. split; [reflexivity|].
    split; [lia|]. split; [reflexivity|]. split; [reflexivity|].
    split; [lia | lia].
  - pose proof (intervalTick_running_exact env s t [] Hs) as H1.
    specialize (H1 ltac:(lia)).
    set (t1 := {| days := days t;
                  currentDay := currentDay t + 1;
                  simulatedPortfolio :=
                    simulateSingleDayWithoutStateUpdate (daysSince env)
                                                        (simulatedPortfolio t);
                  history := history t
                             ++ [ {| date := formatDay env (currentDay t + 1);
                                     value := Portfolio.totalCurrentValue
                                                (simulateSingleDayWithoutStateUpdate
                                                   (daysSince env)
                                                   (simulatedPortfolio t)) |} ] |}) in *.
    destruct (IH (intervalTick env 0 s) t1 H1) as (t' & A1 & A2 & A3 & A4 & A5 & A6 & A7).
    + simpl. lia.
    + simpl. lia.
    + simpl. destruct (history t); discriminate.
    + exists t'. simpl repeat. unfold runTicks in *. simpl fold_left.
      split; [exact A1|]. split; [exact A2|]. split; [rewrite A3; simpl; lia|].
      split; [rewrite A4; reflexivity|]. split.
      { intro d. rewrite A5. simpl. destruct (history t); [congruence | reflexivity]. }
      split.
      { rewrite A6. simpl. rewrite length_app. simpl. lia. }
      intros _ d. destruct n as [|n].
      * simpl in A1. rewrite H1 in A1. injection A1 as <-.
        simpl. rewrite last_snoc. reflexivity.
      * apply A7. lia.
Qed.

(** A run of [n] days on its own interval, whatever else the state holds,
    is over after [n + 1] firings. *)
Lemma run_to_completion env (n : nat) (s0 : State) (t : Timer) :
  intervals s0 = [t] ->
  currentDay t = 0%Z ->
  days t = Z.of_nat n ->
  (0 < n)%nat ->
  (exists first, history t = [first]) ->
  let s' := runTicks (repeat (env, 0%nat) (n + 1)) s0 in
  let final := simulateDays (daysSince env) n (simulatedPortfolio t) in
  intervals s' = []
  /\ simulationComplete s' = true
  /\ isSimulating s' = false
  /\ simulatedPortfolioResult s' = Some final
  /\ exists sm,
      simulationSummary s' = Some sm
      /\ (forall d, initialValue sm = value (hd d (history t)))
      /\ finalValue sm = Portfolio.totalCurrentValue final
      /\ totalGrowth sm = finalValue sm - initialValue sm
      /\ percentageGrowth sm = (totalGrowth sm / initialValue sm) * 100
      /\ dailyAverage sm = totalGrowth sm / daysToNumber (Z.of_nat n).
Proof.
  intros Hs Hc Hd Hn [first Hfirst]. cbv zeta.
  destruct (ticks_track env n s0 t Hs) as (t' & A1 & A2 & A3 & A4 & A5 & A6 & A7);
    [lia | lia | congruence |].
  rewrite repeat_app. unfold runTicks. rewrite fold_left_app.
  fold (runTicks (repeat (env, 0%nat) n) s0). simpl fold_left.
  set (s1 := runTicks (repeat (env, 0%nat) n) s0) in *.
  destruct (intervalTick_done env s1 t' [] A1) as (D1 & D2 & D3 & D4); [lia|].
  rewrite A4 in D4.
  split; [exact D1|]. split; [exact D2|]. split; [exact D3|]. split; [exact D4|].
  unfold intervalTick. rewrite A1. simpl nth_error. cbv beta iota.
  rewrite (proj2 (Z.leb_le (days t') (currentDay t'))) by lia.
  cbn [simulationSummary setSimulation].
  unfold summarize.
  destruct (history t') as [|h1 [|h2 hrest]] eqn:Eh.
  - simpl in A6. rewrite Hfirst in A6. simpl in A6. lia.
  - simpl in A6. rewrite Hfirst in A6. simpl in A6. lia.
  - eexists. split; [reflexivity|]. cbn [initialValue finalValue totalGrowth
                                         percentageGrowth dailyAverage].
    split.
    { intro d. specialize (A5 d). simpl in A5. now rewrite A5. }
    split.
    { rewrite (A7 Hn h1). now rewrite A4. }
    split; [reflexivity|]. split; [reflexivity|].
    rewrite A2, Hd. reflexivity.
Qed.

End SimulationMore.

(** ** More on the simulation dialog *)

Section DialogMore.
Import JS Tracker Notions MoreNotions.

Lemma simulateDailyUpdate_starts env (n : nat) (s : State) :
  intervals s = [] ->
  Portfolio.investments (portfolio s) <> [] ->
  (0 < n)%nat ->
  intervals (simulateDailyUpdate env (Z.of_nat n) true s)
  = [ {| days := Z.of_nat n; currentDay := 0;
         simulatedPortfolio := jsonClone (portfolio s);
         history := [ {| date := formatDay env 0;
                         value := Portfolio.totalCurrentValue (portfolio s) |} ] |} ].
Proof.
  intros Hnone Hne Hn. unfold simulateDailyUpdate.
  rewrite (proj2 (Z.leb_gt (Z.of_nat n) 0)) by lia.
  destruct (Portfolio.investments (portfolio s)) eqn:E; [congruence|].
  simpl. rewrite Hnone. reflexivity.
Qed.

(** X13.  An animated run of [n] days that has the only interval ends at
    the firing after the [n]-th with a summary: its initial value is the
    portfolio's total current value, its final value that of the copy
    simulated [n] days, which is the result offered; growth is their
    difference, the daily average the growth over [n]. *)
Theorem animated_simulation_summary env (n : nat) (s : State) :
  intervals s = [] ->
  Portfolio.investments (portfolio s) <> [] ->
  (0 < n)%nat ->
  let s' := runTicks (repeat (env, 0%nat) (n + 1))
                     (simulateDailyUpdate env (Z.of_nat n) true s) in
  let final := simulateDays (daysSince env) n (jsonClone (portfolio s)) in
  simulationComplete s' = true
  /\ simulatedPortfolioResult s' = Some final
  /\ exists sm,
      simulationSummary s' = Some sm
      /\ initialValue sm = Portfolio.totalCurrentValue (portfolio s)
      /\ finalValue sm = Portfolio.totalCurrentValue final
      /\ totalGrowth sm = finalValue sm - initialValue sm
      /\ percentageGrowth sm = (totalGrowth sm / initialValue sm) * 100
      /\ dailyAverage sm = totalGrowth sm / daysToNumber (Z.of_nat n).
Proof.
  intros Hnone Hne Hn. cbv zeta.
  pose proof (simulateDailyUpdate_starts env n s Hnone Hne Hn) as Hs0.
  destruct (run_to_completion env n _ _ Hs0 eq_refl eq_refl Hn)
    as (_ & D2 & _ & D4 & sm & E1 & E2 & E3 & E4 & E5 & E6).
  { eexists. reflexivity. }
  split; [exact D2|]. split; [exact D4|].
  exists sm. split; [exact E1|]. split.
  { rewrite (E2 {| date := EmptyString; value := 0 |}). reflexivity. }
  split; [exact E3|]. split; [exact E4|]. split; [exact E5 | exact E6].
Qed.

Lemma animated_simulation_summary_witness :
  let s := setPortfolio Samples.twoPositions initialState in
  let s' := runTicks (repeat (Samples.env, 0%nat) (3 + 1))
                     (simulateDailyUpdate Samples.env (Z.of_nat 3) true s) in
  let final := simulateDays (daysSince Samples.env) 3 (jsonClone (portfolio s)) in
  simulationComplete s' = true
  /\ simulatedPortfolioResult s' = Some final
  /\ exists sm,
      simulationSummary s' = Some sm
      /\ initialValue sm = Portfolio.totalCurrentValue (portfolio s)
      /\ finalValue sm = Portfolio.totalCurrentValue final
      /\ totalGrowth sm = finalValue sm - initialValue sm
      /\ percentageGrowth sm = (totalGrowth sm / initialValue sm) * 100
      /\ dailyAverage sm = totalGrowth sm / daysToNumber (Z.of_nat 3).
Proof.
  apply (animated_simulation_summary Samples.env 3
           (setPortfolio Samples.twoPositions initialState)).
  - reflexivity.
  - vm_compute. discriminate.
  - lia.
Defined.

(** X14.  Quick Simulate is the animated run followed by Apply: from a
    state with no interval running, both leave the same portfolio and the
    same stored value, the copy of the portfolio simulated [n] days. *)
Theorem quick_is_animated_then_applied env (n : nat) (nowIso : string) (s : State) :
  intervals s = [] ->
  Portfolio.investments (portfolio s) <> [] ->
  (0 < n)%nat ->
  let quick := simulateDailyUpdate env (Z.of_nat n) false s in
  let applied :=
    applySimulationToPortfolio
      nowIso (runTicks (repeat (env, 0%nat) (n + 1))
                       (simulateDailyUpdate env (Z.of_nat n) true s)) in
  portfolio quick = simulateDays (daysSince env) n (jsonClone (portfolio s))
  /\ portfolio applied = portfolio quick
  /\ storage applied = storage quick.
Proof.
  intros Hnone Hne Hn. cbv zeta.
  destruct (animated_simulation_completes env n s Hnone Hne Hn)
    as (_ & _ & _ & D4 & _ & _).
  destruct (applySimulationToPortfolio_replaces nowIso _ _ D4) as (P1 & P2).
  rewrite P1, P2.
  unfold simulateDailyUpdate.
  rewrite (proj2 (Z.leb_gt (Z.of_nat n) 0)) by lia.
  destruct (Portfolio.investments (portfolio s)) eqn:E; [congruence|].
  simpl. rewrite Nat2Z.id. split; [reflexivity|]. split; reflexivity.
Qed.

Lemma quick_is_animated_then_applied_witness :
  let s := setPortfolio Samples.onePosition initialState in
  let quick := simulateDailyUpdate Samples.env (Z.of_nat 2) false s in
  let applied :=
    applySimulationToPortfolio
      "2025-01-03" (runTicks (repeat (Samples.env, 0%nat) (2 + 1))
                             (simulateDailyUpdate Samples.env (Z.of_nat 2) true s)) in
  portfolio quick = simulateDays (daysSince Samples.env) 2 (jsonClone (portfolio s))
  /\ portfolio applied = portfolio quick
  /\ storage applied = storage quick.
Proof.
  apply (quick_is_animated_then_applied Samples.env 2 "2025-01-03"
           (setPortfolio Samples.onePosition initialState)).
  - reflexivity.
  - vm_compute. discriminate.
  - lia.
Defined.

Lemma cancel_commutes_tick env (k : nat) (s : State) :
  intervalTick env k (onCancelSimulation s) = onCancelSimulation (intervalTick env k s).
Proof.
  unfold intervalTick, onCancelSimulation. cbn [intervals setSimulation].
  destruct (nth_error (intervals s) k) as [t|]; [|reflexivity].
  destruct (days t <=? currentDay t)%Z; reflexivity.
Qed.

(** X15.  Cancel Simulation stops nothing: it clears the [isSimulating]
    flag and leaves the interval running, so whatever firings follow leave
    the state they would have left without it, flag cleared; the run still
    ends with its result offered. *)
Theorem cancel_does_not_stop_the_interval (ticks : list (Env * nat)) (s : State) :
  runTicks ticks (onCancelSimulation s) = onCancelSimulation (runTicks ticks s)
  /\ intervals (onCancelSimulation s) = intervals s
  /\ simulatedPortfolioResult (runTicks ticks (onCancelSimulation s))
     = simulatedPortfolioResult (runTicks ticks s).
Proof.
  assert (H : forall s0, runTicks ticks (onCancelSimulation s0)
                         = onCancelSimulation (runTicks ticks s0)).
  { induction ticks as [|[env k] rest IH]; intro s0; [reflexivity|].
    unfold runTicks in *. cbn [fold_left fst snd].
    rewrite cancel_commutes_tick. apply IH. }
  split; [apply H|]. split; [reflexivity|].
  rewrite H. reflexivity.
Qed.

(** X16.  Apply to Portfolio works once: it consumes the offered result,
    so a second Apply changes nothing, and with no result offered Apply
    changes nothing at all. *)
Theorem applySimulationToPortfolio_once (a b : string) (s : State) :
  applySimulationToPortfolio b (applySimulationToPortfolio a s)
  = applySimulationToPortfolio a s
  /\ simulatedPortfolioResult (applySimulationToPortfolio a s) = None
  /\ match simulatedPortfolioResult s with
     | None => applySimulationToPortfolio a s = s
     | Some p => portfolio (applySimulationToPortfolio a s) = p
     end.
Proof.
  assert (N : simulatedPortfolioResult (applySimulationToPortfolio a s) = None).
  { unfold applySimulationToPortfolio.
    destruct (simulatedPortfolioResult s) eqn:E; [reflexivity | exact E]. }
  split; [|split; [exact N|]].
  - unfold applySimulationToPortfolio at 1. rewrite N. reflexivity.
  - unfold applySimulationToPortfolio.
    destruct (simulatedPortfolioResult s) eqn:E; reflexivity.
Qed.

(** X17.  The number of days the dialog simulates is always between 1 and
    365, whatever was typed, in every state the component reaches. *)
Theorem simulationDays_within_bounds (s : State) :
  reachable s -> (1 <= simulationDays s <= 365)%Z.
Proof.
  induction 1 as [|env e s Hs IH]; [simpl; lia|].
  destruct e; simpl; try exact IH.
  - unfold onQuickSimulate. cbn [simulationDays setDialogs].
    unfold simulateDailyUpdate.
    destruct ((simulationDays s <=? 0)%Z || _); [exact IH|]. exact IH.
  - unfold onStartVisualSimulation, simulateDailyUpdate.
    cbn [simulationDays setSimulation portfolio].
    destruct ((simulationDays s <=? 0)%Z || _); exact IH.
  - unfold intervalTick.
    destruct (nth_error (intervals s) k) as [t|]; [|exact IH].
    destruct (days t <=? currentDay t)%Z; exact IH.
  - unfold applySimulationToPortfolio.
    destruct (simulatedPortfolioResult s); exact IH.
  - lia.
Qed.

Lemma simulationDays_within_bounds_witness :
  (1 <= simulationDays (step Samples.env (SetSimulationDays 4000) initialState) <= 365)%Z.
Proof.
  apply simulationDays_within_bounds.
  apply reachable_step. apply reachable_initial.
Defined.

(** X18.  From a first visit on, whatever happens, the value stored under
    ['yield-snap-portfolio'] is the portfolio on screen. *)
Theorem storage_follows_portfolio (s : State) :
  reachable s -> storage s = Some (portfolio s).
Proof.
  induction 1 as [|env e s Hs IH]; [reflexivity|].
  destruct e; simpl; try exact IH; try reflexivity.
  - unfold onQuickSimulate. cbn [storage portfolio setDialogs].
    unfold simulateDailyUpdate.
    destruct ((simulationDays s <=? 0)%Z || _); [exact IH | reflexivity].
  - destruct (onStartVisualSimulation_frame env s) as (P & S & _).
    rewrite P, S. exact IH.
  - destruct (intervalTick_frame env k s) as (P & S & _).
    rewrite P, S. exact IH.
  - unfold applySimulationToPortfolio.
    destruct (simulatedPortfolioResult s); [reflexivity | exact IH].
Qed.

Lemma storage_follows_portfolio_witness :
  storage (step Samples.env (AddInvestment 1 Samples.stableForm) initialState)
  = Some (portfolio (step Samples.env (AddInvestment 1 Samples.stableForm) initialState)).
Proof.
  apply storage_follows_portfolio.
  apply reachable_step. apply reachable_initial.
Defined.

Lemma simulateSingleDay_consistent clock (p : Portfolio.t) :
  earningsConsistent (simulateSingleDayWithoutStateUpdate clock p).
Proof. reflexivity. Qed.

Lemma simulateDays_consistent clock (n : nat) (p : Portfolio.t) :
  (0 < n)%nat -> earningsConsistent (simulateDays clock n p).
Proof.
  intro Hn. destruct n as [|n]; [lia|].
  rewrite simulateDays_last. apply simulateSingleDay_consistent.
Qed.

Lemma simulateDailyUpdate_earnings env days showProgress s :
  earningsInvariant s -> earningsInvariant (simulateDailyUpdate env days showProgress s).
Proof.
  intros (Hp & Hr & Ht). unfold simulateDailyUpdate.
  destruct ((days <=? 0)%Z || _) eqn:Hguard; [repeat split; assumption|].
  apply orb_false_iff in Hguard. destruct Hguard as [Hdays _].
  apply Z.leb_gt in Hdays.
  destruct showProgress.
  - split; [exact Hp|]. split; [exact Hr|].
    cbn [intervals setSimulation]. apply Forall_app. split; [exact Ht|].
    constructor; [|constructor]. left. simpl. lia.
  - assert (Hc : earningsConsistent
                   (simulateDays (daysSince env) (Z.to_nat days) (jsonClone (portfolio s))))
      by (apply simulateDays_consistent; lia).
    split; [exact Hc|]. split; [|exact Ht].
    intros p E. cbn in E. injection E as <-. exact Hc.
Qed.

Lemma intervalTick_earnings env k s :
  earningsInvariant s -> earningsInvariant (intervalTick env k s).
Proof.
  intros (Hp & Hr & Ht). unfold intervalTick.
  destruct (nth_error (intervals s) k) as [t|] eqn:Hk; [|repeat split; assumption].
  pose proof (nth_error_Forall _ _ _ _ Ht Hk) as Hc.
  destruct (days t <=? currentDay t)%Z eqn:Hdone.
  - apply Z.leb_le in Hdone.
    split; [exact Hp|]. split.
    + intros p E. cbn in E. injection E as <-.
      destruct Hc as [[H0 Hpos] | Hc]; [lia | exact Hc].
    + cbn [intervals setSimulation]. apply updateTimer_Forall; [exact Ht | discriminate].
  - split; [exact Hp|]. split; [exact Hr|].
    cbn [intervals setSimulation]. apply updateTimer_Forall; [exact Ht|].
    intros t' E. injection E as <-. right. apply simulateSingleDay_consistent.
Qed.

(** X19.  From a first visit on, whatever happens, the portfolio's total
    earnings are its total current value minus its total invested, and so
    are those of every simulated result offered. *)
Theorem earnings_are_value_minus_invested (s : State) :
  reachable s ->
  earningsConsistent (portfolio s)
  /\ (forall p, simulatedPortfolioResult s = Some p -> earningsConsistent p).
Proof.
  intro H.
  assert (J : earningsInvariant s).
  { induction H as [|env e s Hs IH].
    - split; [reflexivity|]. split; [discriminate | constructor].
    - destruct e; simpl.
      + destruct IH as (Hp & Hr & Ht). split; [reflexivity | split; assumption].
      + destruct IH as (Hp & Hr & Ht). split; [|split; assumption].
        unfold onRemoveInvestment. cbn [portfolio setPortfolio].
        unfold removeInvestment.
        destruct (filter _ (Portfolio.investments (portfolio s))); reflexivity.
      + unfold onQuickSimulate.
        pose proof (simulateDailyUpdate_earnings env (simulationDays s) false s IH)
          as (Hp & Hr & Ht).
        split; [exact Hp | split; assumption].
      + unfold onStartVisualSimulation. apply simulateDailyUpdate_earnings.
        destruct IH as (Hp & Hr & Ht). split; [exact Hp|]. split; [|exact Ht].
        intros p E. discriminate E.
      + now apply intervalTick_earnings.
      + destruct IH as (Hp & Hr & Ht). split; [exact Hp | split; assumption].
      + destruct IH as (Hp & Hr & Ht). split; [exact Hp | split; assumption].
      + unfold applySimulationToPortfolio.
        destruct (simulatedPortfolioResult s) as [newPortfolio|] eqn:Hres; [|exact IH].
        destruct IH as (Hp & Hr & Ht).
        split; [exact (Hr _ Hres)|]. split; [|exact Ht].
        intros p E. discriminate E.
      + destruct IH as (Hp & Hr & Ht). split; [exact Hp | split; assumption].
      + destruct IH as (Hp & Hr & Ht). split; [exact Hp | split; assumption].
      + destruct IH as (Hp & Hr & Ht). split; [exact Hp | split; assumption]. }
  destruct J as (Hp & Hr & _). split; assumption.
Qed.

Lemma earnings_are_value_minus_invested_witness :
  let s := step Samples.env QuickSimulate
                (step Samples.env (AddInvestment 1 Samples.stableForm) initialState) in
  earningsConsistent (portfolio s)
  /\ (forall p, simulatedPortfolioResult s = Some p -> earningsConsistent p).
Proof.
  apply earnings_are_value_minus_invested.
  apply reachable_step. apply reachable_step. apply reachable_initial.
Defined.

End DialogMore.

(** ** More on portfolio health *)

Section HealthMore.
Import JS Tracker Notions MoreNotions.

Lemma map_fst_entries {A : Type} (g : string -> A) (keys : list string) :
  map fst (map (entryOf g) keys) = keys.
Proof.
  rewrite map_map. unfold entryOf. simpl. apply map_id.
Qed.

Lemma protocols_of_ownKey (l : list Investment.t) :
  map Investment.protocol (filter ownKey l)
  = filter (fun P => negb (String.eqb P "__proto__")) (map Investment.protocol l).
Proof.
  induction l as [|x l IH]; [reflexivity|].
  cbn [filter map]. unfold ownKey at 1.
  destruct (negb (String.eqb (Investment.protocol x) "__proto__")); cbn [map];
    now rewrite IH.
Qed.

(** X20.  The protocol-distribution object has one property per distinct
    protocol of the portfolio other than [__proto__], under which a plain
    object takes no property: its keys are those protocols, none twice,
    and they are as many as the set of them has members. *)
Theorem protocolDistribution_one_entry_per_protocol (investments : list Investment.t) :
  let names := filter (fun P => negb (String.eqb P "__proto__"))
                      (map Investment.protocol investments) in
  List.length (protocolDistributionOf investments) = setSize names
  /\ NoDup (map fst (protocolDistributionOf investments))
  /\ forall P, In P (map fst (protocolDistributionOf investments)) <-> In P names.
Proof.
  cbv zeta. rewrite <- protocols_of_ownKey.
  rewrite protocolDistribution_entries, map_fst_entries, length_map.
  split; [|split].
  - unfold setSize. apply Nat.le_antisymm.
    + apply NoDup_incl_length; [apply protocolsOf_NoDup|].
      intros P H. apply nodup_In. now apply protocolsOf_In.
    + apply NoDup_incl_length; [apply NoDup_nodup|].
      intros P H. apply nodup_In in H. now apply protocolsOf_In.
  - apply protocolsOf_NoDup.
  - intro P. apply protocolsOf_In.
Qed.

Lemma filter_nil_Forall {A : Type} (f : A -> bool) (l : list A) :
  filter f l = [] <-> Forall (fun x => f x = false) l.
Proof.
  induction l as [|x l IH]; simpl.
  - split; [constructor | reflexivity].
  - destruct (f x) eqn:E; split; intro H.
    + discriminate H.
    + inversion H; congruence.
    + constructor; [exact E | now apply IH].
    + inversion H; subst. now apply IH.
Qed.

(** X29.  [calculatePortfolioHealth] throws, and sets no health, exactly
    for a portfolio that has investments all of which are under the
    protocol [__proto__]: the object then has no property to take the
    risk concentration from. *)
Theorem calculatePortfolioHealth_throws_for_proto (portfolio : Portfolio.t) :
  calculatePortfolioHealth portfolio = Throws
  <-> Portfolio.investments portfolio <> []
      /\ Forall (fun inv => Investment.protocol inv = "__proto__"%string)
                (Portfolio.investments portfolio).
Proof.
  assert (Hproto : forall l : list Investment.t,
             filter ownKey l = []
             <-> Forall (fun inv => Investment.protocol inv = "__proto__"%string) l).
  { intro l. rewrite filter_nil_Forall. split; apply Forall_impl; intros inv H.
    - unfold ownKey in H. apply negb_false_iff in H. now apply String.eqb_eq.
    - unfold ownKey. rewrite H. reflexivity. }
  split.
  - intro H.
    destruct (Portfolio.investments portfolio) as [|x rest] eqn:E.
    + unfold calculatePortfolioHealth in H. rewrite E in H. discriminate H.
    + split; [discriminate|]. apply Hproto.
      destruct (filter ownKey (x :: rest)) as [|y own] eqn:F; [reflexivity|].
      destruct (calculatePortfolioHealth_score portfolio) as (health & Hrun & _).
      * rewrite E, F. discriminate.
      * rewrite Hrun in H. discriminate H.
  - intros [Hne Hall]. apply Hproto in Hall.
    unfold calculatePortfolioHealth.
    destruct (Portfolio.investments portfolio) as [|x rest] eqn:E; [congruence|].
    cbv zeta. destruct (performers (x :: rest)) as [[[top under] maxRoi] minRoi].
    rewrite protocolDistribution_entries, Hall. reflexivity.
Qed.

Lemma SFcompare_antisym (x y : spec_float) :
  SFcompare x y = Some Gt -> SFcompare y x = Some Lt.
Proof.
  destruct x as [s1|s1| |s1 m1 e1], y as [s2|s2| |s2 m2 e2]; simpl; intro H;
    try discriminate H;
    try (destruct s1; try discriminate H; reflexivity);
    try (destruct s2; try discriminate H; reflexivity);
    try (destruct s1, s2; try discriminate H; reflexivity).
  rewrite (Z.compare_antisym e1 e2), (ZC4 m2 m1).
  destruct s1, s2; try discriminate H; try reflexivity;
    destruct (e1 ?= e2)%Z; simpl in *; try discriminate H; try reflexivity;
    destruct (Pos.compare_cont Eq m1 m2); simpl in *; try discriminate H; reflexivity.
Qed.

Lemma SFcompare_none (x y : spec_float) :
  SFcompare x y = None -> x = S754_nan \/ y = S754_nan.
Proof.
  destruct x as [s1|s1| |s1 m1 e1], y as [s2|s2| |s2 m2 e2]; simpl;
    try discriminate; auto.
Qed.

(** [Math.min(a, b)] is NaN or at most [a]. *)
Lemma Math_min_upper (a b : float) :
  isNaN (Math_min a b) = true \/ (Math_min a b <=? a) = true.
Proof.
  unfold Math_min.
  destruct (PrimFloat.is_nan a) eqn:Na; [left; reflexivity|].
  destruct (PrimFloat.is_nan b) eqn:Nb; [left; reflexivity|].
  cbn [orb]. right.
  apply is_nan_false in Na. apply is_nan_false in Nb.
  assert (Raa : (a <=? a) = true).
  { rewrite leb_spec. unfold SFleb. now rewrite SFcompare_refl. }
  destruct (a <? b) eqn:Lab; [exact Raa|].
  destruct (b <? a) eqn:Lba.
  - rewrite ltb_spec in Lba. rewrite leb_spec. unfold SFltb in Lba. unfold SFleb.
    destruct (SFcompare (Prim2SF b) (Prim2SF a)) as [[| |]|]; congruence.
  - destruct (PrimFloat.get_sign a); [exact Raa|].
    rewrite ltb_spec in Lab, Lba. rewrite leb_spec.
    unfold SFltb in Lab, Lba. unfold SFleb.
    destruct (SFcompare (Prim2SF b) (Prim2SF a)) as [[| |]|] eqn:C;
      try reflexivity; try discriminate Lba.
    + apply SFcompare_antisym in C. rewrite C in Lab. discriminate Lab.
    + apply SFcompare_none in C. destruct C; contradiction.
Qed.

(** X21.  The risk and performance scores of the health dashboard are
    never above 100: whenever a health is set, each is a number up to 100
    or NaN. *)
Theorem health_scores_capped (portfolio : Portfolio.t) (health : PortfolioHealth.t) :
  calculatePortfolioHealth portfolio = Completes health ->
  (isNaN (PortfolioHealth.riskScore health) = true
   \/ (PortfolioHealth.riskScore health <=? 100) = true)
  /\ (isNaN (PortfolioHealth.performanceScore health) = true
      \/ (PortfolioHealth.performanceScore health <=? 100) = true).
Proof.
  unfold calculatePortfolioHealth.
  destruct (Portfolio.investments portfolio) as [|inv rest] eqn:E.
  - intro H. injection H as <-. split; right; reflexivity.
  - cbv zeta. destruct (performers (inv :: rest)) as [[[top under] maxRoi] minRoi].
    destruct (protocolDistributionOf (inv :: rest)) as [|entry o]; [discriminate|].
    intro H. injection H as <-.
    cbn [PortfolioHealth.riskScore PortfolioHealth.performanceScore].
    split; apply Math_min_upper.
Qed.

Lemma health_scores_capped_witness :
  match calculatePortfolioHealth Samples.twoPositions with
  | Completes health =>
    (isNaN (PortfolioHealth.riskScore health) = true
     \/ (PortfolioHealth.riskScore health <=? 100) = true)
    /\ (isNaN (PortfolioHealth.performanceScore health) = true
        \/ (PortfolioHealth.performanceScore health <=? 100) = true)
  | Throws => False
  end.
Proof.
  destruct (calculatePortfolioHealth Samples.twoPositions) as [health|] eqn:E.
  - exact (health_scores_capped Samples.twoPositions health E).
  - vm_compute in E. discriminate E.
Defined.

(** What the loop over the investments keeps: each name it holds is the
    pool name of one of them. *)
Lemma performers_names (investments : list Investment.t) :
  forall top under maxRoi minRoi,
    performers investments = (top, under, maxRoi, minRoi) ->
    (forall n, top = Some n -> In n (map Investment.poolName investments))
    /\ (forall n, under = Some n -> In n (map Investment.poolName investments)).
Proof.
  unfold performers.
  assert (G : forall l acc top under maxRoi minRoi,
             fold_left
               (fun '(topPerformer, underperformer, maxRoi, minRoi) inv =>
                  let invRoi :=
                    (Investment.totalEarnings inv / Investment.amount inv) * 100 in
                  let '(topPerformer, maxRoi) :=
                    if maxRoi <? invRoi then (Some (Investment.poolName inv), invRoi)
                    else (topPerformer, maxRoi) in
                  let '(underperformer, minRoi) :=
                    if invRoi <? minRoi then (Some (Investment.poolName inv), invRoi)
                    else (underperformer, minRoi) in
                  (topPerformer, underperformer, maxRoi, minRoi))
               l acc = (top, under, maxRoi, minRoi) ->
             forall names,
               (forall n, fst (fst (fst acc)) = Some n -> In n names) ->
               (forall n, snd (fst (fst acc)) = Some n -> In n names) ->
               (forall n, top = Some n -> In n (names ++ map Investment.poolName l))
               /\ (forall n, under = Some n -> In n (names ++ map Investment.poolName l))).
  { induction l as [|inv l IH]; intros [[[t u] mx] mn] top under maxRoi minRoi H names Ht Hu.
    - simpl in H. injection H as <- <- <- <-. simpl in Ht, Hu.
      rewrite app_nil_r. split; assumption.
    - simpl in H. simpl map.
      replace (names ++ Investment.poolName inv :: map Investment.poolName l)
        with ((names ++ [Investment.poolName inv]) ++ map Investment.poolName l)
        by (rewrite <- app_assoc; reflexivity).
      eapply IH; [exact H | |].
      + simpl in Ht |- *. intros n Hn. apply in_or_app.
        destruct (mx <? _); destruct (_ <? mn); simpl in Hn;
          try (injection Hn as <-; right; now left);
          left; now apply Ht.
      + simpl in Hu |- *. intros n Hn. apply in_or_app.
        destruct (mx <? _); destruct (_ <? mn); simpl in Hn;
          try (injection Hn as <-; right; now left);
          left; now apply Hu. }
  intros top under maxRoi minRoi H.
  apply (G investments _ top under maxRoi minRoi H []); simpl; discriminate.
Qed.

(** X22.  Whenever a health is set, the top performer and the
    underperformer the dashboard names are pool names of the portfolio's
    investments, and the underperformer is never the pool named as top
    performer. *)
Theorem health_performers_named (portfolio : Portfolio.t) (health : PortfolioHealth.t)
        (n : string) :
  calculatePortfolioHealth portfolio = Completes health ->
  let names := map Investment.poolName (Portfolio.investments portfolio) in
  (PortfolioHealth.topPerformer health = Some n -> In n names)
  /\ (PortfolioHealth.underperformer health = Some n ->
      In n names /\ PortfolioHealth.topPerformer health <> Some n).
Proof.
  cbv zeta. unfold calculatePortfolioHealth.
  destruct (Portfolio.investments portfolio) as [|inv rest] eqn:E.
  - intro H. injection H as <-. split; discriminate.
  - cbv zeta.
    destruct (performers (inv :: rest)) as [[[top under] maxRoi] minRoi] eqn:P.
    destruct (protocolDistributionOf (inv :: rest)) as [|entry o]; [discriminate|].
    intro H. injection H as <-.
    destruct (performers_names _ _ _ _ _ P) as [Ht Hu].
    cbn [PortfolioHealth.topPerformer PortfolioHealth.underperformer].
    split; [apply Ht|].
    destruct (optStringEqb under top) eqn:Q; [discriminate|].
    intro H. split; [now apply Hu|].
    intro H'. subst under top. simpl in Q. rewrite String.eqb_refl in Q. discriminate Q.
Qed.

Lemma health_performers_named_witness :
  match calculatePortfolioHealth Samples.twoPositions with
  | Completes health =>
    let names := map Investment.poolName (Portfolio.investments Samples.twoPositions) in
    (PortfolioHealth.topPerformer health = Some "ETH/USDC"%string
     -> In "ETH/USDC"%string names)
    /\ (PortfolioHealth.underperformer health = Some "ETH/USDC"%string ->
        In "ETH/USDC"%string names
        /\ PortfolioHealth.topPerformer health <> Some "ETH/USDC"%string)
  | Throws => False
  end.
Proof.
  destruct (calculatePortfolioHealth Samples.twoPositions) as [health|] eqn:E.
  - exact (health_performers_named Samples.twoPositions health "ETH/USDC" E).
  - vm_compute in E. discriminate E.
Defined.

End HealthMore.

(** ** More on the yield service *)

Section YieldServiceMore.
Import YieldService MoreNotions.

(** X23.  When the data is read without an error, [getYieldOpportunities]
    logs nothing and returns every opportunity in order; it changes
    nothing but the user's balance, which is 0 in every one when there is
    no address (or the empty one), and with an address it returns the data
    as read. *)
Theorem getYieldOpportunities_on_success
        (retrieve : M (list YieldOpportunity)) (address : option string)
        (console console' : Console) (data : list YieldOpportunity) :
  retrieve console = (Returned data, console') ->
  exists result,
    getYieldOpportunitiesFrom retrieve address console = (Returned result, console')
    /\ map offerOf result = map offerOf data
    /\ if noAddress address
       then Forall (fun o => userBalance o = 0) result
       else result = data.
Proof.
  intro H. unfold getYieldOpportunitiesFrom, tryCatch, bind, ret. rewrite H.
  destruct (noAddress address); eexists; (split; [reflexivity|]).
  - split.
    + rewrite map_map. apply map_ext. intro o. reflexivity.
    + apply Forall_forall. intros o Ho. apply in_map_iff in Ho.
      destruct Ho as (o' & <- & _). reflexivity.
  - split; reflexivity.
Qed.

Lemma getYieldOpportunities_on_success_witness :
  exists result,
    getYieldOpportunitiesFrom (ret mockYieldData) (Some ""%string) []
    = (Returned result, [])
    /\ map offerOf result = map offerOf mockYieldData
    /\ if noAddress (Some ""%string)
       then Forall (fun o => userBalance o = 0) result
       else result = mockYieldData.
Proof.
  apply (getYieldOpportunities_on_success (ret mockYieldData) (Some ""%string) [] []
                                          mockYieldData).
  reflexivity.
Defined.

End YieldServiceMore.

(** ** More on liquidity pairs *)

Section LiquidityMore.
Import JS Liquidity LiquidityRoute MoreNotions.

Lemma calculateRiskScore_integer (pair : LiquidityPair) :
  exists k : nat, (5 <= k <= 20)%nat /\ calculateRiskScore pair = num k.
Proof.
  unfold calculateRiskScore. cbv zeta.
  match goal with
  | |- context [if ?c1 then 0 + 1 else if ?c2 then _ else if ?c3 then _ else _] =>
    destruct (risk_factor c1 c2 c3 0) as (a & Ha & ->)
  end.
  match goal with
  | |- context [if ?c1 then ?s + 1 else if ?c2 then ?s + 2 else if ?c3 then _ else _] =>
    destruct (risk_factor c1 c2 c3 s) as (e & He & ->)
  end.
  match goal with
  | |- context [if ?c1 then ?s + 1 else if ?c2 then ?s + 2 else if ?c3 then _ else _] =>
    destruct (risk_factor c1 c2 c3 s) as (d & Hd & ->)
  end.
  match goal with
  | |- context [if ?c1 then ?s + 1 else if ?c2 then ?s + 2 else if ?c3 then _ else _] =>
    destruct (risk_factor c1 c2 c3 s) as (c & Hc & ->)
  end.
  match goal with
  | |- context [if ?c1 then ?s + 1 else if ?c2 then ?s + 2 else if ?c3 then _ else _] =>
    destruct (risk_factor c1 c2 c3 s) as (b & Hb & ->)
  end.
  destruct (five_factors_sum a b c d e Ha Hb Hc Hd He) as [Hsum _].
  exists (a + b + c + d + e)%nat. split; [lia | exact Hsum].
Qed.

Lemma small_cases (P : nat -> Prop) :
  P 5%nat -> P 6%nat -> P 7%nat -> P 8%nat -> P 9%nat -> P 10%nat -> P 11%nat ->
  P 12%nat -> P 13%nat -> P 14%nat -> P 15%nat -> P 16%nat -> P 17%nat -> P 18%nat ->
  P 19%nat -> P 20%nat ->
  forall k, (5 <= k <= 20)%nat -> P k.
Proof.
  intros. 
  do 5 (destruct k as [|k]; [lia|]).
  do 16 (destruct k as [|k]; [assumption|]).
  lia.
Qed.

(** X24.  Of the 60 points the quality score gives to risk, a pair gets
    between 10 and 47.5: never all of them and never none; and the
    divisor of the risk-adjusted return, twice the risk score, is between
    10 and 40, so never zero. *)
Theorem quality_risk_component_range (pair : LiquidityPair) :
  (10 <=? riskComponentOf (calculateRiskScore pair)) = true
  /\ (riskComponentOf (calculateRiskScore pair) <=? 47.5) = true
  /\ (10 <=? calculateRiskScore pair * 2) = true
  /\ (calculateRiskScore pair * 2 <=? 40) = true.
Proof.
  destruct (calculateRiskScore_integer pair) as (k & Hk & ->).
  revert k Hk.
  apply small_cases; (split; [|split; [|split]]); vm_compute; reflexivity.
Qed.

(** X25.  The risk level in the response is low for a score up to 10,
    medium up to 16 and high above; as the score is an integer from 5 to
    20, every level occurs for six, six and four scores. *)
Theorem calculated_level_by_score (pair : LiquidityPair) :
  exists k : nat,
    calculateRiskScore pair = num k
    /\ calculatedRiskLevel pair
       = (if (k <=? 10)%nat then low else if (k <=? 16)%nat then medium else high)
    /\ (5 <= k <= 20)%nat.
Proof.
  destruct (calculateRiskScore_integer pair) as (k & Hk & E).
  exists k. split; [exact E|]. split; [|exact Hk].
  unfold calculatedRiskLevel. cbv zeta. rewrite E. clear E.
  revert k Hk.
  apply small_cases; vm_compute; reflexivity.
Qed.

Lemma In_filter_if {A : Type} (c : bool) (f : A -> bool) (l : list A) (x : A) :
  In x (if c then filter f l else l) -> In x l /\ (c = true -> f x = true).
Proof.
  destruct c; intro H.
  - apply filter_In in H. destruct H. split; auto.
  - split; [exact H | discriminate].
Qed.

Lemma filteredPairs_In (q : Query) (pairs : list LiquidityPair) (pair : LiquidityPair) :
  In pair (filteredPairs q pairs) -> In pair pairs /\ passes q pair.
Proof.
  unfold filteredPairs. cbv zeta. intro H.
  apply In_filter_if in H. destruct H as [H Hapr].
  apply In_filter_if in H. destruct H as [H Htvl].
  unfold passes.
  destruct (riskLevelParam q) as [level|] eqn:L.
  - destruct (String.eqb level "") eqn:Z.
    + apply String.eqb_eq in Z. split; [exact H|]. split; [|split; assumption].
      intros level' E Hne. injection E as <-. contradiction.
    + apply filter_In in H. destruct H as [H Hl]. split; [exact H|].
      split; [|split; assumption].
      intros level' E _. injection E as <-. now apply String.eqb_eq.
  - split; [exact H|]. split; [|split; assumption].
    intros level' E. discriminate E.
Qed.

(** X26.  Every pair of the response is one of the stored pairs that
    passed the filters of the query, the risk-level filter on the stored
    level; what it carries as its risk level is the calculated one, its
    score that of [calculateRiskScore], its projection that of
    [calculatePotentialProfit] for the amount and horizon of the query. *)
Theorem response_pairs_pass_filters (Math_pow : float -> float -> float)
        (q : Query) (pairs : list LiquidityPair) (m : PairWithMetrics) :
  In m (resultPairs Math_pow q pairs) ->
  In (pairOf m) pairs
  /\ passes q (pairOf m)
  /\ riskLevelOf m = calculatedRiskLevel (pairOf m)
  /\ riskScoreOf m = calculateRiskScore (pairOf m)
  /\ profitProjection m
     = calculatePotentialProfit Math_pow (pairOf m) (investmentAmount q) (timeHorizon q)
  /\ (showHealthyOnly q = true -> riskLevelOf m = low).
Proof.
  unfold resultPairs. cbv zeta. intro H.
  apply In_filter_if in H. destruct H as [H _].
  apply In_filter_if in H. destruct H as [H Hhealthy].
  unfold pairsWithMetrics in H. apply in_map_iff in H.
  destruct H as (pair & <- & Hin).
  apply filteredPairs_In in Hin. destruct Hin as [Hin Hpass].
  cbn [pairOf riskLevelOf riskScoreOf profitProjection withMetrics].
  split; [exact Hin|]. split; [exact Hpass|].
  split; [reflexivity|]. split; [reflexivity|]. split; [reflexivity|].
  intro Hh. specialize (Hhealthy Hh).
  cbn [pairOf riskLevelOf riskScoreOf profitProjection withMetrics] in Hhealthy.
  apply andb_prop in Hhealthy. destruct Hhealthy as [Hhealthy _].
  apply andb_prop in Hhealthy. destruct Hhealthy as [Hhealthy _].
  apply andb_prop in Hhealthy. destruct Hhealthy as [Hhealthy _].
  unfold isLow in Hhealthy.
  destruct (if calculateRiskScore pair <=? 10 then low
            else if calculateRiskScore pair <=? 16 then medium else high);
    [reflexivity | discriminate | discriminate].
Qed.

Lemma response_pairs_pass_filters_witness :
  let q := {| riskLevelParam := Some "low"%string; minTvl := 0; minApr := 0;
              investmentAmount := 1000; timeHorizon := 30;
              showHealthyOnly := false; minQualityScore := 0 |} in
  let m := withMetrics Samples.square q Samples.safestPair in
  In (pairOf m) [Samples.safestPair; Samples.riskiestPair]
  /\ passes q (pairOf m)
  /\ riskLevelOf m = calculatedRiskLevel (pairOf m)
  /\ riskScoreOf m = calculateRiskScore (pairOf m)
  /\ profitProjection m
     = calculatePotentialProfit Samples.square (pairOf m) (investmentAmount q)
                                (timeHorizon q)
  /\ (showHealthyOnly q = true -> riskLevelOf m = low).
Proof.
  apply (response_pairs_pass_filters
           Samples.square
           {| riskLevelParam := Some "low"%string; minTvl := 0; minApr := 0;
              investmentAmount := 1000; timeHorizon := 30;
              showHealthyOnly := false; minQualityScore := 0 |}
           [Samples.safestPair; Samples.riskiestPair]).
  left. reflexivity.
Defined.

End LiquidityMore.

(** ** The chart *)

Section ChartMore.
Import JS Tracker Chart MoreNotions.

Lemma forEachInvestment_label env offset (investments : list Investment.t) :
  forall index dayData,
    dayLabel (forEachInvestment env offset investments index dayData) = dayLabel dayData.
Proof.
  induction investments as [|inv rest IH]; intros index dayData; [reflexivity|].
  simpl. rewrite IH. unfold addInvestmentToDay.
  destruct (chartDaysSince env offset (Investment.startDate inv)) as [d|]; [|reflexivity].
  destruct (0 <=? d)%Z; reflexivity.
Qed.

Lemma daysOfTimeframe_values (timeframe : string) :
  In (daysOfTimeframe timeframe) [7; 30; 90; 365]%nat.
Proof.
  unfold daysOfTimeframe. cbv zeta.
  destruct (String.eqb timeframe "365d"); [simpl; tauto|].
  destruct (String.eqb timeframe "90d"); [simpl; tauto|].
  destruct (String.eqb timeframe "7d"); simpl; tauto.
Qed.

(** X27.  For a portfolio with investments the chart has one point per
    day of the time frame, 7, 90 or 365 days and 30 for any other time
    frame, labelled with the days up to today, today last. *)
Theorem chart_one_point_per_day (env : ChartEnv) (timeframe : string)
        (portfolio : Portfolio.t) :
  Portfolio.investments portfolio <> [] ->
  let data := generateChartData env timeframe portfolio in
  let days := daysOfTimeframe timeframe in
  List.length data = days
  /\ In days [7; 30; 90; 365]%nat
  /\ map dayLabel data
     = map (fun i => chartLabel env (Z.of_nat i + 1 - Z.of_nat days)%Z) (seq 0 days)
  /\ forall d, last (map dayLabel data) d = chartLabel env 0.
Proof.
  intro Hne. cbv zeta. unfold generateChartData.
  destruct (Portfolio.investments portfolio) as [|inv rest] eqn:E; [congruence|].
  cbv zeta.
  assert (L : map dayLabel
                  (map (fun i => chartDay env (inv :: rest)
                                          (- Z.of_nat (daysOfTimeframe timeframe)
                                           + Z.of_nat i + 1)%Z)
                       (seq 0 (daysOfTimeframe timeframe)))
              = map (fun i => chartLabel env (Z.of_nat i + 1
                                              - Z.of_nat (daysOfTimeframe timeframe))%Z)
                    (seq 0 (daysOfTimeframe timeframe))).
  { rewrite map_map. apply map_ext. intro i. unfold chartDay.
    rewrite forEachInvestment_label. simpl. f_equal. lia. }
  split; [now rewrite length_map, length_seq|].
  split; [apply daysOfTimeframe_values|].
  split; [exact L|].
  intro d. rewrite L.
  pose proof (daysOfTimeframe_values timeframe) as V.
  destruct (daysOfTimeframe timeframe) as [|n]; [simpl in V; lia|].
  rewrite seq_S, map_app. simpl map. rewrite last_snoc. f_equal. lia.
Qed.

Lemma chart_one_point_per_day_witness :
  let data := generateChartData
                {| chartPow := Samples.square;
                   chartLabel := fun _ => "Jan 01"%string;
                   chartDaysSince := fun offset _ => Some (offset + 3)%Z |}
                "7d" Samples.twoPositions in
  List.length data = 7%nat.
Proof.
  apply (chart_one_point_per_day
           {| chartPow := Samples.square;
              chartLabel := fun _ => "Jan 01"%string;
              chartDaysSince := fun offset _ => Some (offset + 3)%Z |}
           "7d" Samples.twoPositions).
  vm_compute. discriminate.
Defined.

Lemma forEachInvestment_lines env offset (investments : list Investment.t) :
  forall index dayData,
    dayTotalValue dayData
    = fold_left (fun sum v => sum + v) (map snd (dayInvestments dayData)) 0 ->
    let result := forEachInvestment env offset investments index dayData in
    dayTotalValue result
    = fold_left (fun sum v => sum + v) (map snd (dayInvestments result)) 0
    /\ map fst (dayInvestments result)
       = map fst (dayInvestments dayData)
         ++ map fst (filter (fun p => started env offset (snd p))
                            (indexedFrom index investments)).
Proof.
  induction investments as [|inv rest IH]; intros index dayData H; cbv zeta.
  - simpl. rewrite app_nil_r. split; [exact H | reflexivity].
  - cbn [forEachInvestment]. unfold indexedFrom. cbn [List.length seq combine filter snd].
    unfold started at 1. unfold addInvestmentToDay.
    destruct (chartDaysSince env offset (Investment.startDate inv)) as [d|].
    + destruct (0 <=? d)%Z.
      * match goal with
        | |- context [forEachInvestment env offset rest (S index) ?d'] =>
          destruct (IH (S index) d') as [T K]
        end.
        { cbn [dayTotalValue dayInvestments]. rewrite map_app, fold_left_app.
          simpl. now rewrite H. }
        split; [exact T|]. rewrite K. cbn [dayInvestments].
        rewrite map_app, <- app_assoc. reflexivity.
      * destruct (IH (S index) dayData H) as [T K]. split; [exact T | exact K].
    + destruct (IH (S index) dayData H) as [T K]. split; [exact T | exact K].
Qed.

(** X28.  Every point of the chart counts the investments that had
    started by its day and no other: its lines are keyed by the positions
    of those investments in the portfolio, in order, and its total value
    is the sum of its lines.  An investment with no start date, one that
    does not parse or one in the future of that day adds nothing. *)
Theorem chart_point_counts_started (env : ChartEnv) (timeframe : string)
        (portfolio : Portfolio.t) :
  Forall (fun point =>
            dayTotalValue point
            = fold_left (fun sum v => sum + v) (map snd (dayInvestments point)) 0
            /\ exists offset : Z,
                (- Z.of_nat (daysOfTimeframe timeframe) < offset <= 0)%Z
                /\ dayLabel point = chartLabel env offset
                /\ map fst (dayInvestments point)
                   = map fst (filter (fun p => started env offset (snd p))
                                     (indexedFrom 0 (Portfolio.investments portfolio))))
         (generateChartData env timeframe portfolio).
Proof.
  unfold generateChartData.
  destruct (Portfolio.investments portfolio) as [|inv rest] eqn:E; [constructor|].
  cbv zeta. apply Forall_forall. intros point Hin.
  apply in_map_iff in Hin. destruct Hin as (i & <- & Hi). apply in_seq in Hi.
  unfold chartDay.
  match goal with
  | |- context [forEachInvestment env ?o (inv :: rest) 0 ?d0] =>
    destruct (forEachInvestment_lines env o (inv :: rest) 0%nat d0 eq_refl) as [T K];
      pose proof (forEachInvestment_label env o (inv :: rest) 0%nat d0) as L
  end.
  split; [exact T|].
  eexists. split; [|split; [exact L | exact K]]. lia.
Qed.

End ChartMore.

(** ** The JSON copy and the form *)

Section FormsMore.
Import JS Tracker Notions MoreNotions.

Lemma finite_of_SF (x : float) :
  (exists s, Prim2SF x = S754_zero s) \/ (exists s m e, Prim2SF x = S754_finite s m e) ->
  PrimFloat.is_finite x = true.
Proof.
  intro H. unfold PrimFloat.is_finite, PrimFloat.is_infinity.
  apply negb_true_iff, orb_false_iff. split.
  - apply is_nan_false. destruct H as [[s H] | (s & m & e & H)]; rewrite H; discriminate.
  - rewrite eqb_spec, abs_spec, SF_infinity.
    destruct H as [[s H] | (s & m & e & H)]; rewrite H; reflexivity.
Qed.

Lemma bounded_finite (x : float) :
  (30 <=? x) = true -> (x <=? 95) = true -> PrimFloat.is_finite x = true.
Proof.
  rewrite !leb_spec. intros Hlo Hhi. apply finite_of_SF.
  destruct (Prim2SF x) as [s|s| |s m e].
  - left. now exists s.
  - destruct s; vm_compute in Hlo, Hhi; discriminate.
  - vm_compute in Hlo. discriminate Hlo.
  - right. now exists s, m, e.
Qed.

Lemma jsonNumber_finite (x : float) :
  PrimFloat.is_finite x = true ->
  PrimFloat.is_finite (jsonNumber x) = true /\ (jsonNumber x =? x) = true.
Proof.
  intro H. unfold jsonNumber. rewrite H.
  destruct (PrimFloat.is_zero x) eqn:Z.
  - split; [reflexivity|]. apply is_zero_spec in Z. destruct Z as [s Z].
    rewrite eqb_spec, SF_zero, Z. reflexivity.
  - split; [exact H|]. rewrite eqb_spec. unfold SFeqb.
    rewrite SFcompare_refl; [reflexivity|].
    destruct (is_finite_spec x H) as [[s E] | (s & m & e & E)]; rewrite E; discriminate.
Qed.

Lemma buildInvestment_finite (pow : float -> float -> float) (now : Z)
      (f : NewInvestment) :
  finiteForm f -> handedOnFinite (buildInvestment pow now f).
Proof.
  intros (Ha & Hy & Hv). unfold handedOnFinite.
  cbn [buildInvestment Investment.amount Investment.apy Investment.riskScore
                       Investment.volatility].
  split; [exact Ha|]. split; [exact Hy|]. split.
  - destruct (calculateInvestmentRiskScore_tight
                (newProtocol f) (orElse (newVolatility f) 5) (newApy f)) as [Hlo Hhi].
    now apply bounded_finite.
  - unfold orElse. destruct (truthy (newVolatility f)); [exact Hv | reflexivity].
Qed.

Lemma simulateInvestment_finite clock (inv : Investment.t) :
  handedOnFinite inv -> handedOnFinite (simulateInvestment clock inv).
Proof. intro H. exact H. Qed.

Lemma jsonInvestment_finite (inv : Investment.t) :
  handedOnFinite inv -> handedOnFinite (jsonInvestment inv) /\ copiedAsIs inv.
Proof.
  intros (Ha & Hy & Hr & Hv).
  destruct (jsonNumber_finite _ Ha) as [A1 A2].
  destruct (jsonNumber_finite _ Hy) as [Y1 Y2].
  destruct (jsonNumber_finite _ Hr) as [R1 R2].
  destruct (jsonNumber_finite _ Hv) as [V1 V2].
  split; [split; [exact A1 | split; [exact Y1 | split; [exact R1 | exact V1]]]|].
  split; [exact A2 | split; [exact Y2 | split; [exact R2 | exact V2]]].
Qed.

Lemma Forall_map_preserved {A : Type} (P : A -> Prop) (f : A -> A) (l : list A) :
  (forall x, P x -> P (f x)) -> Forall P l -> Forall P (map f l).
Proof.
  intros Hf. induction 1 as [|x rest Hx _ IH]; simpl; constructor; auto.
Qed.

Lemma jsonClone_finite (p : Portfolio.t) : allFinite p -> allFinite (jsonClone p).
Proof.
  unfold allFinite. cbn [jsonClone Portfolio.investments].
  apply Forall_map_preserved. intros inv H. now apply jsonInvestment_finite.
Qed.

Lemma simulateSingleDay_finite clock (p : Portfolio.t) :
  allFinite p -> allFinite (simulateSingleDayWithoutStateUpdate clock p).
Proof.
  unfold allFinite. cbn [simulateSingleDayWithoutStateUpdate Portfolio.investments].
  apply Forall_map_preserved. intros inv H. exact H.
Qed.

Lemma simulateDays_finite clock (n : nat) :
  forall p, allFinite p -> allFinite (simulateDays clock n p).
Proof.
  induction n as [|n IH]; intros p H; [exact H|].
  cbn [simulateDays]. apply IH. now apply simulateSingleDay_finite.
Qed.

Lemma removeInvestment_finite (id : string) (p : Portfolio.t) :
  allFinite p -> allFinite (removeInvestment id p).
Proof.
  unfold allFinite. intro H.
  rewrite removeInvestment_investments. now apply Forall_filter.
Qed.

Lemma addInvestment_finite (pow : float -> float -> float) (now : Z)
      (f : NewInvestment) (p : Portfolio.t) :
  finiteForm f -> allFinite p -> allFinite (addInvestment pow now f p).
Proof.
  unfold allFinite. intros Hf H. cbn [addInvestment Portfolio.investments].
  apply Forall_app. split; [exact H|].
  constructor; [now apply buildInvestment_finite | constructor].
Qed.

Lemma simulateDailyUpdate_finite env days showProgress s :
  finiteInvariant s -> finiteInvariant (simulateDailyUpdate env days showProgress s).
Proof.
  intros (Hp & Hr & Ht). unfold simulateDailyUpdate.
  destruct ((days <=? 0)%Z || _); [repeat split; assumption|].
  destruct showProgress.
  - split; [exact Hp|]. split; [exact Hr|].
    cbn [intervals setSimulation]. apply Forall_app. split; [exact Ht|].
    constructor; [|constructor]. cbn [simulatedPortfolio]. now apply jsonClone_finite.
  - assert (Hc : allFinite
                   (simulateDays (daysSince env) (Z.to_nat days) (jsonClone (portfolio s))))
      by (apply simulateDays_finite; now apply jsonClone_finite).
    split; [exact Hc|]. split; [|exact Ht].
    intros p E. cbn in E. injection E as <-. exact Hc.
Qed.

Lemma intervalTick_finite env k s :
  finiteInvariant s -> finiteInvariant (intervalTick env k s).
Proof.
  intros (Hp & Hr & Ht). unfold intervalTick.
  destruct (nth_error (intervals s) k) as [t|] eqn:Hk; [|repeat split; assumption].
  pose proof (nth_error_Forall _ _ _ _ Ht Hk) as Hc.
  destruct (days t <=? currentDay t)%Z.
  - split; [exact Hp|]. split.
    + intros p E. cbn in E. injection E as <-. exact Hc.
    + cbn [intervals setSimulation]. apply updateTimer_Forall; [exact Ht | discriminate].
  - split; [exact Hp|]. split; [exact Hr|].
    cbn [intervals setSimulation]. apply updateTimer_Forall; [exact Ht|].
    intros t' E. injection E as <-. cbn [simulatedPortfolio].
    now apply simulateSingleDay_finite.
Qed.

Lemma reachableFromForms_finite (s : State) :
  reachableFromForms s -> finiteInvariant s.
Proof.
  induction 1 as [|env e s Hs IH Hform].
  - split; [constructor|]. split; [discriminate | constructor].
  - destruct e; simpl.
    + destruct IH as (Hp & Hr & Ht). split; [|split; assumption].
      now apply addInvestment_finite.
    + destruct IH as (Hp & Hr & Ht). split; [|split; assumption].
      now apply removeInvestment_finite.
    + unfold onQuickSimulate.
      pose proof (simulateDailyUpdate_finite env (simulationDays s) false s IH)
        as (Hp & Hr & Ht).
      split; [exact Hp | split; assumption].
    + unfold onStartVisualSimulation. apply simulateDailyUpdate_finite.
      destruct IH as (Hp & Hr & Ht). split; [exact Hp|]. split; [|exact Ht].
      intros p E. discriminate E.
    + now apply intervalTick_finite.
    + destruct IH as (Hp & Hr & Ht). split; [exact Hp | split; assumption].
    + destruct IH as (Hp & Hr & Ht). split; [exact Hp | split; assumption].
    + unfold applySimulationToPortfolio.
      destruct (simulatedPortfolioResult s) as [newPortfolio|] eqn:Hres; [|exact IH].
      destruct IH as (Hp & Hr & Ht).
      split; [exact (Hr _ Hres)|]. split; [|exact Ht].
      intros p E. discriminate E.
    + destruct IH as (Hp & Hr & Ht). split; [exact Hp | split; assumption].
    + destruct IH as (Hp & Hr & Ht). split; [exact Hp | split; assumption].
    + destruct IH as (Hp & Hr & Ht). split; [exact Hp | split; assumption].
Qed.

(** X30.  From a first visit on, as long as every form submitted holds
    finite numbers, the amount, APY, risk score and volatility of every
    investment on screen are finite, and the JSON copy a simulation works
    on has them as they are, none of them turned into a null. *)
Theorem json_copy_exact_from_forms (s : State) :
  reachableFromForms s ->
  Forall (fun inv => handedOnFinite inv /\ copiedAsIs inv)
         (Portfolio.investments (portfolio s)).
Proof.
  intro H. destruct (reachableFromForms_finite s H) as (Hp & _ & _).
  revert Hp. unfold allFinite. apply Forall_impl.
  intros inv Hinv. split; [exact Hinv | now apply jsonInvestment_finite].
Qed.

Lemma json_copy_exact_from_forms_witness :
  Forall (fun inv => handedOnFinite inv /\ copiedAsIs inv)
         (Portfolio.investments
            (portfolio
               (step Samples.env QuickSimulate
                     (step Samples.env (AddInvestment 1 Samples.stableForm)
                           initialState)))).
Proof.
  apply json_copy_exact_from_forms.
  apply fromForms_step; [|exact I].
  apply fromForms_step; [apply fromForms_initial|].
  repeat split.
Defined.

End FormsMore.
